(** * EVM volume bot: wallet rotation and trade scheduling

    A shallow embedding of [src/server/server.js] (the stand-alone script) and
    [src/server/mysever.js] (the variant driven by the HTTP control surface).
    Functions that are textually the same in both files are embedded once;
    where the two files differ the variants live in [Module Server] and
    [Module MyServer].

    Conventions.
    - A [BigNumber] (wei, token base units, gas price) is a [Z].
    - A JavaScript [Number] holding an amount, a price or a random draw is an
      exact rational [Q]: the rounding of binary64 arithmetic is not
      modelled.  The single place where an integer is derived from a
      binary64 product, [Math.floor(length * 0.7)], is modelled bit-exactly
      in [Module Double].
    - An awaited call to the chain that may reject is an [option]: [None] is
      a rejected promise (a thrown error).  What the chain, the clock, the
      random generator and the file system answer is an explicit argument of
      each function.
    - [console.log] / [console.error] lines are returned as values where a
      property talks about them. *)

From Stdlib Require Import ZArith QArith Qround Qabs Lqa Lia SpecFloat.
From stdpp Require Import gmap strings list.

Open Scope Z_scope.

(** ** Binary64 products that are floored to an integer *)

Module Double.

(** [P / 2^s] rounded to the nearest integer, ties to even. *)
Definition roundNearestEven (P s : Z) : Z :=
  let q := P / 2 ^ s in
  let r := P mod 2 ^ s in
  let half := 2 ^ (s - 1) in
  if r <? half then q
  else if half <? r then q + 1
  else if Z.even q then q else q + 1.

(** Number of low bits of [P] that do not fit a 53-bit significand. *)
Definition excessBits (P : Z) : Z := Z.max 0 (Z.log2 P + 1 - 53).

(** [Math.floor(n * d)] where [n] is an integer below [2^53] and [d] is the
    binary64 number [m * 2^-53]: the exact product [n * m * 2^-53] is
    rounded to 53 significant bits and then floored. *)
Definition floorMul (n m : Z) : Z :=
  let P := n * m in
  let s := excessBits P in
  let M := if s =? 0 then P else roundNearestEven P s in
  (M * 2 ^ s) / 2 ^ 53.

(** The same computation through the Standard Library's reference model of
    IEEE 754 arithmetic, used to cross-check [floorMul]. *)
Definition floorSpec (f : spec_float) : Z :=
  match f with
  | S754_finite false m e => if 0 <=? e then Z.pos m * 2 ^ e else Z.pos m / 2 ^ (- e)
  | S754_finite true m e => if 0 <=? e then - (Z.pos m * 2 ^ e) else (- Z.pos m) / 2 ^ (- e)
  | _ => 0
  end.

Definition floorMulSpec (n : Z) (m : positive) : Z :=
  floorSpec (SFmul 53 1024 (binary_normalize 53 1024 n 0 false) (S754_finite false m (-53))).

End Double.

(** ** Numbers, units and conversions *)

(** [ethers.utils.formatEther(wei)] read back with [Number(...)]. *)
Definition formatEther (wei : Z) : Q := wei # 1000000000000000000.

(** [Number(ethers.utils.formatUnits(wei, "gwei"))]. *)
Definition formatGwei (wei : Z) : Q := wei # 1000000000.

(** [Math.floor(x + 1/2)]: the integer nearest to a non-negative [x], the
    larger one on a tie, which is how [Number.prototype.toFixed] picks its
    digits. *)
Definition roundHalfUp (x : Q) : Z := Qfloor (x + (1 # 2)).

(** [ethers.utils.parseEther(x.toFixed(18))].  [toFixed] switches to
    exponent notation from [1e21] on, which [parseEther] rejects; below that
    it renders the nearest multiple of [1e-18] (sign first, then the digits
    of the absolute value). *)
Definition parseEtherFixed18 (x : Q) : option Z :=
  if Qle_bool (1000000000000000000000 # 1) (Qabs x) then None
  else if Qle_bool 0 x then Some (roundHalfUp (x * (1000000000000000000 # 1)))
  else Some (- roundHalfUp (- x * (1000000000000000000 # 1))).

(** JavaScript's [a || b] on numbers: [a] when it is truthy (neither [NaN]
    nor zero), otherwise [b].  [None] stands for [NaN]. *)
Definition orElse (a : option Q) (b : Q) : Q :=
  match a with
  | Some q => if Qeq_bool q 0 then b else q
  | None => b
  end.

(** ** Configuration *)

Record TradingParams := {
  minAmountAVAX : Q;
  maxAmountAVAX : Q;
  minInterval : Q;
  maxInterval : Q;
  gasMultiplier : Q;
  fundAmount : Q
}.

Record Contracts := {
  router : string;
  wAVAX : string;
  targetToken : string
}.

Record ChainConfig := {
  name : string;
  maxGasPrice : Q;
  contracts : Contracts;
  tradingParams : TradingParams
}.

(** [GLOBAL_CONFIG], identical in both files. *)
Definition RANDOM_VARIANCE : Q := 1 # 100.
Definition MIN_AVAX_BALANCE : Q := 1 # 1000.
Definition ACTIVE_WALLET_PERCENTAGE : Q := 7 # 10.
(** The binary64 constant written [0.7] is [6305039478318694 * 2^-53]. *)
Definition ACTIVE_WALLET_PERCENTAGE_bits : positive := 6305039478318694.
Definition RETRY_DELAY : Z := 60000.
Definition CHECK_INTERVAL : Z := 30000.
Definition WALLET_FUND_THRESHOLD : Q := 5 # 100.

(** ** Wallet records *)

Record WalletRecord := {
  address : string;
  privateKey : string;
  lastTradeTime : Z
}.

Definition setLastTradeTime (w : WalletRecord) (t : Z) : WalletRecord :=
  {| address := address w; privateKey := privateKey w; lastTradeTime := t |}.

(** ** Random amounts and delays *)

(** [generateRandomAmount], with the variance factor as an argument.  [r1]
    and [r2] are the two [Math.random()] draws, in evaluation order. *)
Definition generateRandomAmountWith (varianceFactor : Q) (tp : TradingParams) (r1 r2 : Q) : Q :=
  let baseAmount := (minAmountAVAX tp + r1 * (maxAmountAVAX tp - minAmountAVAX tp))%Q in
  let variance := (baseAmount * varianceFactor * (r2 * 2 - 1))%Q in
  (baseAmount + variance)%Q.

Definition generateRandomAmount (tp : TradingParams) (r1 r2 : Q) : Q :=
  generateRandomAmountWith RANDOM_VARIANCE tp r1 r2.

Definition generateRandomDelay (tp : TradingParams) (r : Q) : Q :=
  (minInterval tp + r * (maxInterval tp - minInterval tp))%Q.

(** A [Math.random()] draw lies in [[0, 1)]. *)
Definition isRandom (r : Q) : Prop := (0 <= r /\ r < 1)%Q.

Definition Qlt_bool (x y : Q) : bool := negb (Qle_bool y x).

(** ** The active wallet count *)

(** [Math.floor(this.tempWallets.length * GLOBAL_CONFIG.ACTIVE_WALLET_PERCENTAGE)],
    the product taken in binary64 as JavaScript does. *)
Definition activeCount (poolSize : nat) : nat :=
  Z.to_nat (Double.floorMul (Z.of_nat poolSize) (Z.pos ACTIVE_WALLET_PERCENTAGE_bits)).

(** ** Calls to the chain *)

(** What the ethers library contributes besides arithmetic. *)
Class Ethers := {
  (** [new ethers.Wallet(privateKey, provider).address]; the construction is
      taken to succeed, as it does for the 32-byte keys the bot generates *)
  walletAddress : string -> string;
  (** [ethers.utils.parseEther(x.toString())]: the outcome depends on the
      digits [Number.prototype.toString] prints for the binary64 value and is
      left uninterpreted; [None] is a thrown error. *)
  parseEtherString : Q -> option Z
}.

(** Requests that reach the chain, as the code issues them. *)
Inductive ChainCall :=
| SendTransaction (sender recipient : string) (value gasLimit gasPrice : Z)
| Approve (owner spender : string) (amount : Z)
| SwapNativeForTokens (sender : string) (amountOutMin : Z) (path : list string)
    (recipient : string) (deadline value gasLimit gasPrice : Z)
| SwapTokensForNative (sender : string) (amountIn amountOutMin : Z) (path : list string)
    (recipient : string) (deadline gasLimit gasPrice : Z) (nonce : option Z).

(** An [async] body: the chain calls issued so far, and either a value or a
    thrown error ([None]). *)
Definition Async (A : Type) : Type := (list ChainCall * option A)%type.

Definition ret {A} (a : A) : Async A := ([], Some a).

Definition bind {A B} (m : Async A) (k : A -> Async B) : Async B :=
  match m with
  | (calls, Some a) => let '(calls', r) := k a in (calls ++ calls', r)
  | (calls, None) => (calls, None)
  end.

Notation "x <- m ;; k" := (bind m (fun x => k))
  (at level 100, m at next level, right associativity).
Notation "m ;;; k" := (bind m (fun _ => k))
  (at level 100, right associativity).

(** [await p] for a promise that resolves to [a] ([Some a]) or rejects. *)
Definition await {A} (reply : option A) : Async A := ([], reply).

(** A state-changing request: it is issued, and accepted or rejected. *)
Definition call (c : ChainCall) (accepted : bool) : Async unit :=
  ([c], if accepted then Some tt else None).

(** [await tx.wait()]. *)
Definition wait (confirmed : bool) : Async unit :=
  ([], if confirmed then Some tt else None).

(** [try { m } catch (error) { console.error(...) }] *)
Definition tryCatch (m : Async unit) : Async unit :=
  match m with
  | (calls, _) => (calls, Some tt)
  end.

Definition callsOf {A} (m : Async A) : list ChainCall := fst m.

(** What the outside world answers during one [executeTrade]. *)
Record TradeEnv := {
  (* fundWallet *)
  fundBalance : option Z;
  fundGasPrice : option Z;
  fundSent : bool;
  fundConfirmed : bool;
  (* executeTrade *)
  avaxBalance : option Z;
  tokenBalance : option Z;
  rndBase : Q;
  rndVariance : Q;
  rndDirection : Q;
  gasPrice : option Z;
  (* buyTokensWithAVAX / sellTokensForAVAX *)
  clock : Z;
  rndSell : Q;
  approveAccepted : bool;
  amountsOut : option (list Z);
  transactionCount : option Z;
  swapSent : bool;
  swapConfirmed : bool;
  (* returnFundsToMain *)
  sweepBalance : option Z;
  sweepGasPrice : option Z;
  sweepSent : bool;
  sweepConfirmed : bool;
  (* Date.now() after the trade *)
  tradeTime : Z
}.

(** [calculateSlippage]: the last of the quoted amounts, formatted; [null]
    ([None]) when the router call rejects or nothing can be formatted.  The
    string it returns on success is never empty, hence always truthy. *)
Definition calculateSlippage (reply : option (list Z)) : option Q :=
  match reply with
  | Some amounts =>
      match last amounts with
      | Some expectedOutput => Some (formatEther expectedOutput)
      | None => None
      end
  | None => None
  end.

(** [expectedOutput ? parseEther((Number(expectedOutput) * 0.95).toFixed(18)) : 0] *)
Definition minOutFixed18 (expectedOutput : option Q) : Async Z :=
  match expectedOutput with
  | Some e => await (parseEtherFixed18 (e * (95 # 100)))
  | None => ret 0
  end.

(** [0.3 + Math.random() * 0.4] *)
Definition sellPercentage (r : Q) : Q := ((3 # 10) + r * (4 # 10))%Q.

(** [availableAmount * sellPercentage] *)
Definition amountToSell (availableAmount r : Q) : Q := (availableAmount * sellPercentage r)%Q.

(** [Math.floor(Date.now() / 1000) + 60 * 20] *)
Definition deadlineAt (now : Z) : Z := now / 1000 + 60 * 20.

(** Outcome of one [executeTrade], read off the line it logs. *)
Inductive TradeLog :=
| LogInsufficient
| LogExecuted (isBuy : bool) (tradeAmount : Q)
| LogFailed.

(** ** The bot object *)

Record Bot := {
  chainConfig : ChainConfig;
  mainWallet : string;
  tempWalletCount : Z;
  tempWallets : list WalletRecord;
  activeWallets : gset string;
  walletFile : string;
  (** [this.running]; only [mysever.js] has the field *)
  running : bool
}.

Definition setTempWallets (this : Bot) (ws : list WalletRecord) : Bot :=
  {| chainConfig := chainConfig this; mainWallet := mainWallet this;
     tempWalletCount := tempWalletCount this; tempWallets := ws;
     activeWallets := activeWallets this; walletFile := walletFile this;
     running := running this |}.

Definition setActiveWallets (this : Bot) (s : gset string) : Bot :=
  {| chainConfig := chainConfig this; mainWallet := mainWallet this;
     tempWalletCount := tempWalletCount this; tempWallets := tempWallets this;
     activeWallets := s; walletFile := walletFile this;
     running := running this |}.

Definition setRunning (this : Bot) (r : bool) : Bot :=
  {| chainConfig := chainConfig this; mainWallet := mainWallet this;
     tempWalletCount := tempWalletCount this; tempWallets := tempWallets this;
     activeWallets := activeWallets this; walletFile := walletFile this;
     running := r |}.

(** [updateActiveWallets].  [shuffle] is what
    [[...this.tempWallets].sort(() => 0.5 - Math.random())] returns; sorting
    with such a comparator leaves the order to the engine, so the result is
    an argument. *)
Definition updateActiveWallets (shuffle : list WalletRecord -> list WalletRecord) (this : Bot) : Bot :=
  let activeCount := activeCount (length (tempWallets this)) in
  let shuffled := shuffle (tempWallets this) in
  setActiveWallets this (list_to_set (address <$> take activeCount shuffled)).

(** ** Wallet store *)

(** The wallet file holds [JSON.stringify(this.tempWallets, null, 2)]. *)
Class Json := {
  FileText : Type;
  JSON_stringify : list WalletRecord -> FileText;
  JSON_parse : FileText -> option (list WalletRecord)
}.

(** What the outside world answers during [initialize]. *)
Record InitEnv := {
  mainBalance : option Z;
  (** [crypto.randomBytes(32).toString("hex")] at iteration [i] *)
  randomKey : nat -> string;
  initShuffle : list WalletRecord -> list WalletRecord;
  writeAccepted : bool
}.

Section WalletStore.
Context `{Ethers} `{Json}.

(** The constructor, as far as the wallet pool is concerned. *)
Definition newBot (cfg : ChainConfig) (chainKey main : string) (count : Z) : Bot :=
  {| chainConfig := cfg; mainWallet := main; tempWalletCount := count;
     tempWallets := []; activeWallets := ∅;
     walletFile := "temp_wallets_" +:+ chainKey +:+ ".json";
     running := false |}.

Definition freshWallet (key : string) : WalletRecord :=
  {| address := walletAddress key; privateKey := key; lastTradeTime := 0 |}.

(** The [for] loop of [initializeTempWallets]: one [push] per iteration. *)
Definition generateWallets (env : InitEnv) (count : Z) : list WalletRecord :=
  (fun i => freshWallet (randomKey env i)) <$> seq 0 (Z.to_nat count).

(** [initializeTempWallets]; [None] is the rethrown error. *)
Definition initializeTempWallets (env : InitEnv) (fs : gmap string FileText) (this : Bot)
  : option (gmap string FileText * Bot) :=
  match fs !! walletFile this with
  | Some walletData =>
      match JSON_parse walletData with
      | Some ws => Some (fs, updateActiveWallets (initShuffle env) (setTempWallets this ws))
      | None => None
      end
  | None =>
      let this' := setTempWallets this (tempWallets this ++ generateWallets env (tempWalletCount this)) in
      if writeAccepted env
      then Some (<[walletFile this' := JSON_stringify (tempWallets this')]> fs,
                 updateActiveWallets (initShuffle env) this')
      else None
  end.

(** [checkMainWalletBalance]: [Some tt] when it returns, [None] when it throws. *)
Definition checkMainWalletBalance (env : InitEnv) : option unit :=
  match mainBalance env with
  | Some balance =>
      let balanceAVAX := formatEther balance in
      if Qlt_bool balanceAVAX MIN_AVAX_BALANCE then None else Some tt
  | None => None
  end.

(** [initialize] *)
Definition initialize (env : InitEnv) (fs : gmap string FileText) (this : Bot)
  : option (gmap string FileText * Bot) :=
  match checkMainWalletBalance env with
  | Some _ => initializeTempWallets env fs this
  | None => None
  end.

End WalletStore.

(** ** Trade executor *)

(** [executeTrade] is the same text in both files; the methods it calls on
    [this] differ between them and are bound when the section is closed. *)
Section TradeExecutor.
Context `{Ethers}.
Variable fundWallet : Bot -> string -> TradeEnv -> Async unit.
Variable buyTokensWithAVAX : Bot -> string -> Q -> Z -> TradeEnv -> Async unit.
Variable sellTokensForAVAX : Bot -> string -> Q -> Z -> TradeEnv -> Async unit.
Variable returnFundsToMain : Bot -> WalletRecord -> TradeEnv -> Async unit.

(** The [try] block.  It yields the wallet record as the block leaves it
    and the line it logs. *)
Definition executeTradeBody (this : Bot) (walletInfo : WalletRecord) (env : TradeEnv)
  : Async (WalletRecord * TradeLog) :=
  let wallet := walletAddress (privateKey walletInfo) in
  fundWallet this wallet env ;;;
  AVAXBalance <- await (avaxBalance env) ;;
  tokenBalance <- await (tokenBalance env) ;;
  let AVAXBalanceNum := formatEther AVAXBalance in
  let tokenBalanceNum := formatEther tokenBalance in
  let tradeAmount :=
    generateRandomAmount (tradingParams (chainConfig this)) (rndBase env) (rndVariance env) in
  if Qlt_bool AVAXBalanceNum (tradeAmount + MIN_AVAX_BALANCE)
  then ret (walletInfo, LogInsufficient)
  else
    let canSell := Qlt_bool 0 tokenBalanceNum in
    let isBuy := negb canSell || Qlt_bool (1 # 2) (rndDirection env) in
    gasPrice <- await (gasPrice env) ;;
    let adjustedGasPrice :=
      (gasPrice * Qfloor (gasMultiplier (tradingParams (chainConfig this)) * 100)) ÷ 100 in
    (if isBuy
     then buyTokensWithAVAX this wallet tradeAmount adjustedGasPrice env
     else (sellTokensForAVAX this wallet tokenBalanceNum adjustedGasPrice env ;;;
           returnFundsToMain this walletInfo env)) ;;;
    ret (setLastTradeTime walletInfo (tradeTime env), LogExecuted isBuy tradeAmount).

(** [executeTrade]: the [catch] clause logs and leaves the record as it was. *)
Definition executeTrade (this : Bot) (walletInfo : WalletRecord) (env : TradeEnv)
  : WalletRecord * list ChainCall * TradeLog :=
  match executeTradeBody this walletInfo env with
  | (calls, Some (walletInfo', log)) => (walletInfo', calls, log)
  | (calls, None) => (walletInfo, calls, LogFailed)
  end.

End TradeExecutor.

(** ** Trade scheduler *)

(** What the outside world answers during one pass of the [while] body. *)
Record CycleEnv := {
  rndRecompute : Q;
  shuffle : list WalletRecord -> list WalletRecord;
  chainGas : option Z;
  now : Z;
  (** the [generateRandomDelay] draw when the filter tests the wallet at index [i] *)
  rndDelay : nat -> Q;
  (** the answers during the [k]-th trade of the pass *)
  tradeEnv : nat -> TradeEnv;
  rndJitter : nat -> Q;
  (** whether a stop request is served while the [k]-th trade, or the sleep
      after it, is awaited *)
  stopRequested : nat -> bool;
  writeOk : bool;
  (** whether a stop request is served during the sleep that ends the pass *)
  stopWhileSleeping : bool
}.

(** What the loop does, in order. *)
Inductive LoopEvent :=
| ActiveUpdated
| GasTooHigh
| Scanned (eligible : list nat)
| Traded (index : nat) (log : TradeLog) (calls : list ChainCall)
| Jittered (ms : Z)
| Slept (ms : Z)
| Persisted
| LoopError
| TradingStopped.

Section TradeScheduler.
Context `{Json}.
Variable isGasPriceAcceptable : Bot -> option Z -> option bool.
Variable executeTrade : Bot -> WalletRecord -> TradeEnv -> WalletRecord * list ChainCall * TradeLog.
(** The handler that may run while the loop is suspended. *)
Variable stopTrading : Bot -> Bot.

Definition interrupt (requested : bool) (this : Bot) : Bot :=
  if requested then stopTrading this else this.

(** The filter predicate of step 3, for the wallet at index [i]. *)
Definition isEligible (e : CycleEnv) (this : Bot) (i : nat) : bool :=
  match tempWallets this !! i with
  | Some wallet =>
      bool_decide (address wallet ∈ activeWallets this)
      && Qle_bool (generateRandomDelay (tradingParams (chainConfig this)) (rndDelay e i))
                  (inject_Z (now e - lastTradeTime wallet))
  | None => false
  end.

(** [this.tempWallets.filter(...)].  The result shares its objects with
    [this.tempWallets], so it is kept as the list of their indices. *)
Definition eligibleWallets (e : CycleEnv) (this : Bot) : list nat :=
  List.filter (isEligible e this) (seq 0 (length (tempWallets this))).

(** The [for ... of eligibleWallets] loop, from the [k]-th trade on. *)
Fixpoint tradeAll (e : CycleEnv) (k : nat) (eligible : list nat) (this : Bot)
  : Bot * list LoopEvent :=
  match eligible with
  | [] => (this, [])
  | i :: rest =>
      match tempWallets this !! i with
      | Some wallet =>
          let '(wallet', calls, log) := executeTrade this wallet (tradeEnv e k) in
          let this1 := setTempWallets this (<[i := wallet']> (tempWallets this)) in
          let this2 := interrupt (stopRequested e k) this1 in
          let '(this3, events) := tradeAll e (S k) rest this2 in
          (this3,
           Traded i log calls :: Jittered (Qfloor (1000 + rndJitter e k * 2000)) :: events)
      | None => tradeAll e (S k) rest this
      end
  end.

(** One pass of the [while] body, [try] and [catch] included. *)
Definition cycle (e : CycleEnv) (fs : gmap string FileText) (this : Bot)
  : gmap string FileText * Bot * list LoopEvent :=
  let '(this1, ev1) :=
    if Qlt_bool (rndRecompute e) (1 # 10)
    then (updateActiveWallets (shuffle e) this, [ActiveUpdated])
    else (this, []) in
  match isGasPriceAcceptable this1 (chainGas e) with
  | None =>
      (fs, interrupt (stopWhileSleeping e) this1, ev1 ++ [LoopError; Slept RETRY_DELAY])
  | Some false =>
      (fs, interrupt (stopWhileSleeping e) this1, ev1 ++ [GasTooHigh; Slept RETRY_DELAY])
  | Some true =>
      let eligible := eligibleWallets e this1 in
      let '(this2, ev2) := tradeAll e 0 eligible this1 in
      if writeOk e
      then (<[walletFile this2 := JSON_stringify (tempWallets this2)]> fs,
            interrupt (stopWhileSleeping e) this2,
            ev1 ++ Scanned eligible :: ev2 ++ [Persisted; Slept CHECK_INTERVAL])
      else (fs, interrupt (stopWhileSleeping e) this2,
            ev1 ++ Scanned eligible :: ev2 ++ [LoopError; Slept RETRY_DELAY])
  end.

End TradeScheduler.

(** ** [server.js] *)

Module Server.
Section Methods.
Context `{Ethers} `{Json}.

Definition isGasPriceAcceptable (this : Bot) (reply : option Z) : option bool :=
  match reply with
  | Some chainGas =>
      let chainGasGwei := formatGwei chainGas in
      Some true
  | None => None
  end.

Definition fundWallet (this : Bot) (walletAddress : string) (env : TradeEnv) : Async unit :=
  tryCatch (
    balance <- await (fundBalance env) ;;
    let balanceAVAX := formatEther balance in
    if Qlt_bool balanceAVAX WALLET_FUND_THRESHOLD
    then
      fundAmount <- await (parseEtherString (fundAmount (tradingParams (chainConfig this)))) ;;
      gasPrice <- await (fundGasPrice env) ;;
      call (SendTransaction (mainWallet this) walletAddress fundAmount 21000 gasPrice)
           (fundSent env) ;;;
      wait (fundConfirmed env)
    else ret tt).

Definition returnFundsToMain (this : Bot) (wallet : WalletRecord) (env : TradeEnv) : Async unit :=
  tryCatch (
    balance <- await (sweepBalance env) ;;
    (* balance.gt(ethers.utils.parseEther("0.01")) *)
    if 10000000000000000 <? balance
    then
      gasPrice <- await (sweepGasPrice env) ;;
      let gasLimit := 21000 in
      let gasCost := gasPrice * gasLimit in
      let amountToSend := balance - gasCost in
      if 0 <? amountToSend
      then
        call (SendTransaction (walletAddress (privateKey wallet)) (mainWallet this)
                              amountToSend gasLimit gasPrice)
             (sweepSent env) ;;;
        wait (sweepConfirmed env)
      else ret tt
    else ret tt).

Definition buyTokensWithAVAX (this : Bot) (wallet : string) (amountAVAX : Q) (gasPrice : Z)
    (env : TradeEnv) : Async unit :=
  let path := [wAVAX (contracts (chainConfig this)); targetToken (contracts (chainConfig this))] in
  let deadline := deadlineAt (clock env) in
  amountInWei <- await (parseEtherFixed18 amountAVAX) ;;
  let expectedOutput := calculateSlippage (amountsOut env) in
  minOut <- match expectedOutput with
            | Some e => await (parseEtherString (e * (95 # 100)))
            | None => ret 0
            end ;;
  call (SwapNativeForTokens wallet minOut path wallet deadline amountInWei 300000 gasPrice)
       (swapSent env) ;;;
  wait (swapConfirmed env).

Definition sellTokensForAVAX (this : Bot) (wallet : string) (availableAmount : Q) (gasPrice : Z)
    (env : TradeEnv) : Async unit :=
  let amountToSell := amountToSell availableAmount (rndSell env) in
  amountIn <- await (parseEtherFixed18 amountToSell) ;;
  call (Approve wallet (router (contracts (chainConfig this))) amountIn) (approveAccepted env) ;;;
  let path := [targetToken (contracts (chainConfig this)); wAVAX (contracts (chainConfig this))] in
  let deadline := deadlineAt (clock env) in
  let expectedOutput := calculateSlippage (amountsOut env) in
  minOut <- minOutFixed18 expectedOutput ;;
  count <- await (transactionCount env) ;;
  let nonce := count + 1 in
  call (SwapTokensForNative wallet amountIn minOut path wallet deadline 300000 gasPrice (Some nonce))
       (swapSent env) ;;;
  wait (swapConfirmed env).

Definition executeTrade : Bot -> WalletRecord -> TradeEnv -> WalletRecord * list ChainCall * TradeLog :=
  executeTrade fundWallet buyTokensWithAVAX sellTokensForAVAX returnFundsToMain.

(** The script installs no handler that could run while the loop waits. *)
Definition noHandler (this : Bot) : Bot := this.

Definition cycle : CycleEnv -> gmap string FileText -> Bot -> gmap string FileText * Bot * list LoopEvent :=
  cycle isGasPriceAcceptable executeTrade noHandler.

(** [startTrading]: [while (true)], observed for as many passes as [envs]
    describes. *)
Fixpoint startTrading (envs : list CycleEnv) (fs : gmap string FileText) (this : Bot)
  : gmap string FileText * Bot * list LoopEvent :=
  match envs with
  | [] => (fs, this, [])
  | e :: rest =>
      let '(fs1, this1, events) := cycle e fs this in
      let '(fs2, this2, events') := startTrading rest fs1 this1 in
      (fs2, this2, events ++ events')
  end.

End Methods.
End Server.

(** ** [mysever.js] *)

Module MyServer.
Section Methods.
Context `{Ethers} `{Json}.

Definition isGasPriceAcceptable (this : Bot) (reply : option Z) : option bool :=
  match reply with
  | Some chainGas =>
      let chainGasGwei := formatGwei chainGas in
      Some (Qlt_bool chainGasGwei (maxGasPrice (chainConfig this)))
  | None => None
  end.

Definition fundWallet (this : Bot) (walletAddress : string) (env : TradeEnv) : Async unit :=
  tryCatch (
    balance <- await (fundBalance env) ;;
    let balanceAVAX := formatEther balance in
    if Qlt_bool balanceAVAX WALLET_FUND_THRESHOLD
    then
      fundAmount <- await (parseEtherFixed18 (fundAmount (tradingParams (chainConfig this)))) ;;
      gasPrice <- await (fundGasPrice env) ;;
      call (SendTransaction (mainWallet this) walletAddress fundAmount 21000 gasPrice)
           (fundSent env) ;;;
      wait (fundConfirmed env)
    else ret tt).

Definition returnFundsToMain (this : Bot) (walletInfo : WalletRecord) (env : TradeEnv) : Async unit :=
  let wallet := walletAddress (privateKey walletInfo) in
  tryCatch (
    balance <- await (sweepBalance env) ;;
    gasPrice <- await (sweepGasPrice env) ;;
    let gasLimit := 21000 in
    let amountToSend := balance - gasPrice * gasLimit in
    if 0 <? amountToSend
    then
      call (SendTransaction wallet (mainWallet this) amountToSend gasLimit gasPrice)
           (sweepSent env) ;;;
      wait (sweepConfirmed env)
    else ret tt).

Definition buyTokensWithAVAX (this : Bot) (wallet : string) (amountAVAX : Q) (gasPrice : Z)
    (env : TradeEnv) : Async unit :=
  let path := [wAVAX (contracts (chainConfig this)); targetToken (contracts (chainConfig this))] in
  let deadline := deadlineAt (clock env) in
  amountInWei <- await (parseEtherFixed18 amountAVAX) ;;
  let expectedOutput := calculateSlippage (amountsOut env) in
  minOut <- minOutFixed18 expectedOutput ;;
  call (SwapNativeForTokens wallet minOut path wallet deadline amountInWei 300000 gasPrice)
       (swapSent env) ;;;
  wait (swapConfirmed env).

Definition sellTokensForAVAX (this : Bot) (wallet : string) (availableAmount : Q) (gasPrice : Z)
    (env : TradeEnv) : Async unit :=
  let amountToSell := amountToSell availableAmount (rndSell env) in
  amountIn <- await (parseEtherFixed18 amountToSell) ;;
  call (Approve wallet (router (contracts (chainConfig this))) amountIn) (approveAccepted env) ;;;
  let path := [targetToken (contracts (chainConfig this)); wAVAX (contracts (chainConfig this))] in
  let deadline := deadlineAt (clock env) in
  let expectedOutput := calculateSlippage (amountsOut env) in
  minOut <- minOutFixed18 expectedOutput ;;
  call (SwapTokensForNative wallet amountIn minOut path wallet deadline 300000 gasPrice None)
       (swapSent env) ;;;
  wait (swapConfirmed env).

Definition executeTrade : Bot -> WalletRecord -> TradeEnv -> WalletRecord * list ChainCall * TradeLog :=
  executeTrade fundWallet buyTokensWithAVAX sellTokensForAVAX returnFundsToMain.

(** [stopTrading], as far as the bot object goes; the global flag is
    cleared by [apiStop] below. *)
Definition stopTrading (this : Bot) : Bot := setRunning this false.

Definition cycle : CycleEnv -> gmap string FileText -> Bot -> gmap string FileText * Bot * list LoopEvent :=
  cycle isGasPriceAcceptable executeTrade stopTrading.

(** The [while (this.running)] loop and the line logged after it, observed
    for as many passes as [envs] describes. *)
Fixpoint tradingLoop (envs : list CycleEnv) (fs : gmap string FileText) (this : Bot)
  : gmap string FileText * Bot * list LoopEvent :=
  if running this
  then
    match envs with
    | [] => (fs, this, [])
    | e :: rest =>
        let '(fs1, this1, events) := cycle e fs this in
        let '(fs2, this2, events') := tradingLoop rest fs1 this1 in
        (fs2, this2, events ++ events')
    end
  else (fs, this, [TradingStopped]).

(** [startTrading]; [None] is the error thrown when the bot already runs. *)
Definition startTrading (envs : list CycleEnv) (fs : gmap string FileText) (this : Bot)
  : option (gmap string FileText * Bot * list LoopEvent) :=
  if running this then None
  else Some (tradingLoop envs fs (setRunning this true)).

End Methods.

(** *** The control surface *)

(** [parseInt] and [parseFloat] on a field of the request body; [None] is
  [NaN]. *)
Class Builtins := {
JSValue : Type;
parseInt : JSValue -> option Z;
parseFloat : JSValue -> option Q
}.

Record StartBody `{Builtins} := {
walletCounts : JSValue;
AvaxFundAmount : JSValue;
maxGas : JSValue;
tradingMintAmount : JSValue;
tradingMaxAmount : JSValue;
tradingMinInterval : JSValue;
tradingMaxInterval : JSValue
}.

(** The module-level state: [isRunning], [bots], and the [avax] entry of
  [CHAIN_CONFIG].  Every bot's [chainConfig] is a reference to that entry,
  so an assignment through [bot.chainConfig] lands in [CHAIN_CONFIG] and
  shows in every bot. *)
Record Process := {
isRunning : bool;
bots : list Bot;
CHAIN_CONFIG_avax : ChainConfig
}.

(** The [avax] entry as the file declares it; the target token comes from
  the environment. *)
Definition defaultConfig (target : string) : ChainConfig :=
{| name := "Avax C-chain";
   maxGasPrice := 50;
   contracts := {| router := "0x60aE616a2155Ee3d9A68541Ba4544862310933d4";
                   wAVAX := "0xB31f66AA3C1e785363F0875A1B74E27b85FD66c7";
                   targetToken := target |};
   tradingParams := {| minAmountAVAX := 1 # 100;
                       maxAmountAVAX := 3 # 100;
                       minInterval := 1 * 60 * 1000;
                       maxInterval := 2 * 60 * 1000;
                       gasMultiplier := 11 # 10;
                       fundAmount := 4 # 10 |} |}.

Definition initialProcess (target : string) : Process :=
{| isRunning := false; bots := []; CHAIN_CONFIG_avax := defaultConfig target |}.

Inductive Response :=
| Started
| AlreadyTrading
| StartFailed
| AllStopped.

Definition setChainConfig (cfg : ChainConfig) (this : Bot) : Bot :=
{| chainConfig := cfg; mainWallet := mainWallet this;
   tempWalletCount := tempWalletCount this; tempWallets := tempWallets this;
   activeWallets := activeWallets this; walletFile := walletFile this;
   running := running this |}.

Section ControlSurface.
Context `{Ethers} `{Json} `{Builtins}.

(** [parseInt(walletCounts) || 5] *)
Definition walletCountOf (body : StartBody) : Z :=
  match parseInt (walletCounts body) with
  | Some n => if n =? 0 then 5 else n
  | None => 5
  end.

(** [parseInt(x) * 1000], [NaN] staying [NaN] *)
Definition seconds (x : JSValue) : option Q :=
  match parseInt x with
  | Some n => Some (inject_Z (n * 1000))
  | None => None
  end.

(** The six assignments through [bot.chainConfig]. *)
Definition startOverrides (body : StartBody) (cfg : ChainConfig) : ChainConfig :=
  let tp := tradingParams cfg in
  {| name := name cfg;
     maxGasPrice := orElse (parseFloat (maxGas body)) (maxGasPrice cfg);
     contracts := contracts cfg;
     tradingParams :=
       {| minAmountAVAX := orElse (parseFloat (tradingMintAmount body)) (minAmountAVAX tp);
          maxAmountAVAX := orElse (parseFloat (tradingMaxAmount body)) (maxAmountAVAX tp);
          minInterval := orElse (seconds (tradingMinInterval body)) (minInterval tp);
          maxInterval := orElse (seconds (tradingMaxInterval body)) (maxInterval tp);
          gasMultiplier := gasMultiplier tp;
          fundAmount := orElse (parseFloat (AvaxFundAmount body)) (fundAmount tp) |} |}.

(** [POST /api/start], up to the point where the trading loop first
    suspends.  [mainKey] is [MAIN_WALLET_PRIVATE_KEY]. *)
Definition apiStart (mainKey : string) (body : StartBody) (env : InitEnv)
    (fs : gmap string FileText) (p : Process)
  : gmap string FileText * Process * Response :=
  if isRunning p then (fs, p, AlreadyTrading)
  else
    let cfg := startOverrides body (CHAIN_CONFIG_avax p) in
    let bot := newBot cfg "avax" (walletAddress mainKey) (walletCountOf body) in
    let others := setChainConfig cfg <$> bots p in
    match initialize env fs bot with
    | Some (fs', bot') =>
        (fs',
         {| isRunning := true;
            bots := others ++ [setRunning bot' true];
            CHAIN_CONFIG_avax := cfg |},
         Started)
    | None =>
        (fs, {| isRunning := false; bots := others; CHAIN_CONFIG_avax := cfg |}, StartFailed)
    end.

(** [POST /api/stop] *)
Definition apiStop (p : Process) : Process * Response :=
  ({| isRunning := false;
      bots := stopTrading <$> bots p;
      CHAIN_CONFIG_avax := CHAIN_CONFIG_avax p |},
   AllStopped).

End ControlSurface.

End MyServer.

(** ** Reading chain calls and loop events *)

(** The amount a sell swap is asked to sell. *)
Definition swapAmountIn (c : ChainCall) : option Z :=
  match c with
  | SwapTokensForNative _ amountIn _ _ _ _ _ _ _ => Some amountIn
  | _ => None
  end.

(** The minimum-out argument of a swap. *)
Definition swapMinOut (c : ChainCall) : option Z :=
  match c with
  | SwapNativeForTokens _ amountOutMin _ _ _ _ _ _ => Some amountOutMin
  | SwapTokensForNative _ _ amountOutMin _ _ _ _ _ _ => Some amountOutMin
  | _ => None
  end.

(** Indices of the wallets [executeTrade] was called on, in order. *)
Definition tradedIndices (events : list LoopEvent) : list nat :=
  omap (fun ev => match ev with Traded i _ _ => Some i | _ => None end) events.

(** The eligibility scans that were run, each with its result. *)
Definition scans (events : list LoopEvent) : list (list nat) :=
  omap (fun ev => match ev with Scanned eligible => Some eligible | _ => None end) events.

(** The durations slept, the jitter between two trades left aside. *)
Definition pauses (events : list LoopEvent) : list Z :=
  omap (fun ev => match ev with Slept ms => Some ms | _ => None end) events.

(** What [executeTrade] leaves in the wallet record, the calls it issued, and
    the line it logged. *)
Definition recordAfter (r : WalletRecord * list ChainCall * TradeLog) : WalletRecord := r.1.1.
Definition callsIssued (r : WalletRecord * list ChainCall * TradeLog) : list ChainCall := r.1.2.
Definition logged (r : WalletRecord * list ChainCall * TradeLog) : TradeLog := r.2.

Definition botAfter {F} (r : gmap string F * Bot * list LoopEvent) : Bot := r.1.2.
Definition filesAfter {F} (r : gmap string F * Bot * list LoopEvent) : gmap string F := r.1.1.
Definition eventsOf {F} (r : gmap string F * Bot * list LoopEvent) : list LoopEvent := r.2.

(** The bot as a pass finds it after the optional active-set recomputation. *)
Definition afterRecompute (e : CycleEnv) (this : Bot) : Bot :=
  if Qlt_bool (rndRecompute e) (1 # 10) then updateActiveWallets (shuffle e) this else this.

(** The line a pass logs when it recomputes the active set. *)
Definition recomputeEvents (e : CycleEnv) : list LoopEvent :=
  if Qlt_bool (rndRecompute e) (1 # 10) then [ActiveUpdated] else [].

(** ** Reading the control surface *)

(** A parse result that [||] treats as absent: [NaN] or zero. *)
Definition isFalsy (a : option Q) : Prop :=
  match a with
  | Some q => (q == 0)%Q
  | None => True
  end.

(** No overridable parameter of the configuration is zero. *)
Definition noZeroParameter (cfg : ChainConfig) : Prop :=
  ~ (maxGasPrice cfg == 0)%Q
  /\ ~ (fundAmount (tradingParams cfg) == 0)%Q
  /\ ~ (minAmountAVAX (tradingParams cfg) == 0)%Q
  /\ ~ (maxAmountAVAX (tradingParams cfg) == 0)%Q
  /\ ~ (minInterval (tradingParams cfg) == 0)%Q
  /\ ~ (maxInterval (tradingParams cfg) == 0)%Q.

(** Process states that a sequence of start and stop requests can produce. *)
Inductive reachable `{Ethers} `{Json} `{MyServer.Builtins} (target : string)
  : gmap string FileText -> MyServer.Process -> Prop :=
| reachable_boot fs : reachable target fs (MyServer.initialProcess target)
| reachable_start fs p mainKey body env :
    reachable target fs p ->
    reachable target (MyServer.apiStart mainKey body env fs p).1.1
                     (MyServer.apiStart mainKey body env fs p).1.2
| reachable_stop fs p :
    reachable target fs p -> reachable target fs (MyServer.apiStop p).1.

(** ** Sample instances and runs *)

Module Sample.

#[local] Open Scope string_scope.

(** A stand-in for the library: addresses are the key with a prefix, and
    [toString] renders like [toFixed(18)]. *)
Definition ethers : Ethers :=
  {| walletAddress := fun key => "0x" +:+ key;
     parseEtherString := parseEtherFixed18 |}.

(** A file is kept as the array its text denotes. *)
Definition json : Json :=
  {| FileText := list WalletRecord;
     JSON_stringify := fun ws => ws;
     JSON_parse := fun text => Some text |}.

(** Request fields that are numbers or absent. *)
Definition builtins : MyServer.Builtins :=
  {| MyServer.JSValue := option Q;
     MyServer.parseInt := fun v => match v with Some q => Some (Qnum q ÷ Z.pos (Qden q)) | None => None end;
     MyServer.parseFloat := fun v => v |}.


Definition config : ChainConfig := MyServer.defaultConfig "0xToken".

Definition alice : WalletRecord := @freshWallet ethers "a1".
Definition bob : WalletRecord := @freshWallet ethers "b2".

Definition bot : Bot :=
  {| chainConfig := config; mainWallet := "0xMain"; tempWalletCount := 2;
     tempWallets := [alice; bob];
     activeWallets := {[ address alice; address bob ]};
     walletFile := "temp_wallets_avax.json"; running := true |}.

(** A trade during which every call succeeds: one AVAX in the wallet, no
    tokens, so the wallet buys. *)
Definition goodTrade : TradeEnv :=
  {| fundBalance := Some 1000000000000000000; fundGasPrice := Some 25000000000;
     fundSent := true; fundConfirmed := true;
     avaxBalance := Some 1000000000000000000; tokenBalance := Some 0;
     rndBase := 1 # 2; rndVariance := 1 # 2; rndDirection := 1 # 4;
     gasPrice := Some 25000000000;
     clock := 1700000000000; rndSell := 1 # 2; approveAccepted := true;
     amountsOut := Some [20000000000000000; 40000000000000000000];
     transactionCount := Some 7; swapSent := true; swapConfirmed := true;
     sweepBalance := Some 900000000000000000; sweepGasPrice := Some 25000000000;
     sweepSent := true; sweepConfirmed := true;
     tradeTime := 1700000005000 |}.

(** The same, with a wallet too poor to trade even after funding was tried. *)
Definition poorTrade : TradeEnv :=
  {| fundBalance := Some 0; fundGasPrice := Some 25000000000;
     fundSent := false; fundConfirmed := false;
     avaxBalance := Some 0; tokenBalance := Some 0;
     rndBase := 1 # 2; rndVariance := 1 # 2; rndDirection := 1 # 4;
     gasPrice := Some 25000000000;
     clock := 1700000000000; rndSell := 1 # 2; approveAccepted := true;
     amountsOut := Some [20000000000000000; 40000000000000000000];
     transactionCount := Some 7; swapSent := true; swapConfirmed := true;
     sweepBalance := Some 0; sweepGasPrice := Some 25000000000;
     sweepSent := true; sweepConfirmed := true;
     tradeTime := 1700000005000 |}.

(** The same as [goodTrade], with the balance query rejected. *)
Definition brokenTrade : TradeEnv :=
  {| fundBalance := Some 1000000000000000000; fundGasPrice := Some 25000000000;
     fundSent := true; fundConfirmed := true;
     avaxBalance := None; tokenBalance := Some 0;
     rndBase := 1 # 2; rndVariance := 1 # 2; rndDirection := 1 # 4;
     gasPrice := Some 25000000000;
     clock := 1700000000000; rndSell := 1 # 2; approveAccepted := true;
     amountsOut := Some [20000000000000000; 40000000000000000000];
     transactionCount := Some 7; swapSent := true; swapConfirmed := true;
     sweepBalance := Some 900000000000000000; sweepGasPrice := Some 25000000000;
     sweepSent := true; sweepConfirmed := true;
     tradeTime := 1700000005000 |}.

(** A sell of a dust balance: 4 base units held, the router answering [quote]. *)
Definition dustSell (r : Q) (quote : option (list Z)) : TradeEnv :=
  {| fundBalance := Some 1000000000000000000; fundGasPrice := Some 25000000000;
     fundSent := true; fundConfirmed := true;
     avaxBalance := Some 1000000000000000000; tokenBalance := Some 4;
     rndBase := 1 # 2; rndVariance := 1 # 2; rndDirection := 1 # 4;
     gasPrice := Some 25000000000;
     clock := 1700000000000; rndSell := r; approveAccepted := true;
     amountsOut := quote;
     transactionCount := Some 7; swapSent := true; swapConfirmed := true;
     sweepBalance := Some 5000000000000000; sweepGasPrice := Some 25000000000;
     sweepSent := true; sweepConfirmed := true;
     tradeTime := 1700000005000 |}.

(** A sell by a wallet the main wallet could not top up: 0.012 AVAX and one
    token before the trade, 0.007 AVAX left once approval and swap are paid. *)
Definition thinSell : TradeEnv :=
{| fundBalance := Some 12000000000000000; fundGasPrice := Some 25000000000;
   fundSent := false; fundConfirmed := false;
   avaxBalance := Some 12000000000000000; tokenBalance := Some 1000000000000000000;
   rndBase := 0; rndVariance := 1 # 2; rndDirection := 1 # 4;
   gasPrice := Some 25000000000;
   clock := 1700000000000; rndSell := 1 # 2; approveAccepted := true;
   amountsOut := Some [500000000000000000; 400000000000000];
   transactionCount := Some 7; swapSent := true; swapConfirmed := true;
   sweepBalance := Some 7000000000000000; sweepGasPrice := Some 25000000000;
   sweepSent := true; sweepConfirmed := true;
   tradeTime := 1700000005000 |}.

(** A pass with the chain reporting [gas] wei per gas unit, both wallets
    long idle, and a stop request served during the trades listed in
    [stops]. *)
Definition pass (gas : Z) (stops : list nat) : CycleEnv :=
  {| rndRecompute := 1 # 2; shuffle := fun ws => ws;
     chainGas := Some gas; now := 1700000000000;
     rndDelay := fun _ => 1 # 2;
     tradeEnv := fun _ => goodTrade;
     rndJitter := fun _ => 1 # 2;
     stopRequested := fun k => bool_decide (k ∈ stops);
     writeOk := true; stopWhileSleeping := false |}.

Definition noFiles : gmap string (list WalletRecord) := ∅.

Definition init (count : nat) : InitEnv :=
  {| mainBalance := Some 1000000000000000000;
     randomKey := fun i => String (Ascii.ascii_of_nat (65 + i)) "";
     initShuffle := fun ws => ws;
     writeAccepted := true |}.

Definition body (gas : option Q) : @MyServer.StartBody builtins :=
  @MyServer.Build_StartBody builtins (Some (2 # 1)) None gas None None None None.

(** A start that raises the gas limit to 80, a stop, and a start that
    passes 0 for it. *)
Definition afterTwoStarts : MyServer.Process :=
  let '(fs1, p1, _) :=
    @MyServer.apiStart ethers json builtins "k" (body (Some (80 # 1))) (init 2) noFiles
      (MyServer.initialProcess "0xToken") in
  let p2 := (MyServer.apiStop p1).1 in
  (@MyServer.apiStart ethers json builtins "k" (body (Some 0%Q)) (init 2) fs1 p2).1.2.

(** A pool in which one address occurs three times. *)
Definition clones : Bot :=
  {| chainConfig := config; mainWallet := "0xMain"; tempWalletCount := 3;
     tempWallets := [alice; alice; alice]; activeWallets := ∅;
     walletFile := "temp_wallets_avax.json"; running := false |}.

End Sample.

(** ** What one trade settles on *)

(** The trade amount [executeTrade] draws. *)
Definition tradeAmountOf (this : Bot) (env : TradeEnv) : Q :=
  generateRandomAmount (tradingParams (chainConfig this)) (rndBase env) (rndVariance env).

(** [!canSell || Math.random() > 0.5] for a token balance of [tokens] base units. *)
Definition isBuyOf (tokens : Z) (env : TradeEnv) : bool :=
  negb (Qlt_bool 0 (formatEther tokens)) || Qlt_bool (1 # 2) (rndDirection env).

(** [gasPrice.mul(Math.floor(gasMultiplier * 100)).div(100)] *)
Definition adjustedGasPriceOf (this : Bot) (gasPrice : Z) : Z :=
  (gasPrice * Qfloor (gasMultiplier (tradingParams (chainConfig this)) * 100)) ÷ 100.

(** The negation of [AVAXBalanceNum < tradeAmount + MIN_AVAX_BALANCE]. *)
Definition canAfford (this : Bot) (balance : Z) (env : TradeEnv) : bool :=
  negb (Qlt_bool (formatEther balance) (tradeAmountOf this env + MIN_AVAX_BALANCE)).

(** Gas limit and gas price a swap is sent with. *)
Definition swapGas (c : ChainCall) : option (Z * Z) :=
  match c with
  | SwapNativeForTokens _ _ _ _ _ _ gasLimit gasPrice => Some (gasLimit, gasPrice)
  | SwapTokensForNative _ _ _ _ _ _ gasLimit gasPrice _ => Some (gasLimit, gasPrice)
  | _ => None
  end.


(** No stop request is served during the pass. *)
Definition undisturbed (e : CycleEnv) : Prop :=
  (forall k, stopRequested e k = false) /\ stopWhileSleeping e = false.

(** ** Both scripts *)

(** Two pools hold the same wallets, position by position. *)
Definition sameIdentities (ws ws' : list WalletRecord) : Prop :=
  address <$> ws = address <$> ws' /\ privateKey <$> ws = privateKey <$> ws'.

(** The two scripts, where a property holds of both. *)
Inductive Script := server_js | mysever_js.

Definition gateOf (s : Script) : Bot -> option Z -> option bool :=
  match s with
  | server_js => Server.isGasPriceAcceptable
  | mysever_js => MyServer.isGasPriceAcceptable
  end.

(** The handler that may run while the loop of the script is suspended. *)
Definition handlerOf (s : Script) : Bot -> Bot :=
  match s with server_js => Server.noHandler | mysever_js => MyServer.stopTrading end.

Section Scripts.
Context `{Ethers} `{Json}.

Definition executorOf (s : Script)
  : Bot -> WalletRecord -> TradeEnv -> WalletRecord * list ChainCall * TradeLog :=
  match s with
  | server_js => Server.executeTrade
  | mysever_js => MyServer.executeTrade
  end.

Definition passOf (s : Script)
  : CycleEnv -> gmap string FileText -> Bot -> gmap string FileText * Bot * list LoopEvent :=
  match s with
  | server_js => Server.cycle
  | mysever_js => MyServer.cycle
  end.

Definition loopOf (s : Script)
  : list CycleEnv -> gmap string FileText -> Bot -> gmap string FileText * Bot * list LoopEvent :=
  match s with
  | server_js => Server.startTrading
  | mysever_js => MyServer.tradingLoop
  end.

End Scripts.

(** Every pause of the loop is one of its two fixed delays. *)
Definition fixedPause (ms : Z) : Prop := ms = CHECK_INTERVAL \/ ms = RETRY_DELAY.

(** A parse result that [||] lets through: the number [q], not zero. *)
Definition isTruthy (a : option Q) (q : Q) : Prop := a = Some q /\ ~ (q == 0)%Q.

(** * Properties *)

(** ** Arithmetic of the conversions *)

Lemma Qlt_bool_iff (x y : Q) : Qlt_bool x y = true <-> (x < y)%Q.
Proof.
  unfold Qlt_bool. rewrite negb_true_iff, <- not_true_iff_false, Qle_bool_iff.
  split; [apply Qnot_le_lt | apply Qlt_not_le].
Qed.

Lemma roundHalfUp_close (x : Q) :
  (x - (1 # 2) < inject_Z (roundHalfUp x) /\ inject_Z (roundHalfUp x) <= x + (1 # 2))%Q.
Proof.
  unfold roundHalfUp. split.
  - pose proof (Qlt_floor (x + (1 # 2))) as Hlt.
    rewrite inject_Z_plus in Hlt. change (inject_Z 1) with 1%Q in Hlt. lra.
  - apply Qfloor_le.
Qed.

Lemma roundHalfUp_comp (x y : Q) : (x == y)%Q -> roundHalfUp x = roundHalfUp y.
Proof. intros E. unfold roundHalfUp. apply Qfloor_comp. rewrite E. reflexivity. Qed.







(** ** The trade amount (C4) *)




(** ** What the swaps are asked to do (C9, C3) *)

Ltac run_async :=
  unfold callsOf, bind, await, call, wait, ret, tryCatch, minOutFixed18 in *; simpl in *.

Ltac split_replies :=
  repeat match goal with
  | |- context [match ?x with _ => _ end] =>
      lazymatch x with
      | context [match _ with _ => _ end] => fail
      | _ => destruct x eqn:?; simpl in *
      end
  | H : context [match ?x with _ => _ end] |- _ =>
      lazymatch x with
      | context [match _ with _ => _ end] => fail
      | _ => destruct x eqn:?; simpl in *
      end
  end.

Ltac pick_call :=
  repeat match goal with
  | H : _ ∈ [] |- _ => inversion H
  | H : _ ∈ _ :: _ |- _ => apply elem_of_cons in H as [-> | H]
  end;
  try congruence.

Section SwapArguments.
Context `{Ethers}.








End SwapArguments.







(** When the quote fails the swap still goes out, with a minimum-out of 0. *)
Example unquoted_swap_accepts_anything :
  omap swapMinOut
    (callsIssued (@Server.executeTrade Sample.ethers Sample.bot Sample.alice
                    (Sample.dustSell (1 # 10) None))) = [0]
  /\ omap swapMinOut
       (callsOf (@Server.buyTokensWithAVAX Sample.ethers Sample.bot "0xa1" (2 # 100)
                   27500000000 (Sample.dustSell (1 # 10) None))) = [0].
Proof. split; vm_compute; reflexivity. Qed.

(** ** Sweeping a wallet back to the main wallet (C7) *)

Section Sweep.
Context `{Ethers}.

(** [server.js] keeps the reserve: a transfer goes out only above 0.01 AVAX
    and only for a positive remainder after gas. *)
Lemma Server_sweep_keeps_reserve (this : Bot) (wallet : WalletRecord) (env : TradeEnv)
    (c : ChainCall) :
  c ∈ callsOf (Server.returnFundsToMain this wallet env) ->
  exists balance gasPrice,
    sweepBalance env = Some balance /\ sweepGasPrice env = Some gasPrice
    /\ 10000000000000000 < balance
    /\ 0 < balance - gasPrice * 21000
    /\ c = SendTransaction (walletAddress (privateKey wallet)) (mainWallet this)
             (balance - gasPrice * 21000) 21000 gasPrice.
Proof.
  unfold Server.returnFundsToMain. run_async. intros Hin.
  destruct (sweepBalance env) as [balance|]; simpl in *; [|pick_call].
  destruct (10000000000000000 <? balance) eqn:Hres; simpl in *; [|pick_call].
  destruct (sweepGasPrice env) as [gasPrice|]; simpl in *; [|pick_call].
  destruct (0 <? balance - gasPrice * 21000) eqn:Hpos; simpl in *; [|pick_call].
  apply Z.ltb_lt in Hres, Hpos.
  exists balance, gasPrice.
  destruct (sweepSent env); simpl in *; [destruct (sweepConfirmed env); simpl in *|];
    pick_call; auto.
Qed.

(** [mysever.js] only asks for a positive remainder after gas. *)
Lemma MyServer_sweep_needs_remainder (this : Bot) (wallet : WalletRecord) (env : TradeEnv)
    (c : ChainCall) :
  c ∈ callsOf (MyServer.returnFundsToMain this wallet env) ->
  exists balance gasPrice,
    sweepBalance env = Some balance /\ sweepGasPrice env = Some gasPrice
    /\ 0 < balance - gasPrice * 21000
    /\ c = SendTransaction (walletAddress (privateKey wallet)) (mainWallet this)
             (balance - gasPrice * 21000) 21000 gasPrice.
Proof.
  unfold MyServer.returnFundsToMain. run_async. intros Hin.
  destruct (sweepBalance env) as [balance|]; simpl in *; [|pick_call].
  destruct (sweepGasPrice env) as [gasPrice|]; simpl in *; [|pick_call].
  destruct (0 <? balance - gasPrice * 21000) eqn:Hpos; simpl in *; [|pick_call].
  apply Z.ltb_lt in Hpos.
  exists balance, gasPrice.
  destruct (sweepSent env); simpl in *; [destruct (sweepConfirmed env); simpl in *|];
    pick_call; auto.
Qed.
End Sweep.

(** C7 at the failing input.  A wallet left with 0.007 AVAX after a sell,
    below the reserve of 0.01 AVAX that [server.js] requires, is swept by
    [mysever.js] all the same, while [server.js] sends nothing. *)
Theorem MyServer_sweep_ignores_reserve :
  sweepBalance Sample.thinSell = Some 7000000000000000
  /\ 7000000000000000 <= 10000000000000000
  /\ callsOf (@MyServer.returnFundsToMain Sample.ethers Sample.bot Sample.alice Sample.thinSell)
     = [SendTransaction "0xa1" "0xMain" 6475000000000000 21000 25000000000]
  /\ SendTransaction "0xa1" "0xMain" 6475000000000000 21000 25000000000
       ∈ callsIssued (@MyServer.executeTrade Sample.ethers Sample.bot Sample.alice Sample.thinSell)
  /\ callsOf (@Server.returnFundsToMain Sample.ethers Sample.bot Sample.alice Sample.thinSell)
     = [].
Proof.
  split; [reflexivity|]. split; [lia|]. split; [vm_compute; reflexivity|].
  split; [|vm_compute; reflexivity].
  vm_compute. do 3 apply list_elem_of_further. apply list_elem_of_here.
Qed.

(** ** The executor and the wallet record (C2) *)

Section ExecutorFacts.
Context `{Ethers}.
Variable fundWallet : Bot -> string -> TradeEnv -> Async unit.
Variable buyTokensWithAVAX : Bot -> string -> Q -> Z -> TradeEnv -> Async unit.
Variable sellTokensForAVAX : Bot -> string -> Q -> Z -> TradeEnv -> Async unit.
Variable returnFundsToMain : Bot -> WalletRecord -> TradeEnv -> Async unit.

Lemma bind_result {A B} (m : Async A) (k : A -> Async B) calls b :
  bind m k = (calls, Some b) ->
  exists a c1 c2, m = (c1, Some a) /\ k a = (c2, Some b) /\ calls = c1 ++ c2.
Proof.
  unfold bind. destruct m as [c1 [a|]]; [|discriminate].
  destruct (k a) as [c2 r] eqn:Hk. intros [= <- ->]. eauto 6.
Qed.

(** The [try] block ends in one of two ways: the early [return], which
    leaves the record alone, or its last statements, which stamp it. *)
Lemma executeTradeBody_result this walletInfo env calls walletInfo' log :
  executeTradeBody fundWallet buyTokensWithAVAX sellTokensForAVAX returnFundsToMain
    this walletInfo env = (calls, Some (walletInfo', log)) ->
  (log = LogInsufficient /\ walletInfo' = walletInfo)
  \/ (exists isBuy tradeAmount, log = LogExecuted isBuy tradeAmount
      /\ walletInfo' = setLastTradeTime walletInfo (tradeTime env)).
Proof.
  unfold executeTradeBody. intros Hb.
  apply bind_result in Hb as (? & ? & ? & _ & Hb & _).
  apply bind_result in Hb as (AVAXBalance & ? & ? & _ & Hb & _).
  apply bind_result in Hb as (tokenBalance & ? & ? & _ & Hb & _).
  destruct (Qlt_bool _ _).
  - left. unfold ret in Hb. now inversion Hb.
  - right.
    apply bind_result in Hb as (gp & ? & ? & _ & Hb & _).
    apply bind_result in Hb as (? & ? & ? & _ & Hb & _).
    unfold ret in Hb. inversion Hb. eauto.
Qed.

Lemma executeTrade_stamps_on_success_only this walletInfo env :
  let r := executeTrade fundWallet buyTokensWithAVAX sellTokensForAVAX returnFundsToMain
             this walletInfo env in
  match logged r with
  | LogExecuted _ _ => recordAfter r = setLastTradeTime walletInfo (tradeTime env)
  | LogInsufficient | LogFailed => recordAfter r = walletInfo
  end.
Proof.
  unfold executeTrade, logged, recordAfter.
  destruct (executeTradeBody _ _ _ _ this walletInfo env) as [calls [[walletInfo' log]|]] eqn:Hb;
    simpl; [|reflexivity].
  apply executeTradeBody_result in Hb as [[-> ->] | (isBuy & amount & -> & ->)]; reflexivity.
Qed.
End ExecutorFacts.

(** ** The scheduler's pass *)

Lemma tradedIndices_app ev1 ev2 : tradedIndices (ev1 ++ ev2) = tradedIndices ev1 ++ tradedIndices ev2.
Proof. apply omap_app. Qed.

Lemma scans_app ev1 ev2 : scans (ev1 ++ ev2) = scans ev1 ++ scans ev2.
Proof. apply omap_app. Qed.

Lemma pauses_app ev1 ev2 : pauses (ev1 ++ ev2) = pauses ev1 ++ pauses ev2.
Proof. apply omap_app. Qed.

Lemma afterRecompute_tempWallets e this : tempWallets (afterRecompute e this) = tempWallets this.
Proof. unfold afterRecompute. destruct (Qlt_bool _ _); reflexivity. Qed.

Lemma recomputeEvents_quiet e :
  tradedIndices (recomputeEvents e) = [] /\ scans (recomputeEvents e) = []
  /\ pauses (recomputeEvents e) = [].
Proof. unfold recomputeEvents. destruct (Qlt_bool _ _); repeat split. Qed.

Section SchedulerFacts.
Variable executeTrade : Bot -> WalletRecord -> TradeEnv -> WalletRecord * list ChainCall * TradeLog.
Variable stopTrading : Bot -> Bot.
Hypothesis stop_keeps_wallets : forall this, tempWallets (stopTrading this) = tempWallets this.

Lemma interrupt_tempWallets requested this :
  tempWallets (interrupt stopTrading requested this) = tempWallets this.
Proof. unfold interrupt. destruct requested; auto. Qed.

Lemma eligibleWallets_in_range e this i :
  In i (eligibleWallets e this) -> (i < length (tempWallets this))%nat.
Proof. unfold eligibleWallets. rewrite filter_In, in_seq. lia. Qed.

(** Every index handed to the [for] loop is traded, whatever happens to
    the stop flag on the way, and the pool keeps its length. *)
Lemma tradeAll_trades_all e eligible : forall k this,
  (forall i, In i eligible -> (i < length (tempWallets this))%nat) ->
  tradedIndices (tradeAll executeTrade stopTrading e k eligible this).2 = eligible
  /\ length (tempWallets (tradeAll executeTrade stopTrading e k eligible this).1)
     = length (tempWallets this).
Proof.
  induction eligible as [|i rest IH]; intros k this Hrange; simpl.
  - split; reflexivity.
  - destruct (tempWallets this !! i) as [wallet|] eqn:Hi.
    + destruct (executeTrade this wallet (tradeEnv e k)) as [[wallet' calls] log].
      set (this2 := interrupt stopTrading (stopRequested e k)
                      (setTempWallets this (<[i:=wallet']> (tempWallets this)))).
      assert (Hlen : length (tempWallets this2) = length (tempWallets this)).
      { unfold this2. rewrite interrupt_tempWallets. simpl. apply length_insert. }
      destruct (IH (S k) this2) as [IHt IHl].
      { intros j Hj. rewrite Hlen. apply Hrange. now right. }
      destruct (tradeAll executeTrade stopTrading e (S k) rest this2) as [this3 events].
      simpl in *. split; [now f_equal | congruence].
    + exfalso. apply lookup_ge_None in Hi.
      specialize (Hrange i (or_introl eq_refl)). lia.
Qed.

(** The [for] loop neither scans nor pauses. *)
Lemma tradeAll_quiet e eligible : forall k this,
  scans (tradeAll executeTrade stopTrading e k eligible this).2 = []
  /\ pauses (tradeAll executeTrade stopTrading e k eligible this).2 = [].
Proof.
  induction eligible as [|i rest IH]; intros k this; simpl; [split; reflexivity|].
  destruct (tempWallets this !! i) as [wallet|]; [|apply IH].
  destruct (executeTrade this wallet (tradeEnv e k)) as [[wallet' calls] log].
  match goal with |- context [tradeAll _ _ e (S k) rest ?b] =>
    specialize (IH (S k) b); destruct (tradeAll executeTrade stopTrading e (S k) rest b) end.
  exact IH.
Qed.

(** With an executor that hands every record back untouched, the [for]
    loop leaves the pool untouched: the loop itself writes no field. *)
Lemma tradeAll_pool_untouched e eligible :
  (forall this wallet env, recordAfter (executeTrade this wallet env) = wallet) ->
  forall k this,
  tempWallets (tradeAll executeTrade stopTrading e k eligible this).1 = tempWallets this.
Proof.
  intros Hexec. induction eligible as [|i rest IH]; intros k this; simpl; [reflexivity|].
  destruct (tempWallets this !! i) as [wallet|] eqn:Hi; [|apply IH].
  pose proof (Hexec this wallet (tradeEnv e k)) as Hw. unfold recordAfter in Hw.
  destruct (executeTrade this wallet (tradeEnv e k)) as [[wallet' calls] log]. simpl in Hw. subst.
  set (this2 := interrupt stopTrading (stopRequested e k)
                  (setTempWallets this (<[i:=wallet]> (tempWallets this)))).
  specialize (IH (S k) this2).
  destruct (tradeAll executeTrade stopTrading e (S k) rest this2) as [this3 events].
  simpl in *. rewrite IH. unfold this2. rewrite interrupt_tempWallets. simpl.
  now apply list_insert_id.
Qed.

End SchedulerFacts.

Section PassFacts.
Context `{Json}.
Variable isGasPriceAcceptable : Bot -> option Z -> option bool.
Variable executeTrade : Bot -> WalletRecord -> TradeEnv -> WalletRecord * list ChainCall * TradeLog.
Variable stopTrading : Bot -> Bot.
Hypothesis stop_keeps_wallets : forall this, tempWallets (stopTrading this) = tempWallets this.

Lemma cycle_pool_untouched e fs this :
  (forall b wallet env, recordAfter (executeTrade b wallet env) = wallet) ->
  tempWallets (botAfter (cycle isGasPriceAcceptable executeTrade stopTrading e fs this))
  = tempWallets this.
Proof.
  intros Hexec. unfold cycle, botAfter.
  pose proof (afterRecompute_tempWallets e this) as Hrec. unfold afterRecompute in Hrec.
  set (this1 := if Qlt_bool (rndRecompute e) (1 # 10)
                then updateActiveWallets (shuffle e) this else this) in *.
  replace (if Qlt_bool (rndRecompute e) (1 # 10)
           then (updateActiveWallets (shuffle e) this, [ActiveUpdated])
           else (this, []))
    with (this1, recomputeEvents e)
    by (unfold this1, recomputeEvents; destruct (Qlt_bool _ _); reflexivity).
  destruct (isGasPriceAcceptable this1 (chainGas e)) as [[|]|]; simpl.
  - pose proof (tradeAll_pool_untouched executeTrade stopTrading stop_keeps_wallets
                  e (eligibleWallets e this1) Hexec 0%nat this1) as Hpool.
    destruct (tradeAll executeTrade stopTrading e 0 (eligibleWallets e this1) this1)
      as [this2 ev2].
    simpl in Hpool. destruct (writeOk e); simpl;
      rewrite interrupt_tempWallets by exact stop_keeps_wallets; congruence.
  - rewrite interrupt_tempWallets by exact stop_keeps_wallets. exact Hrec.
  - rewrite interrupt_tempWallets by exact stop_keeps_wallets. exact Hrec.
Qed.
End PassFacts.

(** C2, as amended.  In both files [executeTrade] itself sets
    [lastTradeTime] to the current time, and only when the trade ran to its
    end; after the silent abort for insufficient balance and after a caught
    error the record is what it was.  The scheduling loop never assigns the
    field: run with an executor that hands records back untouched, a pass
    leaves the whole pool untouched. *)
Theorem lastTradeTime_is_stamped_by_the_executor `{Ethers} `{Json} :
  (forall this walletInfo env,
     match logged (Server.executeTrade this walletInfo env) with
     | LogExecuted _ _ =>
         recordAfter (Server.executeTrade this walletInfo env)
         = setLastTradeTime walletInfo (tradeTime env)
     | LogInsufficient | LogFailed =>
         recordAfter (Server.executeTrade this walletInfo env) = walletInfo
     end)
  /\ (forall this walletInfo env,
     match logged (MyServer.executeTrade this walletInfo env) with
     | LogExecuted _ _ =>
         recordAfter (MyServer.executeTrade this walletInfo env)
         = setLastTradeTime walletInfo (tradeTime env)
     | LogInsufficient | LogFailed =>
         recordAfter (MyServer.executeTrade this walletInfo env) = walletInfo
     end)
  /\ (forall isGasPriceAcceptable executeTrade stopTrading e fs this,
     (forall b wallet env, recordAfter (executeTrade b wallet env) = wallet) ->
     (forall b, tempWallets (stopTrading b) = tempWallets b) ->
     tempWallets (botAfter (cycle isGasPriceAcceptable executeTrade stopTrading e fs this))
     = tempWallets this).
Proof.
  split; [|split].
  - intros this walletInfo env. apply executeTrade_stamps_on_success_only.
  - intros this walletInfo env. apply executeTrade_stamps_on_success_only.
  - intros isGas exec stop e fs this Hexec Hstop.
    now apply cycle_pool_untouched.
Qed.

(** A pass run with an executor that only logs a failure. *)
Lemma lastTradeTime_is_stamped_by_the_executor_witness :
  tempWallets
    (botAfter (@cycle Sample.json (@MyServer.isGasPriceAcceptable)
                 (fun _ wallet _ => (wallet, [], LogFailed)) MyServer.stopTrading
                 (Sample.pass 40000000000 []) Sample.noFiles Sample.bot))
  = tempWallets Sample.bot.
Proof.
  apply (@lastTradeTime_is_stamped_by_the_executor Sample.ethers Sample.json);
    intros; reflexivity.
Defined.

(** C2 as stated fails: after the abort for insufficient balance, and after
    a caught error, [lastTradeTime] is still 0 and not the current time. *)
Lemma aborted_trade_keeps_lastTradeTime :
  logged (@MyServer.executeTrade Sample.ethers Sample.bot Sample.alice Sample.poorTrade)
    = LogInsufficient
  /\ lastTradeTime
       (recordAfter (@MyServer.executeTrade Sample.ethers Sample.bot Sample.alice Sample.poorTrade))
     <> tradeTime Sample.poorTrade
  /\ logged (@MyServer.executeTrade Sample.ethers Sample.bot Sample.alice Sample.brokenTrade)
     = LogFailed
  /\ lastTradeTime
       (recordAfter (@MyServer.executeTrade Sample.ethers Sample.bot Sample.alice Sample.brokenTrade))
     <> tradeTime Sample.brokenTrade
  /\ logged (@Server.executeTrade Sample.ethers Sample.bot Sample.alice Sample.poorTrade)
     = LogInsufficient
  /\ lastTradeTime
       (recordAfter (@Server.executeTrade Sample.ethers Sample.bot Sample.alice Sample.poorTrade))
     <> tradeTime Sample.poorTrade.
Proof. repeat split; vm_compute; congruence. Qed.

(** A trade that runs to its end is stamped. *)
Example completed_trade_is_stamped :
  lastTradeTime
    (recordAfter (@MyServer.executeTrade Sample.ethers Sample.bot Sample.alice Sample.goodTrade))
  = tradeTime Sample.goodTrade.
Proof. vm_compute. reflexivity. Qed.

(** ** The gas gate (C1) and the stop flag (C8) *)

Section MyServerPass.
Context `{Ethers} `{Json}.

Lemma MyServer_cycle_gas_high e fs this g :
  chainGas e = Some g ->
  (maxGasPrice (chainConfig this) <= formatGwei g)%Q ->
  MyServer.cycle e fs this
  = (fs, interrupt MyServer.stopTrading (stopWhileSleeping e) (afterRecompute e this),
     recomputeEvents e ++ [GasTooHigh; Slept RETRY_DELAY]).
Proof.
  intros Hg Hle. unfold MyServer.cycle, cycle, afterRecompute, recomputeEvents.
  destruct (Qlt_bool (rndRecompute e) (1 # 10)); rewrite Hg; simpl;
    (destruct (Qlt_bool (formatGwei g) _) eqn:E;
     [apply Qlt_bool_iff in E; exfalso; apply (Qlt_not_le _ _ E); exact Hle | reflexivity]).
Qed.

Lemma MyServer_cycle_gas_ok e fs this g :
  chainGas e = Some g ->
  (formatGwei g < maxGasPrice (chainConfig this))%Q ->
  let this1 := afterRecompute e this in
  let eligible := eligibleWallets e this1 in
  let traded := tradeAll MyServer.executeTrade MyServer.stopTrading e 0 eligible this1 in
  MyServer.cycle e fs this
  = if writeOk e
    then (<[walletFile traded.1 := JSON_stringify (tempWallets traded.1)]> fs,
          interrupt MyServer.stopTrading (stopWhileSleeping e) traded.1,
          recomputeEvents e ++ Scanned eligible :: traded.2 ++ [Persisted; Slept CHECK_INTERVAL])
    else (fs, interrupt MyServer.stopTrading (stopWhileSleeping e) traded.1,
          recomputeEvents e ++ Scanned eligible :: traded.2 ++ [LoopError; Slept RETRY_DELAY]).
Proof.
  intros Hg Hlt. apply Qlt_bool_iff in Hlt.
  unfold MyServer.cycle, cycle, afterRecompute, recomputeEvents.
  destruct (Qlt_bool (rndRecompute e) (1 # 10)); rewrite Hg; simpl; simpl in Hlt; rewrite Hlt;
    match goal with |- context [tradeAll ?x ?s e 0%nat ?l ?b] => destruct (tradeAll x s e 0%nat l b) end;
    reflexivity.
Qed.

(** Below the limit a pass scans once and trades exactly the wallets the
    scan returned. *)
Lemma MyServer_pass_trades_the_eligible e fs this g :
  chainGas e = Some g ->
  (formatGwei g < maxGasPrice (chainConfig this))%Q ->
  scans (eventsOf (MyServer.cycle e fs this)) = [eligibleWallets e (afterRecompute e this)]
  /\ tradedIndices (eventsOf (MyServer.cycle e fs this))
     = eligibleWallets e (afterRecompute e this).
Proof.
  intros Hg Hlt. rewrite (MyServer_cycle_gas_ok e fs this g Hg Hlt).
  set (this1 := afterRecompute e this).
  set (eligible := eligibleWallets e this1).
  destruct (tradeAll_trades_all MyServer.executeTrade MyServer.stopTrading
              (fun b => eq_refl) e eligible 0%nat this1) as [Ht _].
  { intros i Hi. now apply eligibleWallets_in_range in Hi. }
  destruct (tradeAll_quiet MyServer.executeTrade MyServer.stopTrading e eligible 0%nat this1)
    as [Hs _].
  destruct (recomputeEvents_quiet e) as (Ht0 & Hs0 & _).
  set (traded := tradeAll MyServer.executeTrade MyServer.stopTrading e 0 eligible this1) in *.
  destruct (writeOk e); unfold eventsOf; cbn [snd fst];
    rewrite scans_app, tradedIndices_app, Ht0, Hs0;
    rewrite !app_nil_l;
    change (Scanned eligible :: ?l) with ([Scanned eligible] ++ l);
    rewrite !scans_app, !tradedIndices_app, Ht, Hs; simpl; rewrite !app_nil_r;
    split; reflexivity.
Qed.

Lemma interrupt_running requested this :
  running (interrupt MyServer.stopTrading requested this) = running this && negb requested.
Proof.
  unfold interrupt. destruct requested; simpl;
    [now rewrite andb_false_r | now rewrite andb_true_r].
Qed.

(** A stop request served during any trade of the [for] loop clears the
    flag, and nothing in the loop sets it again. *)
Lemma tradeAll_running e eligible : forall k this,
  (forall i, In i eligible -> (i < length (tempWallets this))%nat) ->
  running (tradeAll MyServer.executeTrade MyServer.stopTrading e k eligible this).1
  = running this && negb (existsb (stopRequested e) (seq k (length eligible))).
Proof.
  induction eligible as [|i rest IH]; intros k this Hrange; simpl.
  - now rewrite andb_true_r.
  - destruct (tempWallets this !! i) as [wallet|] eqn:Hi.
    + destruct (MyServer.executeTrade this wallet (tradeEnv e k)) as [[wallet' calls] log].
      set (this2 := interrupt MyServer.stopTrading (stopRequested e k)
                      (setTempWallets this (<[i:=wallet']> (tempWallets this)))).
      assert (Hlen : length (tempWallets this2) = length (tempWallets this)).
      { unfold this2, interrupt. destruct (stopRequested e k); simpl; apply length_insert. }
      specialize (IH (S k) this2).
      destruct (tradeAll MyServer.executeTrade MyServer.stopTrading e (S k) rest this2)
        as [this3 events].
      simpl in *. rewrite IH.
      * unfold this2. rewrite interrupt_running. simpl.
        rewrite negb_orb. now rewrite andb_assoc.
      * intros j Hj. rewrite Hlen. apply Hrange. now right.
    + exfalso. apply lookup_ge_None in Hi.
      specialize (Hrange i (or_introl eq_refl)). lia.
Qed.

Lemma tradingLoop_stopped envs fs this :
  running this = false -> MyServer.tradingLoop envs fs this = (fs, this, [TradingStopped]).
Proof. intros Hr. destruct envs; simpl; now rewrite Hr. Qed.

Lemma existsb_seq_hit (f : nat -> bool) (k n : nat) :
  (k < n)%nat -> f k = true -> existsb f (seq 0 n) = true.
Proof.
  intros Hk Hf. apply existsb_exists. exists k. split; [apply in_seq; lia | exact Hf].
Qed.

End MyServerPass.

(** C1, as amended, for the gate of [mysever.js].  In a pass whose gas query
    answers [g]: if [g] (in gwei) is at or above [maxGasPrice] no trade is
    attempted, no scan is run, the pool and the files are unchanged and the
    pass sleeps the retry delay and nothing else; if [g] is strictly below
    [maxGasPrice] the pass runs the eligibility scan and trades what it
    returned.  The limit itself counts as too high. *)
Theorem gas_gate_is_strict `{Ethers} `{Json} (e : CycleEnv) (fs : gmap string FileText)
    (this : Bot) (g : Z) :
  chainGas e = Some g ->
  ((maxGasPrice (chainConfig this) <= formatGwei g)%Q ->
     tradedIndices (eventsOf (MyServer.cycle e fs this)) = []
     /\ scans (eventsOf (MyServer.cycle e fs this)) = []
     /\ pauses (eventsOf (MyServer.cycle e fs this)) = [RETRY_DELAY]
     /\ tempWallets (botAfter (MyServer.cycle e fs this)) = tempWallets this
     /\ filesAfter (MyServer.cycle e fs this) = fs)
  /\ ((formatGwei g < maxGasPrice (chainConfig this))%Q ->
     scans (eventsOf (MyServer.cycle e fs this)) = [eligibleWallets e (afterRecompute e this)]
     /\ tradedIndices (eventsOf (MyServer.cycle e fs this))
        = eligibleWallets e (afterRecompute e this)).
Proof.
  intros Hg. split; intros Hcmp.
  - rewrite (MyServer_cycle_gas_high e fs this g Hg Hcmp).
    unfold eventsOf, botAfter, filesAfter. simpl.
    destruct (recomputeEvents_quiet e) as (Ht & Hs & Hp).
    rewrite tradedIndices_app, scans_app, pauses_app, Ht, Hs, Hp. simpl.
    repeat split.
    unfold interrupt. destruct (stopWhileSleeping e); simpl; apply afterRecompute_tempWallets.
  - now apply (MyServer_pass_trades_the_eligible e fs this g).
Qed.

(** Gas at 40 gwei against a limit of 50: both wallets are scanned and traded. *)
Lemma gas_gate_is_strict_witness :
  chainGas (Sample.pass 40000000000 []) = Some 40000000000
  /\ (formatGwei 40000000000 < maxGasPrice (chainConfig Sample.bot))%Q
  /\ scans (eventsOf (@MyServer.cycle Sample.ethers Sample.json
                        (Sample.pass 40000000000 []) Sample.noFiles Sample.bot))
     = [eligibleWallets (Sample.pass 40000000000 [])
          (afterRecompute (Sample.pass 40000000000 []) Sample.bot)]
  /\ tradedIndices (eventsOf (@MyServer.cycle Sample.ethers Sample.json
                                (Sample.pass 40000000000 []) Sample.noFiles Sample.bot))
     = eligibleWallets (Sample.pass 40000000000 [])
         (afterRecompute (Sample.pass 40000000000 []) Sample.bot).
Proof.
  assert (Hlt : (formatGwei 40000000000 < maxGasPrice (chainConfig Sample.bot))%Q)
    by (vm_compute; reflexivity).
  split; [reflexivity|]. split; [exact Hlt|].
  apply (@gas_gate_is_strict Sample.ethers Sample.json (Sample.pass 40000000000 [])
           Sample.noFiles Sample.bot 40000000000 eq_refl).
  exact Hlt.
Defined.

(** C1 as stated fails at the limit: with gas at exactly 50 gwei and
    [maxGasPrice] 50, a price "at or below" the limit, no scan is run. *)
Lemma gas_at_the_limit_is_rejected :
  chainGas (Sample.pass 50000000000 []) = Some 50000000000
  /\ (formatGwei 50000000000 <= maxGasPrice (chainConfig Sample.bot))%Q
  /\ eventsOf (@MyServer.cycle Sample.ethers Sample.json
                 (Sample.pass 50000000000 []) Sample.noFiles Sample.bot)
     = [GasTooHigh; Slept RETRY_DELAY]
  /\ scans (eventsOf (@MyServer.cycle Sample.ethers Sample.json
                        (Sample.pass 50000000000 []) Sample.noFiles Sample.bot)) = [].
Proof.
  split; [reflexivity|]. split; [vm_compute; congruence|].
  split; vm_compute; reflexivity.
Qed.

(** The scenario of the specification in [mysever.js]: 60 gwei against 50
    trades nothing and sleeps the retry delay; 40 gwei scans. *)
Example gas_scenario_MyServer :
  eventsOf (@MyServer.cycle Sample.ethers Sample.json
              (Sample.pass 60000000000 []) Sample.noFiles Sample.bot)
  = [GasTooHigh; Slept 60000]
  /\ scans (eventsOf (@MyServer.cycle Sample.ethers Sample.json
                        (Sample.pass 40000000000 []) Sample.noFiles Sample.bot))
     = [[0%nat; 1%nat]].
Proof. split; vm_compute; reflexivity. Qed.

(** In [server.js] the gate answers [true] whatever the price, so the same
    scenario at 60 gwei scans and trades. *)
Lemma Server_gate_always_open (this : Bot) (g : Z) :
  Server.isGasPriceAcceptable this (Some g) = Some true.
Proof. reflexivity. Qed.

Example gas_scenario_Server :
  tradedIndices (eventsOf (@Server.cycle Sample.ethers Sample.json
                             (Sample.pass 60000000000 []) Sample.noFiles Sample.bot))
  = [0%nat; 1%nat].
Proof. vm_compute. reflexivity. Qed.

(** C8, as amended.  When a stop request is served while the [k]-th trade of
    a pass is in flight, that trade and all the remaining eligible wallets of
    the pass are still traded (the [for] loop does not read the flag); the
    pass then ends as usual, and the loop exits at its next test of the flag
    without starting another pass. *)
Theorem stop_lets_the_pass_finish `{Ethers} `{Json} (e : CycleEnv) (rest : list CycleEnv)
    (fs : gmap string FileText) (this : Bot) (g : Z) (k : nat) :
  running this = true ->
  chainGas e = Some g ->
  (formatGwei g < maxGasPrice (chainConfig this))%Q ->
  (k < length (eligibleWallets e (afterRecompute e this)))%nat ->
  stopRequested e k = true ->
  tradedIndices (eventsOf (MyServer.tradingLoop (e :: rest) fs this))
    = eligibleWallets e (afterRecompute e this)
  /\ running (botAfter (MyServer.tradingLoop (e :: rest) fs this)) = false
  /\ eventsOf (MyServer.tradingLoop (e :: rest) fs this)
     = eventsOf (MyServer.cycle e fs this) ++ [TradingStopped].
Proof.
  intros Hrun Hg Hlt Hk Hstop.
  destruct (MyServer_pass_trades_the_eligible e fs this g Hg Hlt) as [_ Htraded].
  assert (Hoff : running (botAfter (MyServer.cycle e fs this)) = false).
  { rewrite (MyServer_cycle_gas_ok e fs this g Hg Hlt).
    set (this1 := afterRecompute e this) in *.
    set (eligible := eligibleWallets e this1) in *.
    assert (Hr : running (tradeAll MyServer.executeTrade MyServer.stopTrading e 0 eligible this1).1
                 = false).
    { rewrite tradeAll_running.
      - rewrite (existsb_seq_hit _ k _ Hk Hstop). apply andb_false_r.
      - intros i Hi. now apply eligibleWallets_in_range in Hi. }
    destruct (writeOk e); unfold botAfter; simpl; rewrite interrupt_running, Hr; reflexivity. }
  simpl. rewrite Hrun.
  destruct (MyServer.cycle e fs this) as [[fs1 this1] events] eqn:Hc.
  unfold botAfter in Hoff. simpl in Hoff.
  rewrite (tradingLoop_stopped rest fs1 this1 Hoff).
  unfold eventsOf, botAfter in *. simpl in *.
  rewrite tradedIndices_app, Htraded. simpl. rewrite app_nil_r. auto.
Qed.

(** A stop served during the first of two trades: both wallets are traded,
    then the loop stops although a second pass was available. *)
Lemma stop_lets_the_pass_finish_witness :
  running Sample.bot = true
  /\ stopRequested (Sample.pass 40000000000 [0%nat]) 0 = true
  /\ tradedIndices
       (eventsOf (@MyServer.tradingLoop Sample.ethers Sample.json
                    [Sample.pass 40000000000 [0%nat]; Sample.pass 40000000000 []]
                    Sample.noFiles Sample.bot))
     = eligibleWallets (Sample.pass 40000000000 [0%nat])
         (afterRecompute (Sample.pass 40000000000 [0%nat]) Sample.bot)
  /\ running
       (botAfter (@MyServer.tradingLoop Sample.ethers Sample.json
                    [Sample.pass 40000000000 [0%nat]; Sample.pass 40000000000 []]
                    Sample.noFiles Sample.bot)) = false.
Proof.
  split; [reflexivity|]. split; [reflexivity|].
  destruct (@stop_lets_the_pass_finish Sample.ethers Sample.json
              (Sample.pass 40000000000 [0%nat]) [Sample.pass 40000000000 []]
              Sample.noFiles Sample.bot 40000000000 0%nat) as (Ht & Hr & _).
  - reflexivity.
  - reflexivity.
  - vm_compute. reflexivity.
  - vm_compute. lia.
  - reflexivity.
  - split; [exact Ht | exact Hr].
Defined.

(** C8 as stated fails: the stop is served during the trade of wallet 0, and
    wallet 1 is traded after it in the same pass. *)
Lemma stop_does_not_skip_wallets :
  stopRequested (Sample.pass 40000000000 [0%nat]) 0 = true
  /\ tradedIndices
       (eventsOf (@MyServer.tradingLoop Sample.ethers Sample.json
                    [Sample.pass 40000000000 [0%nat]; Sample.pass 40000000000 []]
                    Sample.noFiles Sample.bot))
     = [0%nat; 1%nat]
  /\ last (eventsOf (@MyServer.tradingLoop Sample.ethers Sample.json
                       [Sample.pass 40000000000 [0%nat]; Sample.pass 40000000000 []]
                       Sample.noFiles Sample.bot))
     = Some TradingStopped.
Proof. split; [reflexivity|]. split; vm_compute; reflexivity. Qed.

(** ** The active set (C5) *)

Module DoubleFacts.
Import Double.



(** The significand used for 0.7 is a 53-bit one and no binary64 number is
    closer to seven tenths. *)
Lemma ACTIVE_WALLET_PERCENTAGE_bits_nearest :
  2 ^ 52 <= Z.pos ACTIVE_WALLET_PERCENTAGE_bits < 2 ^ 53
  /\ (Qabs ((Z.pos ACTIVE_WALLET_PERCENTAGE_bits # 9007199254740992) - ACTIVE_WALLET_PERCENTAGE)
      <= 1 # 18014398509481984)%Q.
Proof. split; [split; vm_compute; congruence | vm_compute; congruence]. Qed.

(** [floorMul] agrees with the reference model of IEEE 754 arithmetic on
    every pool size below 3000. *)
Lemma floorMul_matches_reference :
  forallb (fun n => floorMul (Z.of_nat n) (Z.pos ACTIVE_WALLET_PERCENTAGE_bits)
                    =? floorMulSpec (Z.of_nat n) ACTIVE_WALLET_PERCENTAGE_bits)
          (seq 0 3000) = true.
Proof. vm_compute. reflexivity. Qed.

End DoubleFacts.


(** Small pools, and one where binary64 rounding shows: 90 * 0.7 is
    62.99999999999999 in JavaScript. *)
Example activeCount_values :
  activeCount 0 = 0%nat /\ activeCount 1 = 0%nat /\ activeCount 5 = 3%nat
  /\ activeCount 10 = 7%nat /\ activeCount 90 = 62%nat.
Proof. repeat split; vm_compute; reflexivity. Qed.



(** Without distinct addresses the set only gets smaller: a file that lists
    one wallet three times yields one active address where the count is 2. *)
Example repeated_address_shrinks_the_set :
  activeCount (length (tempWallets Sample.clones)) = 2%nat
  /\ size (activeWallets (updateActiveWallets (fun ws => ws) Sample.clones)) = 1%nat.
Proof. split; vm_compute; reflexivity. Qed.

(** ** The wallet store (C6) *)

Section StoreFacts.
Context `{Ethers} `{Json}.



End StoreFacts.



(** When the file exists the desired count plays no part. *)
Example existing_file_wins :
  (fun r => tempWallets r.2)
    <$> @initializeTempWallets Sample.ethers Sample.json (Sample.init 5)
          {[ "temp_wallets_avax.json"%string := [Sample.alice] ]}
          (newBot Sample.config "avax" "0xMain" 5)
  = Some [Sample.alice].
Proof. vm_compute. reflexivity. Qed.

(** ** The control surface (C10) *)

Lemma orElse_falsy a b : isFalsy a -> orElse a b = b.
Proof.
  destruct a as [q|]; simpl; [|reflexivity].
  intros Hq. apply Qeq_bool_iff in Hq. now rewrite Hq.
Qed.

Lemma orElse_nonzero a b : ~ (b == 0)%Q -> ~ (orElse a b == 0)%Q.
Proof.
  intros Hb. destruct a as [q|]; simpl; [|exact Hb].
  destruct (Qeq_bool q 0) eqn:E; [exact Hb|].
  intros Hq. apply Qeq_bool_iff in Hq. congruence.
Qed.

Section Overrides.
Context `{Ethers} `{Json} `{MyServer.Builtins}.
Import MyServer.

Lemma startOverrides_noZero body cfg :
  noZeroParameter cfg -> noZeroParameter (startOverrides body cfg).
Proof.
  unfold noZeroParameter. intros (Hg & Hf & Hmin & Hmax & Hlo & Hhi). simpl.
  repeat split; now apply orElse_nonzero.
Qed.

Lemma apiStart_config mainKey body env fs p :
  CHAIN_CONFIG_avax (apiStart mainKey body env fs p).1.2
  = if isRunning p then CHAIN_CONFIG_avax p else startOverrides body (CHAIN_CONFIG_avax p).
Proof.
  unfold apiStart. destruct (isRunning p); [reflexivity|].
  destruct (initialize _ _ _) as [[fs' bot']|]; reflexivity.
Qed.

Lemma reachable_noZero target fs p :
  reachable target fs p -> noZeroParameter (CHAIN_CONFIG_avax p).
Proof.
  induction 1 as [fs | fs p mainKey body env Hr IH | fs p Hr IH].
  - unfold noZeroParameter. simpl. repeat split; intros E; vm_compute in E; discriminate.
  - rewrite apiStart_config. destruct (isRunning p); [exact IH|].
    now apply startOverrides_noZero.
  - exact IH.
Qed.
End Overrides.

(** C10, as amended.  In the start command every override whose value
    parses to [NaN] or to 0 leaves the parameter at the value the shared
    [avax] entry of [CHAIN_CONFIG] holds at that moment: the declared default
    at the first start, and after that whatever an earlier start last put
    there.  The wallet count falls back to 5.  No override sets a parameter
    to zero: the count is never 0, a configuration without a zero parameter
    stays so, and so is the configuration of every state that start and stop
    requests can reach. *)
Theorem overrides_fall_back_to_current_value `{Ethers} `{Json} `{MyServer.Builtins}
    (body : MyServer.StartBody) (cfg : ChainConfig) :
  (isFalsy (MyServer.parseFloat (MyServer.maxGas body)) ->
     maxGasPrice (MyServer.startOverrides body cfg) = maxGasPrice cfg)
  /\ (isFalsy (MyServer.parseFloat (MyServer.AvaxFundAmount body)) ->
      fundAmount (tradingParams (MyServer.startOverrides body cfg))
      = fundAmount (tradingParams cfg))
  /\ (isFalsy (MyServer.parseFloat (MyServer.tradingMintAmount body)) ->
      minAmountAVAX (tradingParams (MyServer.startOverrides body cfg))
      = minAmountAVAX (tradingParams cfg))
  /\ (isFalsy (MyServer.parseFloat (MyServer.tradingMaxAmount body)) ->
      maxAmountAVAX (tradingParams (MyServer.startOverrides body cfg))
      = maxAmountAVAX (tradingParams cfg))
  /\ (isFalsy (MyServer.seconds (MyServer.tradingMinInterval body)) ->
      minInterval (tradingParams (MyServer.startOverrides body cfg))
      = minInterval (tradingParams cfg))
  /\ (isFalsy (MyServer.seconds (MyServer.tradingMaxInterval body)) ->
      maxInterval (tradingParams (MyServer.startOverrides body cfg))
      = maxInterval (tradingParams cfg))
  /\ (match MyServer.parseInt (MyServer.walletCounts body) with
      | Some n => n = 0
      | None => True
      end -> MyServer.walletCountOf body = 5)
  /\ MyServer.walletCountOf body <> 0
  /\ (noZeroParameter cfg -> noZeroParameter (MyServer.startOverrides body cfg))
  /\ (forall target fs p,
        reachable target fs p -> noZeroParameter (MyServer.CHAIN_CONFIG_avax p)).
Proof.
  simpl.
  refine (conj _ (conj _ (conj _ (conj _ (conj _ (conj _ (conj _ (conj _ (conj _ _)))))))));
    try (intros Hfalsy; now apply orElse_falsy).
  - unfold MyServer.walletCountOf. destruct (MyServer.parseInt _) as [n|]; [|reflexivity].
    intros ->. reflexivity.
  - unfold MyServer.walletCountOf. destruct (MyServer.parseInt _) as [n|]; [|discriminate].
    destruct (n =? 0) eqn:E; [discriminate|]. now apply Z.eqb_neq in E.
  - apply startOverrides_noZero.
  - intros target fs p. apply reachable_noZero.
Qed.

(** A first start that passes 0 as the gas limit keeps the declared 50. *)
Lemma overrides_fall_back_to_current_value_witness :
  isFalsy (@MyServer.parseFloat Sample.builtins (MyServer.maxGas (Sample.body (Some 0%Q))))
  /\ maxGasPrice (@MyServer.startOverrides Sample.builtins (Sample.body (Some 0%Q))
                    (MyServer.defaultConfig "0xToken"))
     = maxGasPrice (MyServer.defaultConfig "0xToken")
  /\ noZeroParameter (@MyServer.startOverrides Sample.builtins (Sample.body (Some 0%Q))
                        (MyServer.defaultConfig "0xToken")).
Proof.
  assert (Hfalsy : isFalsy (@MyServer.parseFloat Sample.builtins
                              (MyServer.maxGas (Sample.body (Some 0%Q)))))
    by reflexivity.
  destruct (@overrides_fall_back_to_current_value Sample.ethers Sample.json Sample.builtins
              (Sample.body (Some 0%Q)) (MyServer.defaultConfig "0xToken"))
    as (Hgas & _ & _ & _ & _ & _ & _ & _ & Hkeep & _).
  split; [exact Hfalsy|]. split; [exact (Hgas Hfalsy)|].
  apply Hkeep. unfold noZeroParameter. simpl.
  repeat split; intros E; vm_compute in E; discriminate.
Defined.

(** C10 as stated fails on a second start: after a start that set the gas
    limit to 80 and a stop, a start that passes 0 leaves the limit at 80, not
    at the declared default 50. *)
Lemma second_start_keeps_earlier_override :
  isFalsy (@MyServer.parseFloat Sample.builtins (MyServer.maxGas (Sample.body (Some 0%Q))))
  /\ maxGasPrice (MyServer.CHAIN_CONFIG_avax Sample.afterTwoStarts) = (80 # 1)%Q
  /\ maxGasPrice (MyServer.defaultConfig "0xToken") = 50%Q.
Proof. repeat split. Qed.


(** * Further properties *)

(** ** Delays and unit conversions *)







(** X3.  Parsing the 18-decimal rendering of a number fails exactly from
    [1e21] on in absolute value; otherwise the result is within half a base
    unit of the number and has its sign. *)
Theorem parseEtherFixed18_nearest (x : Q) :
  (parseEtherFixed18 x = None <-> (1000000000000000000000 # 1 <= Qabs x)%Q)
  /\ (forall z, parseEtherFixed18 x = Some z ->
        (Qabs (inject_Z z - x * (1000000000000000000 # 1)) <= 1 # 2)%Q
        /\ ((0 <= x)%Q -> 0 <= z) /\ ((x <= 0)%Q -> z <= 0)).
Proof.
  unfold parseEtherFixed18. split.
  - destruct (Qle_bool _ (Qabs x)) eqn:E.
    + apply Qle_bool_iff in E. tauto.
    + split; [destruct (Qle_bool 0 x); discriminate|].
      intros Hle. apply Qle_bool_iff in Hle. congruence.
  - intros z. destruct (Qle_bool _ (Qabs x)); [discriminate|].
    destruct (Qle_bool 0 x) eqn:E; intros [= <-].
    + apply Qle_bool_iff in E.
      pose proof (roundHalfUp_close (x * (1000000000000000000 # 1))) as [H1 H2].
      split; [apply Qabs_Qle_condition; split; lra|].
      split.
      * intros _.
        assert (Hx : (0 <= x * (1000000000000000000 # 1))%Q)
          by (apply Qmult_le_0_compat; [lra|discriminate]).
        assert (Hz : (-1 < inject_Z (roundHalfUp (x * (1000000000000000000 # 1))))%Q) by lra.
        unfold Qlt, inject_Z in Hz. simpl in Hz. lia.
      * intros Hx0. assert (Hx : (x * (1000000000000000000 # 1) == 0)%Q).
        { assert (Hzero : (x == 0)%Q) by lra. rewrite Hzero. reflexivity. }
        rewrite (roundHalfUp_comp _ _ Hx). vm_compute. congruence.
    + assert (Hneg : (x < 0)%Q).
      { apply Qnot_le_lt. intros Hc. apply Qle_bool_iff in Hc. congruence. }
      pose proof (roundHalfUp_close (- x * (1000000000000000000 # 1))) as [H1 H2].
      rewrite inject_Z_opp.
      split; [apply Qabs_Qle_condition; split; lra|].
      assert (Hx : (0 <= - x * (1000000000000000000 # 1))%Q)
        by (apply Qmult_le_0_compat; [lra|discriminate]).
      assert (Hz : (-1 < inject_Z (roundHalfUp (- x * (1000000000000000000 # 1))))%Q) by lra.
      unfold Qlt, inject_Z in Hz. simpl in Hz.
      split; [intros; lra | intros _; lia].
Qed.

Lemma parseEtherFixed18_nearest_witness :
  (Qabs (inject_Z 340000000000000000 - (34 # 100) * (1000000000000000000 # 1)) <= 1 # 2)%Q
  /\ 0 <= 340000000000000000.
Proof.
  destruct (parseEtherFixed18_nearest (34 # 100)) as [_ Hnear].
  destruct (Hnear 340000000000000000 eq_refl) as (Hclose & Hpos & _).
  split; [exact Hclose|]. apply Hpos. vm_compute; congruence.
Defined.

(** ** Topping up and sweeping *)

Lemma callsOf_bind {A B} (m : Async A) (k : A -> Async B) :
  callsOf (bind m k)
  = callsOf m ++ match m.2 with Some a => callsOf (k a) | None => [] end.
Proof.
  unfold callsOf, bind. destruct m as [calls [a|]]; simpl.
  - now destruct (k a).
  - now rewrite app_nil_r.
Qed.

Lemma callsOf_bind_await {A B} (reply : option A) (k : A -> Async B) :
  callsOf (bind (await reply) k) = match reply with Some a => callsOf (k a) | None => [] end.
Proof. rewrite callsOf_bind. unfold await. simpl. now destruct reply. Qed.

Lemma result_tryCatch (m : Async unit) : (tryCatch m).2 = Some tt.
Proof. now destruct m. Qed.

Lemma below_fund_threshold (balance : Z) :
  Qlt_bool (formatEther balance) WALLET_FUND_THRESHOLD = true -> balance < 50000000000000000.
Proof.
  intros Hb. apply Qlt_bool_iff in Hb.
  unfold formatEther, WALLET_FUND_THRESHOLD, Qlt in Hb. simpl in Hb. lia.
Qed.

Section Funding.
Context `{Ethers}.

Lemma MyServer_fund_call (this : Bot) (wallet : string) (env : TradeEnv) (c : ChainCall) :
  c ∈ callsOf (MyServer.fundWallet this wallet env) ->
  exists balance gp value,
    fundBalance env = Some balance /\ balance < 50000000000000000
    /\ fundGasPrice env = Some gp
    /\ parseEtherFixed18 (fundAmount (tradingParams (chainConfig this))) = Some value
    /\ c = SendTransaction (mainWallet this) wallet value 21000 gp.
Proof.
  unfold MyServer.fundWallet. run_async. intros Hin.
  destruct (fundBalance env) as [balance|]; simpl in *; [|pick_call].
  destruct (Qlt_bool (formatEther balance) WALLET_FUND_THRESHOLD) eqn:Hb; simpl in *; [|pick_call].
  apply below_fund_threshold in Hb.
  destruct (parseEtherFixed18 _) as [value|]; simpl in *; [|pick_call].
  destruct (fundGasPrice env) as [gp|]; simpl in *; [|pick_call].
  exists balance, gp, value.
  destruct (fundSent env); simpl in *; [destruct (fundConfirmed env); simpl in *|];
    pick_call; auto.
Qed.

Lemma Server_fund_call (this : Bot) (wallet : string) (env : TradeEnv) (c : ChainCall) :
  c ∈ callsOf (Server.fundWallet this wallet env) ->
  exists balance gp value,
    fundBalance env = Some balance /\ balance < 50000000000000000
    /\ fundGasPrice env = Some gp
    /\ parseEtherString (fundAmount (tradingParams (chainConfig this))) = Some value
    /\ c = SendTransaction (mainWallet this) wallet value 21000 gp.
Proof.
  unfold Server.fundWallet. run_async. intros Hin.
  destruct (fundBalance env) as [balance|]; simpl in *; [|pick_call].
  destruct (Qlt_bool (formatEther balance) WALLET_FUND_THRESHOLD) eqn:Hb; simpl in *; [|pick_call].
  apply below_fund_threshold in Hb.
  destruct (parseEtherString _) as [value|]; simpl in *; [|pick_call].
  destruct (fundGasPrice env) as [gp|]; simpl in *; [|pick_call].
  exists balance, gp, value.
  destruct (fundSent env); simpl in *; [destruct (fundConfirmed env); simpl in *|];
    pick_call; auto.
Qed.

(** X4.  [fundWallet] never throws and issues at most one request; any
    request it issues is a transfer of the configured fund amount from the
    main wallet to the wallet, with a gas limit of 21000 at the queried gas
    price, and is only made when the wallet holds less than 0.05 AVAX. *)
Theorem fundWallet_only_tops_up_below_threshold (this : Bot) (wallet : string) (env : TradeEnv) :
  (MyServer.fundWallet this wallet env).2 = Some tt
  /\ (Server.fundWallet this wallet env).2 = Some tt
  /\ (length (callsOf (MyServer.fundWallet this wallet env)) <= 1)%nat
  /\ (length (callsOf (Server.fundWallet this wallet env)) <= 1)%nat
  /\ (forall c, c ∈ callsOf (MyServer.fundWallet this wallet env) ->
        exists balance gp value,
          fundBalance env = Some balance /\ balance < 50000000000000000
          /\ fundGasPrice env = Some gp
          /\ parseEtherFixed18 (fundAmount (tradingParams (chainConfig this))) = Some value
          /\ c = SendTransaction (mainWallet this) wallet value 21000 gp)
  /\ (forall c, c ∈ callsOf (Server.fundWallet this wallet env) ->
        exists balance gp value,
          fundBalance env = Some balance /\ balance < 50000000000000000
          /\ fundGasPrice env = Some gp
          /\ parseEtherString (fundAmount (tradingParams (chainConfig this))) = Some value
          /\ c = SendTransaction (mainWallet this) wallet value 21000 gp).
Proof.
  split; [apply result_tryCatch|]. split; [apply result_tryCatch|].
  split; [|split; [|split]].
  - unfold MyServer.fundWallet. run_async. split_replies; simpl; lia.
  - unfold Server.fundWallet. run_async. split_replies; simpl; lia.
  - intros c. apply MyServer_fund_call.
  - intros c. apply Server_fund_call.
Qed.

(** X5.  [returnFundsToMain] never throws and issues at most one request;
    any request it issues is a transfer from the temp wallet to the main
    wallet, with a gas limit of 21000 at the queried gas price, of a positive
    value that leaves exactly nothing: value plus gas cost is the balance. *)
Theorem sweep_empties_the_wallet (this : Bot) (walletInfo : WalletRecord) (env : TradeEnv) :
  (MyServer.returnFundsToMain this walletInfo env).2 = Some tt
  /\ (Server.returnFundsToMain this walletInfo env).2 = Some tt
  /\ (length (callsOf (MyServer.returnFundsToMain this walletInfo env)) <= 1)%nat
  /\ (length (callsOf (Server.returnFundsToMain this walletInfo env)) <= 1)%nat
  /\ (forall c,
        c ∈ callsOf (MyServer.returnFundsToMain this walletInfo env)
        \/ c ∈ callsOf (Server.returnFundsToMain this walletInfo env) ->
        exists balance gp value,
          sweepBalance env = Some balance /\ sweepGasPrice env = Some gp
          /\ 0 < value /\ value + 21000 * gp = balance
          /\ c = SendTransaction (walletAddress (privateKey walletInfo)) (mainWallet this)
                   value 21000 gp).
Proof.
  split; [apply result_tryCatch|]. split; [apply result_tryCatch|].
  split; [|split].
  - unfold MyServer.returnFundsToMain. run_async. split_replies; simpl; lia.
  - unfold Server.returnFundsToMain. run_async. split_replies; simpl; lia.
  - intros c [Hin | Hin].
    + apply MyServer_sweep_needs_remainder in Hin as (balance & gp & Hb & Hg & Hpos & ->).
      exists balance, gp, (balance - gp * 21000). repeat split; auto; lia.
    + apply Server_sweep_keeps_reserve in Hin as (balance & gp & Hb & Hg & _ & Hpos & ->).
      exists balance, gp, (balance - gp * 21000). repeat split; auto; lia.
Qed.

End Funding.

Lemma fundWallet_only_tops_up_below_threshold_witness :
  exists balance gp value,
    fundBalance Sample.poorTrade = Some balance /\ balance < 50000000000000000
    /\ fundGasPrice Sample.poorTrade = Some gp
    /\ parseEtherFixed18 (fundAmount (tradingParams (chainConfig Sample.bot))) = Some value
    /\ SendTransaction "0xMain" "0xa1" 400000000000000000 21000 25000000000
       = SendTransaction (mainWallet Sample.bot) "0xa1" value 21000 gp.
Proof.
  destruct (@fundWallet_only_tops_up_below_threshold Sample.ethers Sample.bot "0xa1"
              Sample.poorTrade) as (_ & _ & _ & _ & Hcall & _).
  apply Hcall. vm_compute. apply list_elem_of_here.
Defined.

Lemma sweep_empties_the_wallet_witness :
  exists balance gp value,
    sweepBalance Sample.goodTrade = Some balance /\ sweepGasPrice Sample.goodTrade = Some gp
    /\ 0 < value /\ value + 21000 * gp = balance
    /\ SendTransaction "0xa1" "0xMain" 899475000000000000 21000 25000000000
       = SendTransaction (@walletAddress Sample.ethers (privateKey Sample.alice))
           (mainWallet Sample.bot) value 21000 gp.
Proof.
  destruct (@sweep_empties_the_wallet Sample.ethers Sample.bot Sample.alice Sample.goodTrade)
    as (_ & _ & _ & _ & Hcall).
  apply Hcall. right. vm_compute. apply list_elem_of_here.
Defined.

(** ** What one trade sends to the chain *)

Lemma result_bind {A B} (m : Async A) (k : A -> Async B) :
  (bind m k).2 = match m.2 with Some a => (k a).2 | None => None end.
Proof. unfold bind. destruct m as [calls [a|]]; simpl; [now destruct (k a) | reflexivity]. Qed.


Lemma isBuyOf_without_tokens tokens env : tokens <= 0 -> isBuyOf tokens env = true.
Proof.
  intros Ht. unfold isBuyOf.
  destruct (Qlt_bool 0 (formatEther tokens)) eqn:E; [|reflexivity].
  apply Qlt_bool_iff in E. unfold formatEther, Qlt in E. simpl in E. lia.
Qed.

Section Origins.
Context `{Ethers}.
Variable fundWallet : Bot -> string -> TradeEnv -> Async unit.
Variable buyTokensWithAVAX : Bot -> string -> Q -> Z -> TradeEnv -> Async unit.
Variable sellTokensForAVAX : Bot -> string -> Q -> Z -> TradeEnv -> Async unit.
Variable returnFundsToMain : Bot -> WalletRecord -> TradeEnv -> Async unit.

Lemma callsIssued_executeTrade this walletInfo env :
  callsIssued (executeTrade fundWallet buyTokensWithAVAX sellTokensForAVAX returnFundsToMain
                 this walletInfo env)
  = callsOf (executeTradeBody fundWallet buyTokensWithAVAX sellTokensForAVAX returnFundsToMain
               this walletInfo env).
Proof.
  unfold executeTrade, callsIssued, callsOf.
  destruct (executeTradeBody _ _ _ _ this walletInfo env) as [calls [[w l]|]]; reflexivity.
Qed.

(** Where a call issued by [executeTrade] comes from. *)
Lemma executeTrade_call_origin this walletInfo env c :
  c ∈ callsIssued (executeTrade fundWallet buyTokensWithAVAX sellTokensForAVAX returnFundsToMain
                     this walletInfo env) ->
  let wallet := walletAddress (privateKey walletInfo) in
  c ∈ callsOf (fundWallet this wallet env)
  \/ exists balance tokens gp,
       avaxBalance env = Some balance /\ tokenBalance env = Some tokens
       /\ gasPrice env = Some gp /\ canAfford this balance env = true
       /\ ((isBuyOf tokens env = true
            /\ c ∈ callsOf (buyTokensWithAVAX this wallet (tradeAmountOf this env)
                              (adjustedGasPriceOf this gp) env))
           \/ (isBuyOf tokens env = false
               /\ (c ∈ callsOf (sellTokensForAVAX this wallet (formatEther tokens)
                                  (adjustedGasPriceOf this gp) env)
                   \/ ((sellTokensForAVAX this wallet (formatEther tokens)
                          (adjustedGasPriceOf this gp) env).2 = Some tt
                       /\ c ∈ callsOf (returnFundsToMain this walletInfo env))))).
Proof.
  rewrite callsIssued_executeTrade. intros Hin wallet. unfold executeTradeBody in Hin.
  fold wallet in Hin.
  rewrite callsOf_bind in Hin. apply elem_of_app in Hin as [Hin | Hin]; [now left|].
  right. destruct (fundWallet this wallet env).2; [|pick_call].
  rewrite callsOf_bind_await in Hin.
  destruct (avaxBalance env) as [balance|]; [|pick_call].
  rewrite callsOf_bind_await in Hin.
  destruct (tokenBalance env) as [tokens|]; [|pick_call].
  cbv zeta in Hin.
  fold (tradeAmountOf this env) in Hin.
  destruct (Qlt_bool (formatEther balance) (tradeAmountOf this env + MIN_AVAX_BALANCE)) eqn:Haff;
    [unfold callsOf, ret in Hin; simpl in Hin; pick_call|].
  rewrite callsOf_bind_await in Hin.
  destruct (gasPrice env) as [gp|]; [|pick_call].
  exists balance, tokens, gp.
  split; [reflexivity|]. split; [reflexivity|]. split; [reflexivity|].
  split; [unfold canAfford; now rewrite Haff|].
  fold (isBuyOf tokens env) in Hin. fold (adjustedGasPriceOf this gp) in Hin.
  rewrite callsOf_bind in Hin. apply elem_of_app in Hin as [Hin | Hin].
  - destruct (isBuyOf tokens env); [left; split; [reflexivity | exact Hin]|].
    right. split; [reflexivity|].
    rewrite callsOf_bind in Hin. apply elem_of_app in Hin as [Hin | Hin]; [now left|].
    right. destruct (sellTokensForAVAX _ _ _ _ _).2 as [[]|]; [|pick_call].
    split; [reflexivity | exact Hin].
  - match type of Hin with c ∈ match ?x with _ => _ end => destruct x end;
      unfold callsOf, ret in Hin; simpl in Hin; pick_call.
Qed.

(** What a trade logged as executed went through. *)
Lemma executeTrade_executed this walletInfo env isBuy amount :
  logged (executeTrade fundWallet buyTokensWithAVAX sellTokensForAVAX returnFundsToMain
            this walletInfo env) = LogExecuted isBuy amount ->
  let wallet := walletAddress (privateKey walletInfo) in
  exists balance tokens gp,
    avaxBalance env = Some balance /\ tokenBalance env = Some tokens
    /\ gasPrice env = Some gp /\ canAfford this balance env = true
    /\ isBuy = isBuyOf tokens env /\ amount = tradeAmountOf this env
    /\ (if isBuy
        then (buyTokensWithAVAX this wallet (tradeAmountOf this env)
                (adjustedGasPriceOf this gp) env).2 = Some tt
        else (sellTokensForAVAX this wallet (formatEther tokens)
                (adjustedGasPriceOf this gp) env).2 = Some tt).
Proof.
  intros Hlog wallet. unfold executeTrade, logged in Hlog.
  destruct (executeTradeBody _ _ _ _ this walletInfo env) as [calls [[w' log]|]] eqn:Hb;
    simpl in Hlog; [subst log | discriminate].
  assert (Hres : (executeTradeBody fundWallet buyTokensWithAVAX sellTokensForAVAX
                    returnFundsToMain this walletInfo env).2
                 = Some (w', LogExecuted isBuy amount)) by now rewrite Hb.
  clear Hb. unfold executeTradeBody in Hres. fold wallet in Hres.
  rewrite result_bind in Hres. destruct (fundWallet this wallet env).2; [|discriminate].
  rewrite result_bind in Hres. unfold await at 1 in Hres. cbn [snd] in Hres.
  destruct (avaxBalance env) as [balance|]; [|discriminate].
  rewrite result_bind in Hres. unfold await at 1 in Hres. cbn [snd] in Hres.
  destruct (tokenBalance env) as [tokens|]; [|discriminate].
  cbv zeta in Hres. fold (tradeAmountOf this env) in Hres.
  destruct (Qlt_bool (formatEther balance) (tradeAmountOf this env + MIN_AVAX_BALANCE)) eqn:Haff;
    [unfold ret in Hres; simpl in Hres; discriminate|].
  rewrite result_bind in Hres. unfold await at 1 in Hres. cbn [snd] in Hres.
  destruct (gasPrice env) as [gp|]; [|discriminate].
  fold (isBuyOf tokens env) in Hres. fold (adjustedGasPriceOf this gp) in Hres.
  exists balance, tokens, gp.
  split; [reflexivity|]. split; [reflexivity|]. split; [reflexivity|].
  split; [unfold canAfford; now rewrite Haff|].
  rewrite result_bind in Hres.
  destruct (isBuyOf tokens env) eqn:Hdir.
  - destruct (buyTokensWithAVAX _ _ _ _ _).2 as [[]|]; [|discriminate].
    unfold ret in Hres. simpl in Hres. injection Hres as _ <- <-. auto.
  - rewrite result_bind in Hres.
    destruct (sellTokensForAVAX _ _ _ _ _).2 as [[]|]; [|discriminate].
    destruct (returnFundsToMain _ _ _).2; [|discriminate].
    unfold ret in Hres. simpl in Hres. injection Hres as _ <- <-. auto.
Qed.
End Origins.

Section Shapes.
Context `{Ethers}.

Lemma MyServer_buy_shape this wallet amount gp env :
  callsOf (MyServer.buyTokensWithAVAX this wallet amount gp env) = []
  \/ exists value minOut,
       parseEtherFixed18 amount = Some value
       /\ callsOf (MyServer.buyTokensWithAVAX this wallet amount gp env)
          = [SwapNativeForTokens wallet minOut
               [wAVAX (contracts (chainConfig this)); targetToken (contracts (chainConfig this))]
               wallet (deadlineAt (clock env)) value 300000 gp].
Proof.
  unfold MyServer.buyTokensWithAVAX. run_async.
  destruct (parseEtherFixed18 amount) as [value|]; simpl; [|now left].
  destruct (calculateSlippage (amountsOut env)) as [e|]; simpl.
  - destruct (parseEtherFixed18 (e * _)) as [m|]; simpl; [|now left].
    right. exists value, m. split; [reflexivity|].
    destruct (swapSent env); simpl; [destruct (swapConfirmed env)|]; reflexivity.
  - right. exists value, 0. split; [reflexivity|].
    destruct (swapSent env); simpl; [destruct (swapConfirmed env)|]; reflexivity.
Qed.

Lemma Server_buy_shape this wallet amount gp env :
  callsOf (Server.buyTokensWithAVAX this wallet amount gp env) = []
  \/ exists value minOut,
       parseEtherFixed18 amount = Some value
       /\ callsOf (Server.buyTokensWithAVAX this wallet amount gp env)
          = [SwapNativeForTokens wallet minOut
               [wAVAX (contracts (chainConfig this)); targetToken (contracts (chainConfig this))]
               wallet (deadlineAt (clock env)) value 300000 gp].
Proof.
  unfold Server.buyTokensWithAVAX. run_async.
  destruct (parseEtherFixed18 amount) as [value|]; simpl; [|now left].
  destruct (calculateSlippage (amountsOut env)) as [e|]; simpl.
  - destruct (parseEtherString (e * _)) as [m|]; simpl; [|now left].
    right. exists value, m. split; [reflexivity|].
    destruct (swapSent env); simpl; [destruct (swapConfirmed env)|]; reflexivity.
  - right. exists value, 0. split; [reflexivity|].
    destruct (swapSent env); simpl; [destruct (swapConfirmed env)|]; reflexivity.
Qed.

Lemma MyServer_sell_shape this wallet available gp env :
  callsOf (MyServer.sellTokensForAVAX this wallet available gp env) = []
  \/ exists amountIn,
       parseEtherFixed18 (amountToSell available (rndSell env)) = Some amountIn
       /\ (callsOf (MyServer.sellTokensForAVAX this wallet available gp env)
           = [Approve wallet (router (contracts (chainConfig this))) amountIn]
           \/ exists minOut,
                approveAccepted env = true
                /\ callsOf (MyServer.sellTokensForAVAX this wallet available gp env)
                   = [Approve wallet (router (contracts (chainConfig this))) amountIn;
                      SwapTokensForNative wallet amountIn minOut
                        [targetToken (contracts (chainConfig this));
                         wAVAX (contracts (chainConfig this))]
                        wallet (deadlineAt (clock env)) 300000 gp None]).
Proof.
  unfold MyServer.sellTokensForAVAX. run_async.
  destruct (parseEtherFixed18 (amountToSell _ _)) as [a|]; simpl; [|now left].
  right. exists a. split; [reflexivity|].
  destruct (approveAccepted env); simpl; [|now left].
  destruct (calculateSlippage (amountsOut env)) as [e|]; simpl.
  - destruct (parseEtherFixed18 (e * _)) as [m|]; simpl; [|now left].
    right. exists m. split; [reflexivity|].
    destruct (swapSent env); simpl; [destruct (swapConfirmed env)|]; reflexivity.
  - right. exists 0. split; [reflexivity|].
    destruct (swapSent env); simpl; [destruct (swapConfirmed env)|]; reflexivity.
Qed.

Lemma Server_sell_shape this wallet available gp env :
  callsOf (Server.sellTokensForAVAX this wallet available gp env) = []
  \/ exists amountIn,
       parseEtherFixed18 (amountToSell available (rndSell env)) = Some amountIn
       /\ (callsOf (Server.sellTokensForAVAX this wallet available gp env)
           = [Approve wallet (router (contracts (chainConfig this))) amountIn]
           \/ exists minOut count,
                approveAccepted env = true /\ transactionCount env = Some count
                /\ callsOf (Server.sellTokensForAVAX this wallet available gp env)
                   = [Approve wallet (router (contracts (chainConfig this))) amountIn;
                      SwapTokensForNative wallet amountIn minOut
                        [targetToken (contracts (chainConfig this));
                         wAVAX (contracts (chainConfig this))]
                        wallet (deadlineAt (clock env)) 300000 gp (Some (count + 1))]).
Proof.
  unfold Server.sellTokensForAVAX. run_async.
  destruct (parseEtherFixed18 (amountToSell _ _)) as [a|]; simpl; [|now left].
  right. exists a. split; [reflexivity|].
  destruct (approveAccepted env); simpl; [|now left].
  destruct (calculateSlippage (amountsOut env)) as [e|]; simpl.
  - destruct (parseEtherFixed18 (e * _)) as [m|]; simpl; [|now left].
    destruct (transactionCount env) as [count|]; simpl; [|now left].
    right. exists m, count. split; [reflexivity|]. split; [reflexivity|].
    destruct (swapSent env); simpl; [destruct (swapConfirmed env)|]; reflexivity.
  - destruct (transactionCount env) as [count|]; simpl; [|now left].
    right. exists 0, count. split; [reflexivity|]. split; [reflexivity|].
    destruct (swapSent env); simpl; [destruct (swapConfirmed env)|]; reflexivity.
Qed.

(** A swap function returns normally only after its swap was accepted and
    confirmed. *)
Lemma swap_returns_after_confirmation this wallet amount gp env :
  ((MyServer.buyTokensWithAVAX this wallet amount gp env).2 = Some tt
   \/ (Server.buyTokensWithAVAX this wallet amount gp env).2 = Some tt
   \/ (MyServer.sellTokensForAVAX this wallet amount gp env).2 = Some tt
   \/ (Server.sellTokensForAVAX this wallet amount gp env).2 = Some tt) ->
  swapSent env = true /\ swapConfirmed env = true.
Proof.
  unfold MyServer.buyTokensWithAVAX, Server.buyTokensWithAVAX,
    MyServer.sellTokensForAVAX, Server.sellTokensForAVAX.
  run_async. intros [Hr | [Hr | [Hr | Hr]]]; revert Hr;
    split_replies; intros Hr; try discriminate; auto.
Qed.

Lemma sell_returns_after_approval this wallet amount gp env :
  ((MyServer.sellTokensForAVAX this wallet amount gp env).2 = Some tt
   \/ (Server.sellTokensForAVAX this wallet amount gp env).2 = Some tt) ->
  approveAccepted env = true.
Proof.
  unfold MyServer.sellTokensForAVAX, Server.sellTokensForAVAX.
  run_async. intros [Hr | Hr]; revert Hr;
    split_replies; intros Hr; try discriminate; auto.
Qed.

End Shapes.



(** X7.  A wallet that holds no tokens never sells: every request
    [executeTrade] issues for it is a transfer out of the main wallet (the
    top-up) or a native-for-token swap. *)
Theorem empty_token_balance_forces_buy `{Ethers} (this : Bot) (walletInfo : WalletRecord)
    (env : TradeEnv) (tokens : Z) (c : ChainCall) :
  tokenBalance env = Some tokens -> tokens <= 0 ->
  c ∈ callsIssued (MyServer.executeTrade this walletInfo env)
  \/ c ∈ callsIssued (Server.executeTrade this walletInfo env) ->
  match c with
  | SendTransaction sender _ _ _ _ => sender = mainWallet this
  | SwapNativeForTokens _ _ _ _ _ _ _ _ => True
  | _ => False
  end.
Proof.
  intros Ht Hle. pose proof (isBuyOf_without_tokens tokens env Hle) as Hbuy.
  intros [Hin | Hin]; apply executeTrade_call_origin in Hin.
  - destruct Hin as [Hin | (b & t & gp & _ & Ht' & _ & _ & Hdir)].
    + apply MyServer_fund_call in Hin as (? & ? & ? & _ & _ & _ & _ & ->). reflexivity.
    + rewrite Ht in Ht'. injection Ht' as <-.
      destruct Hdir as [[_ Hin] | [Hsell _]]; [|congruence].
      destruct (MyServer_buy_shape this (walletAddress (privateKey walletInfo))
                  (tradeAmountOf this env) (adjustedGasPriceOf this gp) env)
        as [E | (v & m & _ & E)]; rewrite E in Hin; pick_call.
      exact I.
  - destruct Hin as [Hin | (b & t & gp & _ & Ht' & _ & _ & Hdir)].
    + apply Server_fund_call in Hin as (? & ? & ? & _ & _ & _ & _ & ->). reflexivity.
    + rewrite Ht in Ht'. injection Ht' as <-.
      destruct Hdir as [[_ Hin] | [Hsell _]]; [|congruence].
      destruct (Server_buy_shape this (walletAddress (privateKey walletInfo))
                  (tradeAmountOf this env) (adjustedGasPriceOf this gp) env)
        as [E | (v & m & _ & E)]; rewrite E in Hin; pick_call.
      exact I.
Qed.

Lemma empty_token_balance_forces_buy_witness :
  tokenBalance Sample.poorTrade = Some 0
  /\ SendTransaction "0xMain" "0xa1" 400000000000000000 21000 25000000000
     ∈ callsIssued (@MyServer.executeTrade Sample.ethers Sample.bot Sample.alice Sample.poorTrade)
  /\ "0xMain"%string = mainWallet Sample.bot.
Proof.
  assert (Hin : SendTransaction "0xMain" "0xa1" 400000000000000000 21000 25000000000
                ∈ callsIssued (@MyServer.executeTrade Sample.ethers Sample.bot Sample.alice
                                 Sample.poorTrade))
    by (vm_compute; apply list_elem_of_here).
  split; [reflexivity|]. split; [exact Hin|].
  apply (@empty_token_balance_forces_buy Sample.ethers Sample.bot Sample.alice Sample.poorTrade 0
           _ eq_refl ltac:(lia) (or_introl Hin)).
Defined.

Lemma adjustedGasPriceOf_default (this : Bot) (gp : Z) :
  (gasMultiplier (tradingParams (chainConfig this)) == 11 # 10)%Q ->
  adjustedGasPriceOf this gp = (gp * 110) ÷ 100.
Proof.
  intros Hm. unfold adjustedGasPriceOf.
  rewrite (Qfloor_comp _ (inject_Z 110)); [now rewrite Qfloor_Z|].
  rewrite Hm. reflexivity.
Qed.

(** X8.  Every swap [executeTrade] issues carries a gas limit of 300000 and
    the queried gas price scaled by [floor(gasMultiplier * 100) / 100] in
    integer arithmetic; with the multiplier 1.1 of both files that is
    [gasPrice * 110 / 100], never less than the queried price. *)
Theorem swaps_pay_the_adjusted_gas_price `{Ethers} (this : Bot) (walletInfo : WalletRecord)
    (env : TradeEnv) (c : ChainCall) (gasLimit paid : Z) :
  c ∈ callsIssued (MyServer.executeTrade this walletInfo env)
  \/ c ∈ callsIssued (Server.executeTrade this walletInfo env) ->
  swapGas c = Some (gasLimit, paid) ->
  gasLimit = 300000
  /\ exists gp, gasPrice env = Some gp /\ paid = adjustedGasPriceOf this gp
     /\ ((gasMultiplier (tradingParams (chainConfig this)) == 11 # 10)%Q ->
         paid = (gp * 110) ÷ 100 /\ (0 <= gp -> gp <= paid)).
Proof.
  intros Hin Hgas.
  assert (Hcore : gasLimit = 300000
                  /\ exists gp, gasPrice env = Some gp /\ paid = adjustedGasPriceOf this gp).
  { destruct Hin as [Hin | Hin]; apply executeTrade_call_origin in Hin.
    - destruct Hin as [Hin | (b & t & gp & _ & _ & Hgp & _ & Hdir)].
      + apply MyServer_fund_call in Hin as (? & ? & ? & _ & _ & _ & _ & ->). discriminate.
      + destruct Hdir as [[_ Hin] | [_ [Hin | [_ Hin]]]].
        * destruct (MyServer_buy_shape this (walletAddress (privateKey walletInfo))
                      (tradeAmountOf this env) (adjustedGasPriceOf this gp) env)
            as [E | (v & m & _ & E)]; rewrite E in Hin; pick_call.
          injection Hgas as <- <-. eauto.
        * destruct (MyServer_sell_shape this (walletAddress (privateKey walletInfo))
                      (formatEther t) (adjustedGasPriceOf this gp) env)
            as [E | (a & _ & [E | (m & _ & E)])]; rewrite E in Hin; pick_call;
            try discriminate.
          injection Hgas as <- <-. eauto.
        * apply MyServer_sweep_needs_remainder in Hin as (? & ? & _ & _ & _ & ->). discriminate.
    - destruct Hin as [Hin | (b & t & gp & _ & _ & Hgp & _ & Hdir)].
      + apply Server_fund_call in Hin as (? & ? & ? & _ & _ & _ & _ & ->). discriminate.
      + destruct Hdir as [[_ Hin] | [_ [Hin | [_ Hin]]]].
        * destruct (Server_buy_shape this (walletAddress (privateKey walletInfo))
                      (tradeAmountOf this env) (adjustedGasPriceOf this gp) env)
            as [E | (v & m & _ & E)]; rewrite E in Hin; pick_call.
          injection Hgas as <- <-. eauto.
        * destruct (Server_sell_shape this (walletAddress (privateKey walletInfo))
                      (formatEther t) (adjustedGasPriceOf this gp) env)
            as [E | (a & _ & [E | (m & n & _ & _ & E)])]; rewrite E in Hin; pick_call;
            try discriminate.
          injection Hgas as <- <-. eauto.
        * apply Server_sweep_keeps_reserve in Hin as (? & ? & _ & _ & _ & _ & ->). discriminate. }
  destruct Hcore as [Hlimit (gp & Hgp & Hpaid)].
  split; [exact Hlimit|]. exists gp. split; [exact Hgp|]. split; [exact Hpaid|].
  intros Hm. rewrite (adjustedGasPriceOf_default this gp Hm) in Hpaid.
  split; [exact Hpaid|]. intros Hpos. subst paid.
  apply Z.quot_le_lower_bound; lia.
Qed.

Lemma swaps_pay_the_adjusted_gas_price_witness :
  gasPrice Sample.goodTrade = Some 25000000000
  /\ 27500000000 = (25000000000 * 110) ÷ 100.
Proof.
  assert (Hin : SwapNativeForTokens "0xa1" 38000000000000000000
                  ["0xB31f66AA3C1e785363F0875A1B74E27b85FD66c7"; "0xToken"]%string "0xa1"
                  1700001200 20000000000000000 300000 27500000000
                ∈ callsIssued (@MyServer.executeTrade Sample.ethers Sample.bot Sample.alice
                                 Sample.goodTrade))
    by (vm_compute; apply list_elem_of_here).
  destruct (@swaps_pay_the_adjusted_gas_price Sample.ethers Sample.bot Sample.alice
              Sample.goodTrade _ 300000 27500000000 (or_introl Hin) eq_refl)
    as (_ & gp & Hgp & _ & Hdefault).
  assert (Hgp' : gp = 25000000000) by (vm_compute in Hgp; congruence).
  subst gp. split; [exact Hgp|].
  apply Hdefault. vm_compute. reflexivity.
Defined.

(** X9.  [sellTokensForAVAX] never swaps without an approval: when a swap
    request is among its calls, the calls are an approval of the router by
    the wallet followed by that swap, the approval was accepted, approved and
    sold amounts are the same, the proceeds go to the wallet itself along the
    path token, wrapped native, and in [server.js] the nonce is the
    transaction count plus one. *)
Theorem sell_approves_what_it_sells (this : Bot) (wallet : string) (available : Q) (gp : Z)
    (env : TradeEnv) (c : ChainCall) (amountIn : Z) :
  swapAmountIn c = Some amountIn ->
  (c ∈ callsOf (MyServer.sellTokensForAVAX this wallet available gp env) ->
     parseEtherFixed18 (amountToSell available (rndSell env)) = Some amountIn
     /\ approveAccepted env = true
     /\ exists minOut,
          c = SwapTokensForNative wallet amountIn minOut
                [targetToken (contracts (chainConfig this)); wAVAX (contracts (chainConfig this))]
                wallet (deadlineAt (clock env)) 300000 gp None
          /\ callsOf (MyServer.sellTokensForAVAX this wallet available gp env)
             = [Approve wallet (router (contracts (chainConfig this))) amountIn; c])
  /\ (c ∈ callsOf (Server.sellTokensForAVAX this wallet available gp env) ->
     parseEtherFixed18 (amountToSell available (rndSell env)) = Some amountIn
     /\ approveAccepted env = true
     /\ exists minOut count,
          transactionCount env = Some count
          /\ c = SwapTokensForNative wallet amountIn minOut
                [targetToken (contracts (chainConfig this)); wAVAX (contracts (chainConfig this))]
                wallet (deadlineAt (clock env)) 300000 gp (Some (count + 1))
          /\ callsOf (Server.sellTokensForAVAX this wallet available gp env)
             = [Approve wallet (router (contracts (chainConfig this))) amountIn; c]).
Proof.
  intros Hswap. split; intros Hin.
  - destruct (MyServer_sell_shape this wallet available gp env)
      as [E | (a & Ha & [E | (m & Happ & E)])]; rewrite E in Hin |- *; pick_call;
      try discriminate.
    injection Hswap as <-. split; [exact Ha|]. split; [exact Happ|]. eauto.
  - destruct (Server_sell_shape this wallet available gp env)
      as [E | (a & Ha & [E | (m & n & Happ & Hn & E)])]; rewrite E in Hin |- *; pick_call;
      try discriminate.
    injection Hswap as <-. split; [exact Ha|]. split; [exact Happ|]. eauto 6.
Qed.

Lemma sell_approves_what_it_sells_witness :
  parseEtherFixed18 (amountToSell (formatEther 1000000000000000000) (rndSell Sample.thinSell))
  = Some 500000000000000000
  /\ approveAccepted Sample.thinSell = true.
Proof.
  destruct (sell_approves_what_it_sells Sample.bot "0xa1" (formatEther 1000000000000000000)
              27500000000 Sample.thinSell
              (SwapTokensForNative "0xa1" 500000000000000000 380000000000000
                 ["0xToken"; "0xB31f66AA3C1e785363F0875A1B74E27b85FD66c7"]%string "0xa1"
                 1700001200 300000 27500000000 None)
              500000000000000000 eq_refl) as [Hmy _].
  destruct Hmy as (Hamount & Happroved & _).
  - vm_compute. apply list_elem_of_further, list_elem_of_here.
  - split; [exact Hamount | exact Happroved].
Defined.

(** X10.  [buyTokensWithAVAX] issues at most one request: a native-for-token
    swap by the wallet, to the wallet, along the path wrapped native, token,
    with a deadline 20 minutes after the clock, a gas limit of 300000, and a
    value that is the drawn amount rendered in base units. *)
Theorem buy_sends_the_drawn_amount `{Ethers} (this : Bot) (wallet : string) (amount : Q)
    (gp : Z) (env : TradeEnv) (c : ChainCall) :
  c ∈ callsOf (MyServer.buyTokensWithAVAX this wallet amount gp env)
  \/ c ∈ callsOf (Server.buyTokensWithAVAX this wallet amount gp env) ->
  (length (callsOf (MyServer.buyTokensWithAVAX this wallet amount gp env)) <= 1)%nat
  /\ (length (callsOf (Server.buyTokensWithAVAX this wallet amount gp env)) <= 1)%nat
  /\ exists value minOut,
       parseEtherFixed18 amount = Some value
       /\ c = SwapNativeForTokens wallet minOut
                [wAVAX (contracts (chainConfig this)); targetToken (contracts (chainConfig this))]
                wallet (clock env / 1000 + 1200) value 300000 gp.
Proof.
  intros Hin.
  split; [|split].
  - destruct (MyServer_buy_shape this wallet amount gp env) as [E | (v & m & _ & E)];
      rewrite E; simpl; lia.
  - destruct (Server_buy_shape this wallet amount gp env) as [E | (v & m & _ & E)];
      rewrite E; simpl; lia.
  - destruct Hin as [Hin | Hin].
    + destruct (MyServer_buy_shape this wallet amount gp env) as [E | (v & m & Hv & E)];
        rewrite E in Hin; pick_call. eauto.
    + destruct (Server_buy_shape this wallet amount gp env) as [E | (v & m & Hv & E)];
        rewrite E in Hin; pick_call. eauto.
Qed.

Lemma buy_sends_the_drawn_amount_witness :
  exists value minOut,
    parseEtherFixed18 (2 # 100) = Some value
    /\ SwapNativeForTokens "0xa1" 38000000000000000000
         ["0xB31f66AA3C1e785363F0875A1B74E27b85FD66c7"; "0xToken"]%string "0xa1"
         1700001200 20000000000000000 300000 27500000000
       = SwapNativeForTokens "0xa1" minOut
           [wAVAX (contracts (chainConfig Sample.bot));
            targetToken (contracts (chainConfig Sample.bot))]
           "0xa1" (clock Sample.goodTrade / 1000 + 1200) value 300000 27500000000.
Proof.
  apply (@buy_sends_the_drawn_amount Sample.ethers Sample.bot "0xa1" (2 # 100) 27500000000
           Sample.goodTrade).
  left. vm_compute. apply list_elem_of_here.
Defined.

(** X11.  A trade is logged as executed only if its swap was accepted and
    confirmed; the amount in the log line is the drawn trade amount; and a
    trade logged as a sell had a positive token balance and an accepted
    approval behind it. *)
Theorem executed_trade_was_confirmed `{Ethers} (this : Bot) (walletInfo : WalletRecord)
    (env : TradeEnv) (isBuy : bool) (amount : Q) :
  logged (MyServer.executeTrade this walletInfo env) = LogExecuted isBuy amount
  \/ logged (Server.executeTrade this walletInfo env) = LogExecuted isBuy amount ->
  swapSent env = true /\ swapConfirmed env = true
  /\ amount = tradeAmountOf this env
  /\ (isBuy = false ->
      approveAccepted env = true /\ exists tokens, tokenBalance env = Some tokens /\ 0 < tokens).
Proof.
  intros Hlog.
  assert (Hcore : exists tokens gp,
             tokenBalance env = Some tokens /\ isBuy = isBuyOf tokens env
             /\ amount = tradeAmountOf this env
             /\ (if isBuy
                 then (MyServer.buyTokensWithAVAX this (walletAddress (privateKey walletInfo))
                         (tradeAmountOf this env) (adjustedGasPriceOf this gp) env).2 = Some tt
                      \/ (Server.buyTokensWithAVAX this (walletAddress (privateKey walletInfo))
                            (tradeAmountOf this env) (adjustedGasPriceOf this gp) env).2 = Some tt
                 else (MyServer.sellTokensForAVAX this (walletAddress (privateKey walletInfo))
                         (formatEther tokens) (adjustedGasPriceOf this gp) env).2 = Some tt
                      \/ (Server.sellTokensForAVAX this (walletAddress (privateKey walletInfo))
                            (formatEther tokens) (adjustedGasPriceOf this gp) env).2 = Some tt)).
  { destruct Hlog as [Hlog | Hlog];
      apply executeTrade_executed in Hlog
        as (b & t & gp & _ & Ht & _ & _ & Hdir & Hamt & Hres);
      exists t, gp; (split; [exact Ht|]); (split; [exact Hdir|]); (split; [exact Hamt|]);
      destruct isBuy; auto. }
  destruct Hcore as (tokens & gp & Ht & Hdir & Hamt & Hres).
  assert (Hconf : swapSent env = true /\ swapConfirmed env = true).
  { destruct isBuy.
    - apply (swap_returns_after_confirmation this (walletAddress (privateKey walletInfo))
               (tradeAmountOf this env) (adjustedGasPriceOf this gp) env). tauto.
    - apply (swap_returns_after_confirmation this (walletAddress (privateKey walletInfo))
               (formatEther tokens) (adjustedGasPriceOf this gp) env). tauto. }
  destruct Hconf as [Hsent Hconfirmed].
  split; [exact Hsent|]. split; [exact Hconfirmed|]. split; [exact Hamt|].
  intros ->. split.
  - now apply (sell_returns_after_approval this (walletAddress (privateKey walletInfo))
                 (formatEther tokens) (adjustedGasPriceOf this gp) env).
  - exists tokens. split; [exact Ht|].
    destruct (Z_lt_le_dec 0 tokens) as [Hpos | Hle]; [exact Hpos|].
    rewrite (isBuyOf_without_tokens tokens env Hle) in Hdir. discriminate.
Qed.

Lemma executed_trade_was_confirmed_witness :
  swapSent Sample.thinSell = true /\ swapConfirmed Sample.thinSell = true
  /\ approveAccepted Sample.thinSell = true.
Proof.
  destruct (@executed_trade_was_confirmed Sample.ethers Sample.bot Sample.alice Sample.thinSell
              false (tradeAmountOf Sample.bot Sample.thinSell))
    as (Hsent & Hconfirmed & _ & Hsell).
  - left. vm_compute. reflexivity.
  - destruct (Hsell eq_refl) as [Happroved _]. auto.
Defined.

(** ** The trading loop *)

Section IdentityFacts.
Context `{Ethers}.
Variable fundWallet : Bot -> string -> TradeEnv -> Async unit.
Variable buyTokensWithAVAX : Bot -> string -> Q -> Z -> TradeEnv -> Async unit.
Variable sellTokensForAVAX : Bot -> string -> Q -> Z -> TradeEnv -> Async unit.
Variable returnFundsToMain : Bot -> WalletRecord -> TradeEnv -> Async unit.

Lemma executeTrade_keeps_identity this walletInfo env :
  address (recordAfter (executeTrade fundWallet buyTokensWithAVAX sellTokensForAVAX
                          returnFundsToMain this walletInfo env)) = address walletInfo
  /\ privateKey (recordAfter (executeTrade fundWallet buyTokensWithAVAX sellTokensForAVAX
                                returnFundsToMain this walletInfo env)) = privateKey walletInfo.
Proof.
  pose proof (executeTrade_stamps_on_success_only fundWallet buyTokensWithAVAX
                sellTokensForAVAX returnFundsToMain this walletInfo env) as Hs.
  cbv zeta in Hs.
  destruct (logged _); rewrite Hs; split; reflexivity.
Qed.
End IdentityFacts.

Section LoopFacts.
Context `{Json}.
Variable isGasPriceAcceptable : Bot -> option Z -> option bool.
Variable executeTrade : Bot -> WalletRecord -> TradeEnv -> WalletRecord * list ChainCall * TradeLog.
Variable stopTrading : Bot -> Bot.
Hypothesis stop_keeps_wallets : forall this, tempWallets (stopTrading this) = tempWallets this.
Hypothesis stop_keeps_file : forall this, walletFile (stopTrading this) = walletFile this.

Lemma interrupt_walletFile requested this :
  walletFile (interrupt stopTrading requested this) = walletFile this.
Proof. unfold interrupt. destruct requested; auto. Qed.

Lemma afterRecompute_walletFile e this : walletFile (afterRecompute e this) = walletFile this.
Proof. unfold afterRecompute. destruct (Qlt_bool _ _); reflexivity. Qed.

(** One pass, by the answer of the gas gate. *)
Lemma cycle_cases e fs this :
  let this1 := afterRecompute e this in
  let eligible := eligibleWallets e this1 in
  let traded := tradeAll executeTrade stopTrading e 0 eligible this1 in
  cycle isGasPriceAcceptable executeTrade stopTrading e fs this
  = match isGasPriceAcceptable this1 (chainGas e) with
    | None => (fs, interrupt stopTrading (stopWhileSleeping e) this1,
               recomputeEvents e ++ [LoopError; Slept RETRY_DELAY])
    | Some false => (fs, interrupt stopTrading (stopWhileSleeping e) this1,
                     recomputeEvents e ++ [GasTooHigh; Slept RETRY_DELAY])
    | Some true =>
        if writeOk e
        then (<[walletFile traded.1 := JSON_stringify (tempWallets traded.1)]> fs,
              interrupt stopTrading (stopWhileSleeping e) traded.1,
              recomputeEvents e ++ Scanned eligible :: traded.2 ++ [Persisted; Slept CHECK_INTERVAL])
        else (fs, interrupt stopTrading (stopWhileSleeping e) traded.1,
              recomputeEvents e ++ Scanned eligible :: traded.2 ++ [LoopError; Slept RETRY_DELAY])
    end.
Proof.
  unfold cycle, afterRecompute, recomputeEvents.
  destruct (Qlt_bool (rndRecompute e) (1 # 10)); cbv zeta;
    match goal with |- context [isGasPriceAcceptable ?b ?g] =>
      destruct (isGasPriceAcceptable b g) as [[|]|] end; try reflexivity;
    match goal with |- context [tradeAll ?x ?s e 0%nat ?l ?b] =>
      destruct (tradeAll x s e 0%nat l b) end; reflexivity.
Qed.

Lemma tradeAll_walletFile e eligible : forall k this,
  walletFile (tradeAll executeTrade stopTrading e k eligible this).1 = walletFile this.
Proof.
  induction eligible as [|i rest IH]; intros k this; simpl; [reflexivity|].
  destruct (tempWallets this !! i) as [wallet|]; [|apply IH].
  destruct (executeTrade this wallet (tradeEnv e k)) as [[wallet' calls] log].
  match goal with |- context [tradeAll _ _ e (S k) rest ?b] =>
    specialize (IH (S k) b); destruct (tradeAll executeTrade stopTrading e (S k) rest b) end.
  simpl in *. rewrite IH, interrupt_walletFile. reflexivity.
Qed.

(** The [for] loop writes only the records at the indices it is given. *)
Lemma tradeAll_frame e eligible i : forall k this,
  ~ In i eligible ->
  tempWallets (tradeAll executeTrade stopTrading e k eligible this).1 !! i
  = tempWallets this !! i.
Proof.
  induction eligible as [|j rest IH]; intros k this Hnot; simpl; [reflexivity|].
  assert (Hne : j <> i) by (intros ->; apply Hnot; now left).
  assert (Hrest : ~ In i rest) by (intros Hin; apply Hnot; now right).
  destruct (tempWallets this !! j) as [wallet|]; [|now apply IH].
  destruct (executeTrade this wallet (tradeEnv e k)) as [[wallet' calls] log].
  match goal with |- context [tradeAll _ _ e (S k) rest ?b] =>
    specialize (IH (S k) b Hrest); destruct (tradeAll executeTrade stopTrading e (S k) rest b) end.
  simpl in *. rewrite IH, (interrupt_tempWallets stopTrading stop_keeps_wallets). simpl.
  now apply list_lookup_insert_ne.
Qed.

Hypothesis exec_keeps_identity : forall this wallet env,
  address (recordAfter (executeTrade this wallet env)) = address wallet
  /\ privateKey (recordAfter (executeTrade this wallet env)) = privateKey wallet.

Lemma insert_same_image {A B} (f : A -> B) (l : list A) (i : nat) (x y : A) :
  l !! i = Some x -> f y = f x -> f <$> <[i:=y]> l = f <$> l.
Proof.
  intros Hi Hf. rewrite list_fmap_insert, Hf.
  apply list_insert_id. now rewrite list_lookup_fmap, Hi.
Qed.

Lemma tradeAll_identity e eligible : forall k this,
  address <$> tempWallets (tradeAll executeTrade stopTrading e k eligible this).1
  = address <$> tempWallets this
  /\ privateKey <$> tempWallets (tradeAll executeTrade stopTrading e k eligible this).1
     = privateKey <$> tempWallets this.
Proof.
  induction eligible as [|i rest IH]; intros k this; simpl; [split; reflexivity|].
  destruct (tempWallets this !! i) as [wallet|] eqn:Hi; [|apply IH].
  destruct (exec_keeps_identity this wallet (tradeEnv e k)) as [Ha Hp].
  unfold recordAfter in Ha, Hp.
  destruct (executeTrade this wallet (tradeEnv e k)) as [[wallet' calls] log]. simpl in Ha, Hp.
  match goal with |- context [tradeAll _ _ e (S k) rest ?b] =>
    specialize (IH (S k) b); destruct (tradeAll executeTrade stopTrading e (S k) rest b) end.
  simpl in *. destruct IH as [IHa IHp].
  rewrite IHa, IHp, (interrupt_tempWallets stopTrading stop_keeps_wallets). simpl.
  split; eapply insert_same_image; eauto.
Qed.

Lemma cycle_identity e fs this :
  address <$> tempWallets (botAfter (cycle isGasPriceAcceptable executeTrade stopTrading e fs this))
  = address <$> tempWallets this
  /\ privateKey <$> tempWallets (botAfter (cycle isGasPriceAcceptable executeTrade stopTrading e fs this))
     = privateKey <$> tempWallets this.
Proof.
  rewrite cycle_cases. cbv zeta.
  pose proof (tradeAll_identity e (eligibleWallets e (afterRecompute e this)) 0%nat
                (afterRecompute e this)) as Hid.
  rewrite !afterRecompute_tempWallets in Hid.
  destruct (isGasPriceAcceptable _ _) as [[|]|]; [destruct (writeOk e)| |];
    unfold botAfter; cbn [fst snd];
    rewrite (interrupt_tempWallets stopTrading stop_keeps_wallets);
    rewrite ?afterRecompute_tempWallets; auto.
Qed.

Lemma tradeAll_no_stop_line e eligible : forall k this,
  ~ In TradingStopped (tradeAll executeTrade stopTrading e k eligible this).2.
Proof.
  induction eligible as [|i rest IH]; intros k this; simpl; [tauto|].
  destruct (tempWallets this !! i) as [wallet|]; [|apply IH].
  destruct (executeTrade this wallet (tradeEnv e k)) as [[wallet' calls] log].
  match goal with |- context [tradeAll _ _ e (S k) rest ?b] =>
    specialize (IH (S k) b); destruct (tradeAll executeTrade stopTrading e (S k) rest b) end.
  simpl in *. intros [Hd|[Hd|Hd]]; [discriminate | discriminate | tauto].
Qed.

Lemma cycle_no_stop_line e fs this :
  ~ In TradingStopped (eventsOf (cycle isGasPriceAcceptable executeTrade stopTrading e fs this)).
Proof.
  rewrite cycle_cases. cbv zeta.
  pose proof (tradeAll_no_stop_line e (eligibleWallets e (afterRecompute e this)) 0%nat
                (afterRecompute e this)) as Hq.
  assert (Hr : ~ In TradingStopped (recomputeEvents e))
    by (unfold recomputeEvents; destruct (Qlt_bool _ _); simpl; intuition discriminate).
  destruct (isGasPriceAcceptable _ _) as [[|]|]; [destruct (writeOk e)| |];
    unfold eventsOf; cbn [snd]; rewrite ?in_app_iff; simpl; rewrite ?in_app_iff; simpl;
    intuition discriminate.
Qed.

(** What a pass trades, where it writes and how long it pauses, by the
    answer of the gate. *)
Lemma cycle_summary e fs this :
  let this1 := afterRecompute e this in
  let r := cycle isGasPriceAcceptable executeTrade stopTrading e fs this in
  match isGasPriceAcceptable this1 (chainGas e) with
  | Some true =>
      scans (eventsOf r) = [eligibleWallets e this1]
      /\ tradedIndices (eventsOf r) = eligibleWallets e this1
      /\ (if writeOk e
          then filesAfter r = <[walletFile this := JSON_stringify (tempWallets (botAfter r))]> fs
               /\ pauses (eventsOf r) = [CHECK_INTERVAL] /\ In Persisted (eventsOf r)
          else filesAfter r = fs /\ pauses (eventsOf r) = [RETRY_DELAY]
               /\ In LoopError (eventsOf r))
  | reply =>
      scans (eventsOf r) = [] /\ tradedIndices (eventsOf r) = [] /\ filesAfter r = fs
      /\ tempWallets (botAfter r) = tempWallets this /\ pauses (eventsOf r) = [RETRY_DELAY]
      /\ (reply = None -> In LoopError (eventsOf r))
  end.
Proof.
  cbv zeta. rewrite cycle_cases. cbv zeta.
  destruct (recomputeEvents_quiet e) as (Ht0 & Hs0 & Hp0).
  destruct (isGasPriceAcceptable _ _) as [[|]|].
  - destruct (tradeAll_trades_all executeTrade stopTrading stop_keeps_wallets e
                (eligibleWallets e (afterRecompute e this)) 0%nat (afterRecompute e this)
                (eligibleWallets_in_range e _)) as [Ht _].
    destruct (tradeAll_quiet executeTrade stopTrading e
                (eligibleWallets e (afterRecompute e this)) 0%nat (afterRecompute e this))
      as [Hs Hp].
    pose proof (tradeAll_walletFile e (eligibleWallets e (afterRecompute e this)) 0%nat
                  (afterRecompute e this)) as Hf.
    rewrite afterRecompute_walletFile in Hf.
    destruct (tradeAll _ _ e 0%nat _ _) as [this2 ev2]. simpl in Ht, Hs, Hp, Hf.
    destruct (writeOk e); unfold eventsOf, filesAfter, botAfter; cbn [fst snd];
      rewrite scans_app, tradedIndices_app, pauses_app, Ht0, Hs0, Hp0; simpl;
      rewrite scans_app, tradedIndices_app, pauses_app, Ht, Hs, Hp; simpl;
      rewrite ?app_nil_r, ?(interrupt_tempWallets stopTrading stop_keeps_wallets), ?Hf;
      repeat split; trivial;
      rewrite in_app_iff; right; right; rewrite in_app_iff; right; now left.
  - unfold eventsOf, filesAfter, botAfter; cbn [fst snd].
    rewrite scans_app, tradedIndices_app, pauses_app, Ht0, Hs0, Hp0,
      (interrupt_tempWallets stopTrading stop_keeps_wallets), afterRecompute_tempWallets.
    repeat split; trivial. discriminate.
  - unfold eventsOf, filesAfter, botAfter; cbn [fst snd].
    rewrite scans_app, tradedIndices_app, pauses_app, Ht0, Hs0, Hp0,
      (interrupt_tempWallets stopTrading stop_keeps_wallets), afterRecompute_tempWallets.
    repeat split; trivial. intros _. rewrite in_app_iff. right. now left.
Qed.

Lemma cycle_frame e fs this i :
  isEligible e (afterRecompute e this) i = false ->
  tempWallets (botAfter (cycle isGasPriceAcceptable executeTrade stopTrading e fs this)) !! i
  = tempWallets this !! i.
Proof.
  intros Hno. rewrite cycle_cases. cbv zeta.
  assert (Hnot : ~ In i (eligibleWallets e (afterRecompute e this))).
  { unfold eligibleWallets. rewrite filter_In. intros [_ Hy]. congruence. }
  pose proof (tradeAll_frame e (eligibleWallets e (afterRecompute e this)) i 0%nat
                (afterRecompute e this) Hnot) as Hfr.
  rewrite afterRecompute_tempWallets in Hfr.
  destruct (isGasPriceAcceptable _ _) as [[|]|]; [destruct (writeOk e)| |];
    unfold botAfter; cbn [fst snd];
    rewrite (interrupt_tempWallets stopTrading stop_keeps_wallets);
    rewrite ?afterRecompute_tempWallets; auto.
Qed.
End LoopFacts.

Lemma eligibleWallets_NoDup e this : List.NoDup (eligibleWallets e this).
Proof. unfold eligibleWallets. apply List.NoDup_filter, List.seq_NoDup. Qed.

Lemma eligibleWallets_spec e this i :
  In i (eligibleWallets e this) <-> isEligible e this i = true.
Proof.
  unfold eligibleWallets. rewrite filter_In, in_seq. split; [tauto|].
  intros Hy. split; [|exact Hy]. unfold isEligible in Hy.
  destruct (tempWallets this !! i) eqn:Hi; [|discriminate].
  apply lookup_lt_Some in Hi. lia.
Qed.

Section RunningFacts.
Context `{Json}.
Variable isGasPriceAcceptable : Bot -> option Z -> option bool.
Variable executeTrade : Bot -> WalletRecord -> TradeEnv -> WalletRecord * list ChainCall * TradeLog.
Variable stopTrading : Bot -> Bot.

Lemma afterRecompute_running e this : running (afterRecompute e this) = running this.
Proof. unfold afterRecompute. destruct (Qlt_bool _ _); reflexivity. Qed.

Lemma afterRecompute_chainConfig e this : chainConfig (afterRecompute e this) = chainConfig this.
Proof. unfold afterRecompute. destruct (Qlt_bool _ _); reflexivity. Qed.

Lemma tradeAll_keeps_running e eligible :
  (forall k b, running (interrupt stopTrading (stopRequested e k) b) = running b) ->
  forall k this,
  running (tradeAll executeTrade stopTrading e k eligible this).1 = running this.
Proof.
  intros Hquiet. induction eligible as [|i rest IH]; intros k this; simpl; [reflexivity|].
  destruct (tempWallets this !! i) as [wallet|]; [|apply IH].
  destruct (executeTrade this wallet (tradeEnv e k)) as [[wallet' calls] log].
  match goal with |- context [tradeAll _ _ e (S k) rest ?b] =>
    specialize (IH (S k) b); destruct (tradeAll executeTrade stopTrading e (S k) rest b) end.
  simpl in *. now rewrite IH, Hquiet.
Qed.

Lemma cycle_keeps_running e fs this :
  (forall requested b, requested = stopWhileSleeping e \/ (exists k, requested = stopRequested e k) ->
     running (interrupt stopTrading requested b) = running b) ->
  running (botAfter (cycle isGasPriceAcceptable executeTrade stopTrading e fs this))
  = running this.
Proof.
  intros Hquiet. rewrite cycle_cases. cbv zeta.
  pose proof (tradeAll_keeps_running e (eligibleWallets e (afterRecompute e this))
                (fun k b => Hquiet _ b (or_intror (ex_intro _ k eq_refl))) 0%nat
                (afterRecompute e this)) as Hall.
  rewrite afterRecompute_running in Hall.
  destruct (isGasPriceAcceptable _ _) as [[|]|]; [destruct (writeOk e)| |];
    unfold botAfter; cbn [fst snd]; rewrite Hquiet by (now left);
    rewrite ?afterRecompute_running; auto.
Qed.
End RunningFacts.

Section BothLoops.
Context `{Ethers} `{Json}.

Lemma passOf_cycle s :
  passOf s = cycle (gateOf s) (executorOf s) (handlerOf s).
Proof. destruct s; reflexivity. Qed.

Lemma handlerOf_tempWallets s this : tempWallets (handlerOf s this) = tempWallets this.
Proof. destruct s; reflexivity. Qed.

Lemma handlerOf_walletFile s this : walletFile (handlerOf s this) = walletFile this.
Proof. destruct s; reflexivity. Qed.

Lemma executorOf_identity s this wallet env :
  address (recordAfter (executorOf s this wallet env)) = address wallet
  /\ privateKey (recordAfter (executorOf s this wallet env)) = privateKey wallet.
Proof. destruct s; apply executeTrade_keeps_identity. Qed.

Lemma gateOf_afterRecompute s e this reply :
  gateOf s (afterRecompute e this) reply = gateOf s this reply.
Proof.
  destruct s; [reflexivity|]. unfold gateOf, MyServer.isGasPriceAcceptable.
  now rewrite afterRecompute_chainConfig.
Qed.

Lemma passOf_identity s e fs this :
  sameIdentities (tempWallets (botAfter (passOf s e fs this))) (tempWallets this).
Proof.
  rewrite passOf_cycle.
  apply (cycle_identity (gateOf s) (executorOf s) (handlerOf s)
           (handlerOf_tempWallets s) (executorOf_identity s)).
Qed.

Lemma sameIdentities_trans ws1 ws2 ws3 :
  sameIdentities ws1 ws2 -> sameIdentities ws2 ws3 -> sameIdentities ws1 ws3.
Proof. unfold sameIdentities. intros [-> ->] [-> ->]. split; reflexivity. Qed.

Lemma loopOf_identity s envs : forall fs this,
  sameIdentities (tempWallets (botAfter (loopOf s envs fs this))) (tempWallets this).
Proof.
  induction envs as [|e rest IH]; intros fs this.
  - destruct s; simpl; [|destruct (running this)]; split; reflexivity.
  - pose proof (passOf_identity s e fs this) as Hc.
    assert (Hstep : loopOf s (e :: rest) fs this
                    = (let '(fs1, this1, events) := passOf s e fs this in
                       let '(fs2, this2, events') := loopOf s rest fs1 this1 in
                       (fs2, this2, events ++ events'))
                    \/ loopOf s (e :: rest) fs this = (fs, this, [TradingStopped])).
    { destruct s; simpl; [now left|]. destruct (running this); [now left | now right]. }
    destruct Hstep as [-> | ->]; [|split; reflexivity].
    destruct (passOf s e fs this) as [[fs1 this1] events].
    specialize (IH fs1 this1).
    destruct (loopOf s rest fs1 this1) as [[fs2 this2] events'].
    unfold botAfter in *. simpl in *. eapply sameIdentities_trans; eauto.
Qed.

Lemma passOf_summary s e fs this :
  let this1 := afterRecompute e this in
  let r := passOf s e fs this in
  match gateOf s this (chainGas e) with
  | Some true =>
      scans (eventsOf r) = [eligibleWallets e this1]
      /\ tradedIndices (eventsOf r) = eligibleWallets e this1
      /\ (if writeOk e
          then filesAfter r = <[walletFile this := JSON_stringify (tempWallets (botAfter r))]> fs
               /\ pauses (eventsOf r) = [CHECK_INTERVAL] /\ In Persisted (eventsOf r)
          else filesAfter r = fs /\ pauses (eventsOf r) = [RETRY_DELAY]
               /\ In LoopError (eventsOf r))
  | reply =>
      scans (eventsOf r) = [] /\ tradedIndices (eventsOf r) = [] /\ filesAfter r = fs
      /\ tempWallets (botAfter r) = tempWallets this /\ pauses (eventsOf r) = [RETRY_DELAY]
      /\ (reply = None -> In LoopError (eventsOf r))
  end.
Proof.
  cbv zeta. rewrite <- (gateOf_afterRecompute s e this), passOf_cycle.
  apply (cycle_summary (gateOf s) (executorOf s) (handlerOf s)
           (handlerOf_tempWallets s) (handlerOf_walletFile s)).
Qed.

Lemma passOf_pause_fixed s e fs this :
  exists ms, pauses (eventsOf (passOf s e fs this)) = [ms] /\ fixedPause ms.
Proof.
  pose proof (passOf_summary s e fs this) as Hs. cbv zeta in Hs.
  destruct (gateOf s this (chainGas e)) as [[|]|]; [destruct (writeOk e)| |].
  - exists CHECK_INTERVAL. split; [tauto | now left].
  - exists RETRY_DELAY. split; [tauto | now right].
  - exists RETRY_DELAY. split; [tauto | now right].
  - exists RETRY_DELAY. split; [tauto | now right].
Qed.

Lemma passOf_no_stop_line s e fs this :
  ~ In TradingStopped (eventsOf (passOf s e fs this)).
Proof. rewrite passOf_cycle. apply cycle_no_stop_line. Qed.

Lemma MyServer_gate_open this g :
  (formatGwei g < maxGasPrice (chainConfig this))%Q ->
  gateOf mysever_js this (Some g) = Some true.
Proof.
  intros Hlt. unfold gateOf, MyServer.isGasPriceAcceptable.
  apply Qlt_bool_iff in Hlt. now rewrite Hlt.
Qed.

End BothLoops.

(** X12.  Trading never changes who the temporary wallets are: after any
    number of passes of either loop the pool holds the same addresses and
    private keys at the same positions (only [lastTradeTime] can differ). *)
Theorem wallet_identities_survive_trading `{Ethers} `{Json}
  (s : Script) (envs : list CycleEnv) (fs : gmap string FileText) (this : Bot) :
  sameIdentities (tempWallets (botAfter (loopOf s envs fs this))) (tempWallets this).
Proof. apply loopOf_identity. Qed.

Lemma generateRandomDelay_between (tp : TradingParams) (r : Q) :
  (minInterval tp <= maxInterval tp)%Q -> isRandom r ->
  (minInterval tp <= generateRandomDelay tp r <= maxInterval tp)%Q.
Proof.
  unfold isRandom, generateRandomDelay. intros Hle [H0 H1].
  assert (Hp : (0 <= r * (maxInterval tp - minInterval tp))%Q) by (apply Qmult_le_0_compat; lra).
  assert (Hq : (0 <= (1 - r) * (maxInterval tp - minInterval tp))%Q)
    by (apply Qmult_le_0_compat; lra).
  split; lra.
Qed.

(** X13.  The eligibility filter, with [minInterval <= maxInterval]: a
    wallet it accepts is in the active set and has been idle for at least
    [minInterval]; an active wallet that has been idle for [maxInterval] or
    longer is always accepted, whatever delay is drawn. *)
Theorem eligible_means_active_and_idle (e : CycleEnv) (this : Bot) (i : nat) :
  let tp := tradingParams (chainConfig this) in
  (minInterval tp <= maxInterval tp)%Q -> isRandom (rndDelay e i) ->
  (In i (eligibleWallets e this) ->
   exists wallet, tempWallets this !! i = Some wallet
     /\ address wallet ∈ activeWallets this
     /\ (minInterval tp <= inject_Z (now e - lastTradeTime wallet))%Q)
  /\ (forall wallet, tempWallets this !! i = Some wallet ->
      address wallet ∈ activeWallets this ->
      (maxInterval tp <= inject_Z (now e - lastTradeTime wallet))%Q ->
      In i (eligibleWallets e this)).
Proof.
  intros tp Hle Hr.
  destruct (generateRandomDelay_between tp (rndDelay e i) Hle Hr) as [Hlo Hhi].
  split.
  - rewrite eligibleWallets_spec. unfold isEligible.
    destruct (tempWallets this !! i) as [wallet|]; [|discriminate].
    rewrite andb_true_iff, bool_decide_eq_true, Qle_bool_iff. intros [Hact Hidle].
    exists wallet. repeat split; trivial. fold tp in Hidle. lra.
  - intros wallet Hi Hact Hidle. rewrite eligibleWallets_spec. unfold isEligible.
    rewrite Hi, andb_true_iff, bool_decide_eq_true, Qle_bool_iff. fold tp. split; [exact Hact | lra].
Qed.

Lemma eligible_means_active_and_idle_witness :
  (In 0%nat (eligibleWallets (Sample.pass 40000000000 []) Sample.bot) ->
   exists wallet, tempWallets Sample.bot !! 0%nat = Some wallet
     /\ address wallet ∈ activeWallets Sample.bot
     /\ (minInterval (tradingParams (chainConfig Sample.bot))
         <= inject_Z (now (Sample.pass 40000000000 []) - lastTradeTime wallet))%Q)
  /\ (forall wallet, tempWallets Sample.bot !! 0%nat = Some wallet ->
      address wallet ∈ activeWallets Sample.bot ->
      (maxInterval (tradingParams (chainConfig Sample.bot))
       <= inject_Z (now (Sample.pass 40000000000 []) - lastTradeTime wallet))%Q ->
      In 0%nat (eligibleWallets (Sample.pass 40000000000 []) Sample.bot)).
Proof.
  apply (eligible_means_active_and_idle (Sample.pass 40000000000 []) Sample.bot 0).
  - vm_compute; congruence.
  - split; vm_compute; congruence.
Defined.

(** X14.  In one pass of either loop no wallet is traded twice, and every
    wallet that is traded was accepted by the eligibility filter of that
    pass. *)
Theorem pass_trades_only_eligible_wallets_once `{Ethers} `{Json}
  (s : Script) (e : CycleEnv) (fs : gmap string FileText) (this : Bot) :
  List.NoDup (tradedIndices (eventsOf (passOf s e fs this)))
  /\ forall i, In i (tradedIndices (eventsOf (passOf s e fs this))) ->
               isEligible e (afterRecompute e this) i = true.
Proof.
  pose proof (passOf_summary s e fs this) as Hs. cbv zeta in Hs.
  destruct (gateOf s this (chainGas e)) as [[|]|]; destruct Hs as (_ & -> & _);
    (split; [first [apply eligibleWallets_NoDup | constructor]
            | intros i Hi; first [now apply eligibleWallets_spec | destruct Hi]]).
Qed.

(** X15.  A pass of either loop leaves the record of every wallet the
    filter rejected exactly as it was. *)
Theorem pass_leaves_rejected_wallets_alone `{Ethers} `{Json}
  (s : Script) (e : CycleEnv) (fs : gmap string FileText) (this : Bot) (i : nat) :
  isEligible e (afterRecompute e this) i = false ->
  tempWallets (botAfter (passOf s e fs this)) !! i = tempWallets this !! i.
Proof.
  intros Hno. rewrite passOf_cycle.
  apply (cycle_frame (gateOf s) (executorOf s) (handlerOf s) (handlerOf_tempWallets s)).
  exact Hno.
Qed.

Lemma pass_leaves_rejected_wallets_alone_witness :
  let busy := setTempWallets Sample.bot
                [Sample.alice; setLastTradeTime Sample.bob 1699999950000] in
  tempWallets (botAfter (@passOf Sample.ethers Sample.json mysever_js
                           (Sample.pass 40000000000 []) Sample.noFiles busy)) !! 1%nat
  = tempWallets busy !! 1%nat.
Proof.
  apply (@pass_leaves_rejected_wallets_alone Sample.ethers Sample.json mysever_js
           (Sample.pass 40000000000 []) Sample.noFiles
           (setTempWallets Sample.bot [Sample.alice; setLastTradeTime Sample.bob 1699999950000])
           1).
  vm_compute. reflexivity.
Defined.

Example busy_wallet_is_skipped :
  let busy := setTempWallets Sample.bot
                [Sample.alice; setLastTradeTime Sample.bob 1699999950000] in
  tradedIndices (eventsOf (@MyServer.cycle Sample.ethers Sample.json
                             (Sample.pass 40000000000 []) Sample.noFiles busy)) = [0%nat].
Proof. vm_compute. reflexivity. Qed.

(** X16.  What a pass persists is what the next start loads: after a pass
    that reached its write, [initializeTempWallets] of any bot on the same
    wallet file finds the file, generates nothing and takes over the pool as
    the pass left it, [lastTradeTime] stamps included ([JSON.parse] being
    the inverse of [JSON.stringify]). *)
Theorem persisted_pool_is_reloaded `{Ethers} `{Json}
  (s : Script) (e : CycleEnv) (fs : gmap string FileText) (this : Bot)
  (env : InitEnv) (next : Bot) :
  (forall ws, JSON_parse (JSON_stringify ws) = Some ws) ->
  gateOf s this (chainGas e) = Some true -> writeOk e = true ->
  walletFile next = walletFile this ->
  initializeTempWallets env (filesAfter (passOf s e fs this)) next
  = Some (filesAfter (passOf s e fs this),
          updateActiveWallets (initShuffle env)
            (setTempWallets next (tempWallets (botAfter (passOf s e fs this))))).
Proof.
  intros Hjson Hgate Hw Hfile.
  pose proof (passOf_summary s e fs this) as Hs. cbv zeta in Hs.
  rewrite Hgate, Hw in Hs. destruct Hs as (_ & _ & Hfs & _).
  unfold initializeTempWallets. rewrite Hfs at 1. rewrite Hfile, lookup_insert_eq, Hjson.
  reflexivity.
Qed.

Lemma persisted_pool_is_reloaded_witness :
  let r := @passOf Sample.ethers Sample.json mysever_js
             (Sample.pass 40000000000 []) Sample.noFiles Sample.bot in
  @initializeTempWallets Sample.ethers Sample.json (Sample.init 2) (filesAfter r)
    (newBot Sample.config "avax" "0xMain" 2)
  = Some (filesAfter r,
          updateActiveWallets (initShuffle (Sample.init 2))
            (setTempWallets (newBot Sample.config "avax" "0xMain" 2)
               (tempWallets (botAfter r)))).
Proof.
  apply (@persisted_pool_is_reloaded Sample.ethers Sample.json mysever_js
           (Sample.pass 40000000000 []) Sample.noFiles Sample.bot (Sample.init 2)
           (newBot Sample.config "avax" "0xMain" 2)).
  - intros ws. reflexivity.
  - vm_compute. reflexivity.
  - reflexivity.
  - vm_compute. reflexivity.
Defined.



(** X18.  When the gas-price query itself fails, the pass of either loop
    ends in the [catch]: nothing is scanned or traded, the pool and the
    files are untouched, and the loop pauses for the retry delay. *)
Theorem failed_gas_query_skips_the_pass `{Ethers} `{Json}
  (s : Script) (e : CycleEnv) (fs : gmap string FileText) (this : Bot) :
  chainGas e = None ->
  scans (eventsOf (passOf s e fs this)) = []
  /\ tradedIndices (eventsOf (passOf s e fs this)) = []
  /\ filesAfter (passOf s e fs this) = fs
  /\ tempWallets (botAfter (passOf s e fs this)) = tempWallets this
  /\ pauses (eventsOf (passOf s e fs this)) = [RETRY_DELAY]
  /\ In LoopError (eventsOf (passOf s e fs this)).
Proof.
  intros Hgas.
  pose proof (passOf_summary s e fs this) as Hs. cbv zeta in Hs.
  assert (Hgate : gateOf s this (chainGas e) = None) by (rewrite Hgas; destruct s; reflexivity).
  rewrite Hgate in Hs. intuition.
Qed.

Lemma failed_gas_query_skips_the_pass_witness :
  let e := {| rndRecompute := 0; shuffle := fun ws => ws;
              chainGas := None; now := 1700000000000;
              rndDelay := fun _ => 1 # 2; tradeEnv := fun _ => Sample.goodTrade;
              rndJitter := fun _ => 1 # 2; stopRequested := fun _ => false;
              writeOk := true; stopWhileSleeping := false |} in
  let r := @passOf Sample.ethers Sample.json server_js e Sample.noFiles Sample.bot in
  scans (eventsOf r) = [] /\ tradedIndices (eventsOf r) = []
  /\ filesAfter r = Sample.noFiles /\ tempWallets (botAfter r) = tempWallets Sample.bot
  /\ pauses (eventsOf r) = [RETRY_DELAY] /\ In LoopError (eventsOf r).
Proof.
  apply (@failed_gas_query_skips_the_pass Sample.ethers Sample.json server_js
           {| rndRecompute := 0; shuffle := fun ws => ws;
              chainGas := None; now := 1700000000000;
              rndDelay := fun _ => 1 # 2; tradeEnv := fun _ => Sample.goodTrade;
              rndJitter := fun _ => 1 # 2; stopRequested := fun _ => false;
              writeOk := true; stopWhileSleeping := false |}
           Sample.noFiles Sample.bot); reflexivity.
Defined.

Section LoopShape.
Context `{Ethers} `{Json}.

Lemma Server_cycle_running e fs this :
  running (botAfter (Server.cycle e fs this)) = running this.
Proof.
  apply (cycle_keeps_running Server.isGasPriceAcceptable Server.executeTrade Server.noHandler).
  intros requested b _. unfold interrupt. now destruct requested.
Qed.

Lemma MyServer_cycle_running e fs this :
  undisturbed e -> running (botAfter (MyServer.cycle e fs this)) = running this.
Proof.
  intros [Hk Hs].
  apply (cycle_keeps_running MyServer.isGasPriceAcceptable MyServer.executeTrade
           MyServer.stopTrading).
  intros requested b [-> | [k ->]]; [rewrite Hs | rewrite Hk]; reflexivity.
Qed.

Lemma Server_loop_shape envs : forall fs this,
  length (pauses (eventsOf (Server.startTrading envs fs this))) = length envs
  /\ Forall fixedPause (pauses (eventsOf (Server.startTrading envs fs this)))
  /\ ~ In TradingStopped (eventsOf (Server.startTrading envs fs this))
  /\ running (botAfter (Server.startTrading envs fs this)) = running this.
Proof.
  induction envs as [|e rest IH]; intros fs this; simpl.
  - repeat split; [constructor | tauto].
  - destruct (passOf_pause_fixed server_js e fs this) as (ms & Hp & Hms).
    pose proof (passOf_no_stop_line server_js e fs this) as Hno.
    pose proof (Server_cycle_running e fs this) as Hrun.
    simpl in Hp, Hno.
    destruct (Server.cycle e fs this) as [[fs1 this1] events].
    destruct (IH fs1 this1) as (IHl & IHf & IHn & IHr).
    destruct (Server.startTrading rest fs1 this1) as [[fs2 this2] events'].
    unfold eventsOf, botAfter in *. simpl in *.
    rewrite pauses_app, Hp. simpl. repeat split.
    + now f_equal.
    + now constructor.
    + rewrite in_app_iff. tauto.
    + congruence.
Qed.

(** The loop of [mysever.js] logs that it stopped exactly when it leaves
    with the flag cleared, and then as its last line. *)
Lemma MyServer_loop_shape envs : forall fs this,
  (running (botAfter (MyServer.tradingLoop envs fs this)) = false ->
   exists before, eventsOf (MyServer.tradingLoop envs fs this) = before ++ [TradingStopped]
                  /\ ~ In TradingStopped before)
  /\ (running (botAfter (MyServer.tradingLoop envs fs this)) = true ->
      ~ In TradingStopped (eventsOf (MyServer.tradingLoop envs fs this))
      /\ length (pauses (eventsOf (MyServer.tradingLoop envs fs this))) = length envs).
Proof.
  induction envs as [|e rest IH]; intros fs this; simpl.
  - destruct (running this) eqn:Hr; unfold botAfter, eventsOf; simpl; rewrite Hr; split.
    + discriminate.
    + intros _. split; [tauto | reflexivity].
    + intros _. exists []. split; [reflexivity | tauto].
    + discriminate.
  - destruct (running this) eqn:Hr.
    + destruct (passOf_pause_fixed mysever_js e fs this) as (ms & Hp & _).
      pose proof (passOf_no_stop_line mysever_js e fs this) as Hno.
      simpl in Hp, Hno.
      destruct (MyServer.cycle e fs this) as [[fs1 this1] events].
      destruct (IH fs1 this1) as [IHstop IHrun].
      destruct (MyServer.tradingLoop rest fs1 this1) as [[fs2 this2] events'].
      unfold eventsOf, botAfter in *. simpl in *. split.
      * intros Hoff. destruct (IHstop Hoff) as (before & -> & Hb).
        exists (events ++ before). split; [now rewrite app_assoc|].
        rewrite in_app_iff. tauto.
      * intros Hon. destruct (IHrun Hon) as [Hn Hl]. split.
        -- rewrite in_app_iff. tauto.
        -- rewrite pauses_app, Hp. simpl. now f_equal.
    + unfold botAfter, eventsOf; simpl; rewrite Hr; split.
      * intros _. exists []. split; [reflexivity | tauto].
      * discriminate.
Qed.

Lemma MyServer_loop_undisturbed envs : forall fs this,
  Forall undisturbed envs -> running this = true ->
  running (botAfter (MyServer.tradingLoop envs fs this)) = true.
Proof.
  induction envs as [|e rest IH]; intros fs this Hall Hr; simpl; rewrite Hr.
  - exact Hr.
  - inversion Hall as [|? ? He Hrest]; subst.
    pose proof (MyServer_cycle_running e fs this He) as Hrun.
    destruct (MyServer.cycle e fs this) as [[fs1 this1] events].
    unfold botAfter in Hrun. simpl in Hrun.
    specialize (IH fs1 this1 Hrest (eq_trans Hrun Hr)).
    destruct (MyServer.tradingLoop rest fs1 this1) as [[fs2 this2] events'].
    exact IH.
Qed.

End LoopShape.

(** X19.  The loop of [server.js] has no way out: however many passes are
    observed, each of them ends in exactly one pause, of the check interval
    or of the retry delay, the stop line is never logged and the [running]
    field is never written. *)
Theorem Server_loop_never_stops `{Ethers} `{Json}
  (envs : list CycleEnv) (fs : gmap string FileText) (this : Bot) :
  length (pauses (eventsOf (Server.startTrading envs fs this))) = length envs
  /\ Forall fixedPause (pauses (eventsOf (Server.startTrading envs fs this)))
  /\ ~ In TradingStopped (eventsOf (Server.startTrading envs fs this))
  /\ running (botAfter (Server.startTrading envs fs this)) = running this.
Proof. apply Server_loop_shape. Qed.

(** X20.  The loop of [mysever.js] logs that trading stopped exactly when
    it leaves with the [running] flag cleared, once and as its last line;
    while the flag is still set every observed pass has run to its pause. *)
Theorem MyServer_loop_stops_once `{Ethers} `{Json}
  (envs : list CycleEnv) (fs : gmap string FileText) (this : Bot) :
  (running (botAfter (MyServer.tradingLoop envs fs this)) = false ->
   exists before, eventsOf (MyServer.tradingLoop envs fs this) = before ++ [TradingStopped]
                  /\ ~ In TradingStopped before)
  /\ (running (botAfter (MyServer.tradingLoop envs fs this)) = true ->
      ~ In TradingStopped (eventsOf (MyServer.tradingLoop envs fs this))
      /\ length (pauses (eventsOf (MyServer.tradingLoop envs fs this))) = length envs).
Proof. apply MyServer_loop_shape. Qed.

(** X21.  [startTrading] of [mysever.js] on a bot that is not running sets
    the flag and, as long as no stop request is served, keeps looping: every
    observed pass runs, the flag stays set and the stop line is not
    logged. *)
Theorem startTrading_runs_until_stopped `{Ethers} `{Json}
  (envs : list CycleEnv) (fs : gmap string FileText) (this : Bot) :
  running this = false -> Forall undisturbed envs ->
  exists r, MyServer.startTrading envs fs this = Some r
    /\ running (botAfter r) = true
    /\ length (pauses (eventsOf r)) = length envs
    /\ ~ In TradingStopped (eventsOf r).
Proof.
  intros Hoff Hall. unfold MyServer.startTrading. rewrite Hoff.
  eexists. split; [reflexivity|].
  pose proof (MyServer_loop_undisturbed envs fs (setRunning this true) Hall eq_refl) as Hon.
  destruct (MyServer_loop_shape envs fs (setRunning this true)) as [_ Hshape].
  destruct (Hshape Hon) as [Hn Hl]. auto.
Qed.

Lemma startTrading_runs_until_stopped_witness :
  exists r, @MyServer.startTrading Sample.ethers Sample.json
              [Sample.pass 40000000000 []; Sample.pass 60000000000 []] Sample.noFiles
              (setRunning Sample.bot false) = Some r
    /\ running (botAfter r) = true
    /\ length (pauses (eventsOf r)) = 2%nat
    /\ ~ In TradingStopped (eventsOf r).
Proof.
  apply (@startTrading_runs_until_stopped Sample.ethers Sample.json
           [Sample.pass 40000000000 []; Sample.pass 60000000000 []] Sample.noFiles
           (setRunning Sample.bot false)).
  - reflexivity.
  - repeat constructor.
Defined.

(** ** Initialisation and the control surface *)

Lemma orElse_truthy a q b : isTruthy a q -> orElse a b = q.
Proof.
  intros [-> Hq]. simpl. destruct (Qeq_bool q 0) eqn:E; [|reflexivity].
  apply Qeq_bool_iff in E. contradiction.
Qed.




Lemma checkMainWalletBalance_wei env :
  checkMainWalletBalance env = Some tt
  <-> exists balance, mainBalance env = Some balance /\ 1000000000000000 <= balance.
Proof.
  unfold checkMainWalletBalance. destruct (mainBalance env) as [balance|].
  - destruct (Qlt_bool (formatEther balance) MIN_AVAX_BALANCE) eqn:E.
    + apply Qlt_bool_iff in E. unfold formatEther, MIN_AVAX_BALANCE, Qlt in E. simpl in E.
      split; [discriminate|]. intros (b & [= <-] & Hb). lia.
    + apply not_true_iff_false in E. rewrite Qlt_bool_iff in E.
      unfold formatEther, MIN_AVAX_BALANCE, Qlt in E. simpl in E.
      split; [|reflexivity]. intros _. exists balance. split; [reflexivity | lia].
  - split; [discriminate|]. intros (b & Hb & _). discriminate.
Qed.

Section StoreFacts.
Context `{Ethers} `{Json}.

Lemma initializeTempWallets_keeps env fs this fs' this' :
  initializeTempWallets env fs this = Some (fs', this') ->
  chainConfig this' = chainConfig this /\ running this' = running this
  /\ walletFile this' = walletFile this
  /\ activeWallets this'
     = list_to_set (address <$> take (activeCount (length (tempWallets this')))
                                  (initShuffle env (tempWallets this'))).
Proof.
  unfold initializeTempWallets.
  destruct (fs !! walletFile this) as [text|].
  - destruct (JSON_parse text) as [ws|]; [|discriminate]. intros [= <- <-]. repeat split.
  - destruct (writeAccepted env); [|discriminate]. intros [= <- <-]. repeat split.
Qed.

Lemma initialize_keeps env fs this fs' this' :
  initialize env fs this = Some (fs', this') ->
  chainConfig this' = chainConfig this /\ running this' = running this.
Proof.
  unfold initialize. destruct (checkMainWalletBalance env); [|discriminate].
  intros Hi. apply initializeTempWallets_keeps in Hi. tauto.
Qed.

End StoreFacts.

Section SurfaceFacts.
Context `{Ethers} `{Json} `{MyServer.Builtins}.
Import MyServer.


Lemma reachable_shared_config target fs p :
  reachable target fs p -> Forall (fun b => chainConfig b = CHAIN_CONFIG_avax p) (bots p).
Proof.
  induction 1 as [fs | fs p mainKey body env Hr IH | fs p Hr IH].
  - constructor.
  - unfold apiStart. destruct (isRunning p); [exact IH|].
    assert (Hothers : Forall (fun b => chainConfig b = startOverrides body (CHAIN_CONFIG_avax p))
                        (setChainConfig (startOverrides body (CHAIN_CONFIG_avax p)) <$> bots p)).
    { apply Forall_fmap, Forall_true. reflexivity. }
    destruct (initialize _ _ _) as [[fs' bot']|] eqn:Hi; simpl; [|exact Hothers].
    apply Forall_app. split; [exact Hothers|]. constructor; [|constructor].
    apply initialize_keeps in Hi as [Hc _]. simpl. exact Hc.
  - simpl. apply Forall_fmap. eapply Forall_impl; [exact IH|]. intros b Hb. exact Hb.
Qed.

End SurfaceFacts.



(** X23.  In [mysever.js] every bot object holds a reference to the one
    [avax] entry of [CHAIN_CONFIG]: after any sequence of start and stop
    requests each bot of the [bots] array, the stopped ones included, reads
    the configuration the latest start request left there. *)
Theorem bots_share_the_configuration `{Ethers} `{Json} `{MyServer.Builtins}
  (target : string) (fs : gmap string FileText) (p : MyServer.Process) :
  reachable target fs p ->
  Forall (fun b => chainConfig b = MyServer.CHAIN_CONFIG_avax p) (MyServer.bots p).
Proof. apply reachable_shared_config. Qed.

Lemma bots_share_the_configuration_witness :
  Forall (fun b => chainConfig b = MyServer.CHAIN_CONFIG_avax Sample.afterTwoStarts)
    (MyServer.bots Sample.afterTwoStarts).
Proof.
  apply (@bots_share_the_configuration Sample.ethers Sample.json Sample.builtins "0xToken"
           (@MyServer.apiStart Sample.ethers Sample.json Sample.builtins "k"
              (Sample.body (Some 0%Q)) (Sample.init 2)
              (@MyServer.apiStart Sample.ethers Sample.json Sample.builtins "k"
                 (Sample.body (Some (80 # 1))) (Sample.init 2) Sample.noFiles
                 (MyServer.initialProcess "0xToken")).1.1
              (MyServer.apiStop
                 (@MyServer.apiStart Sample.ethers Sample.json Sample.builtins "k"
                    (Sample.body (Some (80 # 1))) (Sample.init 2) Sample.noFiles
                    (MyServer.initialProcess "0xToken")).1.2).1).1.1).
  apply (@reachable_start Sample.ethers Sample.json Sample.builtins).
  apply (@reachable_stop Sample.ethers Sample.json Sample.builtins).
  apply (@reachable_start Sample.ethers Sample.json Sample.builtins).
  apply (@reachable_boot Sample.ethers Sample.json Sample.builtins).
Defined.

Example two_bots_after_two_starts :
  length (MyServer.bots Sample.afterTwoStarts) = 2%nat
  /\ running <$> MyServer.bots Sample.afterTwoStarts = [false; true].
Proof. split; vm_compute; reflexivity. Qed.

(** X24.  A start request whose main wallet holds less than 0.001 AVAX
    (10^15 wei) is answered with the error, adds no bot and writes no file,
    yet the overrides it carried stay in the shared configuration, where the
    earlier bots and the next start read them. *)
Theorem underfunded_start_still_overrides `{Ethers} `{Json} `{MyServer.Builtins}
  (mainKey : string) (body : MyServer.StartBody) (env : InitEnv)
  (fs : gmap string FileText) (p : MyServer.Process) (balance : Z) :
  MyServer.isRunning p = false ->
  mainBalance env = Some balance -> balance < 1000000000000000 ->
  MyServer.apiStart mainKey body env fs p
  = (fs,
     {| MyServer.isRunning := false;
        MyServer.bots :=
          MyServer.setChainConfig (MyServer.startOverrides body (MyServer.CHAIN_CONFIG_avax p))
            <$> MyServer.bots p;
        MyServer.CHAIN_CONFIG_avax :=
          MyServer.startOverrides body (MyServer.CHAIN_CONFIG_avax p) |},
     MyServer.StartFailed).
Proof.
  intros Hoff Hbal Hlow. unfold MyServer.apiStart. rewrite Hoff.
  assert (Hcheck : checkMainWalletBalance env = None).
  { destruct (checkMainWalletBalance env) as [[]|] eqn:E; [|reflexivity].
    apply checkMainWalletBalance_wei in E as (b & Hb & Hge). rewrite Hbal in Hb.
    injection Hb as <-. lia. }
  unfold initialize. rewrite Hcheck. reflexivity.
Qed.

Lemma underfunded_start_still_overrides_witness :
  let env := {| mainBalance := Some 999999999999999;
                randomKey := fun _ => "k"%string; initShuffle := fun ws => ws;
                writeAccepted := true |} in
  @MyServer.apiStart Sample.ethers Sample.json Sample.builtins "k"
    (Sample.body (Some (80 # 1))) env Sample.noFiles (MyServer.initialProcess "0xToken")
  = (Sample.noFiles,
     {| MyServer.isRunning := false;
        MyServer.bots :=
          MyServer.setChainConfig
            (@MyServer.startOverrides Sample.builtins (Sample.body (Some (80 # 1)))
               (MyServer.CHAIN_CONFIG_avax (MyServer.initialProcess "0xToken")))
            <$> MyServer.bots (MyServer.initialProcess "0xToken");
        MyServer.CHAIN_CONFIG_avax :=
          @MyServer.startOverrides Sample.builtins (Sample.body (Some (80 # 1)))
            (MyServer.CHAIN_CONFIG_avax (MyServer.initialProcess "0xToken")) |},
     MyServer.StartFailed).
Proof.
  apply (@underfunded_start_still_overrides Sample.ethers Sample.json Sample.builtins "k"
           (Sample.body (Some (80 # 1)))
           {| mainBalance := Some 999999999999999;
              randomKey := fun _ => "k"%string; initShuffle := fun ws => ws;
              writeAccepted := true |}
           Sample.noFiles (MyServer.initialProcess "0xToken") 999999999999999).
  - reflexivity.
  - reflexivity.
  - lia.
Defined.

Example underfunded_start_raises_gas_limit :
  let env := {| mainBalance := Some 999999999999999;
                randomKey := fun _ => "k"%string; initShuffle := fun ws => ws;
                writeAccepted := true |} in
  maxGasPrice (MyServer.CHAIN_CONFIG_avax
                 (@MyServer.apiStart Sample.ethers Sample.json Sample.builtins "k"
                    (Sample.body (Some (80 # 1))) env Sample.noFiles
                    (MyServer.initialProcess "0xToken")).1.2) = (80 # 1)%Q.
Proof. vm_compute. reflexivity. Qed.


(** X26.  An override that parses to a number other than zero is stored as
    it is, the two intervals multiplied by 1000; nothing checks its sign or
    that a minimum stays below its maximum. *)
Theorem truthy_overrides_are_stored_unchecked `{MyServer.Builtins}
  (body : MyServer.StartBody) (cfg : ChainConfig) (gas fund lo hi first last : Q) :
  isTruthy (MyServer.parseFloat (MyServer.maxGas body)) gas ->
  isTruthy (MyServer.parseFloat (MyServer.AvaxFundAmount body)) fund ->
  isTruthy (MyServer.parseFloat (MyServer.tradingMintAmount body)) lo ->
  isTruthy (MyServer.parseFloat (MyServer.tradingMaxAmount body)) hi ->
  isTruthy (MyServer.seconds (MyServer.tradingMinInterval body)) first ->
  isTruthy (MyServer.seconds (MyServer.tradingMaxInterval body)) last ->
  MyServer.startOverrides body cfg
  = {| name := name cfg; maxGasPrice := gas; contracts := contracts cfg;
       tradingParams :=
         {| minAmountAVAX := lo; maxAmountAVAX := hi;
            minInterval := first; maxInterval := last;
            gasMultiplier := gasMultiplier (tradingParams cfg);
            fundAmount := fund |} |}.
Proof.
  intros Hg Hf Hlo Hhi Hfirst Hlast. unfold MyServer.startOverrides.
  now rewrite (orElse_truthy _ _ _ Hg), (orElse_truthy _ _ _ Hf), (orElse_truthy _ _ _ Hlo),
    (orElse_truthy _ _ _ Hhi), (orElse_truthy _ _ _ Hfirst), (orElse_truthy _ _ _ Hlast).
Qed.

Lemma truthy_overrides_are_stored_unchecked_witness :
  let body := @MyServer.Build_StartBody Sample.builtins (Some (2 # 1)) (Some (1 # 2))
                (Some ((-5 # 1))) (Some (3 # 10)) (Some (1 # 10)) (Some (90 # 1))
                (Some (30 # 1)) in
  @MyServer.startOverrides Sample.builtins body Sample.config
  = {| name := name Sample.config; maxGasPrice := (-5 # 1);
       contracts := contracts Sample.config;
       tradingParams :=
         {| minAmountAVAX := 3 # 10; maxAmountAVAX := 1 # 10;
            minInterval := inject_Z 90000; maxInterval := inject_Z 30000;
            gasMultiplier := gasMultiplier (tradingParams Sample.config);
            fundAmount := 1 # 2 |} |}.
Proof.
  apply (@truthy_overrides_are_stored_unchecked Sample.builtins
           (@MyServer.Build_StartBody Sample.builtins (Some (2 # 1)) (Some (1 # 2))
              (Some ((-5 # 1))) (Some (3 # 10)) (Some (1 # 10)) (Some (90 # 1))
              (Some (30 # 1)))
           Sample.config ((-5 # 1)) (1 # 2) (3 # 10) (1 # 10) (inject_Z 90000)
           (inject_Z 30000));
    (split; [reflexivity | vm_compute; congruence]).
Defined.

(** X27.  A start request whose wallet count parses to a negative number
    is accepted: with no wallet file on disk the generating loop does not
    run, an empty array is written to the file, and the bot is started with
    no wallet to trade with. *)
Theorem negative_wallet_count_starts_an_empty_bot `{Ethers} `{Json} `{MyServer.Builtins}
  (mainKey : string) (body : MyServer.StartBody) (env : InitEnv)
  (fs : gmap string FileText) (p : MyServer.Process) (count balance : Z) :
  MyServer.isRunning p = false ->
  MyServer.parseInt (MyServer.walletCounts body) = Some count -> count < 0 ->
  mainBalance env = Some balance -> 1000000000000000 <= balance ->
  fs !! "temp_wallets_avax.json"%string = None -> writeAccepted env = true ->
  exists bot,
    MyServer.apiStart mainKey body env fs p
    = (<["temp_wallets_avax.json"%string := JSON_stringify []]> fs,
       {| MyServer.isRunning := true;
          MyServer.bots :=
            (MyServer.setChainConfig (MyServer.startOverrides body (MyServer.CHAIN_CONFIG_avax p))
               <$> MyServer.bots p) ++ [bot];
          MyServer.CHAIN_CONFIG_avax :=
            MyServer.startOverrides body (MyServer.CHAIN_CONFIG_avax p) |},
       MyServer.Started)
    /\ tempWallets bot = [] /\ activeWallets bot = ∅ /\ running bot = true.
Proof.
  intros Hoff Hcount Hneg Hbal Hge Hfile Hwrite.
  assert (Hcheck : checkMainWalletBalance env = Some tt)
    by (apply checkMainWalletBalance_wei; eauto).
  unfold MyServer.apiStart, MyServer.walletCountOf. rewrite Hoff, Hcount.
  assert (Hnz : (count =? 0) = false) by (apply Z.eqb_neq; lia). rewrite Hnz.
  unfold initialize. rewrite Hcheck.
  unfold initializeTempWallets. cbn [walletFile newBot tempWalletCount tempWallets setTempWallets].
  change ("temp_wallets_" +:+ "avax" +:+ ".json") with "temp_wallets_avax.json"%string.
  rewrite Hfile, Hwrite.
  assert (Hnone : generateWallets env count = []).
  { unfold generateWallets. replace (Z.to_nat count) with 0%nat by lia. reflexivity. }
  rewrite Hnone. cbn [app].
  eexists. split; [reflexivity|]. repeat split.
Qed.

Lemma negative_wallet_count_starts_an_empty_bot_witness :
  let body := @MyServer.Build_StartBody Sample.builtins (Some (-3 # 1)) None None None None
                None None in
  exists bot,
    @MyServer.apiStart Sample.ethers Sample.json Sample.builtins "k" body (Sample.init 0)
      Sample.noFiles (MyServer.initialProcess "0xToken")
    = (<["temp_wallets_avax.json"%string := @JSON_stringify Sample.json []]> Sample.noFiles,
       {| MyServer.isRunning := true;
          MyServer.bots :=
            (MyServer.setChainConfig
               (@MyServer.startOverrides Sample.builtins body
                  (MyServer.CHAIN_CONFIG_avax (MyServer.initialProcess "0xToken")))
               <$> MyServer.bots (MyServer.initialProcess "0xToken")) ++ [bot];
          MyServer.CHAIN_CONFIG_avax :=
            @MyServer.startOverrides Sample.builtins body
              (MyServer.CHAIN_CONFIG_avax (MyServer.initialProcess "0xToken")) |},
       MyServer.Started)
    /\ tempWallets bot = [] /\ activeWallets bot = ∅ /\ running bot = true.
Proof.
  apply (@negative_wallet_count_starts_an_empty_bot Sample.ethers Sample.json Sample.builtins
           "k" (@MyServer.Build_StartBody Sample.builtins (Some (-3 # 1)) None None None None
                  None None)
           (Sample.init 0) Sample.noFiles (MyServer.initialProcess "0xToken")
           (-3) 1000000000000000000).
  - reflexivity.
  - reflexivity.
  - lia.
  - reflexivity.
  - lia.
  - reflexivity.
  - reflexivity.
Defined.

(** ** The size of the active set *)

Module SevenTenths.
Import Double.

Lemma roundNearestEven_close (P s : Z) :
  0 < s -> Z.abs (roundNearestEven P s * 2 ^ s - P) <= 2 ^ (s - 1).
Proof.
  intros Hs. unfold roundNearestEven.
  assert (Hpow : 2 ^ s = 2 * 2 ^ (s - 1)).
  { replace s with (1 + (s - 1)) at 1 by lia. rewrite Z.pow_add_r by lia. reflexivity. }
  assert (Hhalf : 0 < 2 ^ (s - 1)) by (apply Z.pow_pos_nonneg; lia).
  pose proof (Z.div_mod P (2 ^ s) ltac:(lia)) as Hdm.
  pose proof (Z.mod_pos_bound P (2 ^ s) ltac:(lia)) as Hr.
  set (q := P / 2 ^ s) in *. set (r := P mod 2 ^ s) in *.
  set (half := 2 ^ (s - 1)) in *. rewrite Hpow in *.
  destruct (r <? half) eqn:E1; [apply Z.ltb_lt in E1; lia|]. apply Z.ltb_ge in E1.
  destruct (half <? r) eqn:E2; [apply Z.ltb_lt in E2; lia|]. apply Z.ltb_ge in E2.
  destruct (Z.even q); lia.
Qed.

(** The binary64 product of a pool size and 0.7, floored, against the
    exact seven tenths. *)
Lemma floorMul_seven_tenths (n : Z) :
  0 <= n < 562949953421312 ->
  7 * n / 10 - 1 <= floorMul n (Z.pos ACTIVE_WALLET_PERCENTAGE_bits) <= 7 * n / 10
  /\ (n mod 10 <> 0 -> floorMul n (Z.pos ACTIVE_WALLET_PERCENTAGE_bits) = 7 * n / 10).
Proof.
  intros Hn. unfold floorMul, ACTIVE_WALLET_PERCENTAGE_bits.
  change (2 ^ 53) with 9007199254740992.
  set (P := n * 6305039478318694).
  assert (HP : 0 <= P) by (unfold P; lia).
  assert (Hclose : exists X h, (if excessBits P =? 0 then P else roundNearestEven P (excessBits P))
                                 * 2 ^ excessBits P = X
                               /\ Z.abs (X - P) <= h /\ 0 <= h <= n).
  { destruct (excessBits P =? 0) eqn:Es.
    - apply Z.eqb_eq in Es. rewrite Es. exists P, 0. rewrite Z.pow_0_r. lia.
    - apply Z.eqb_neq in Es.
      assert (Hs : 0 < excessBits P) by (unfold excessBits in *; lia).
      assert (HPpos : 0 < P).
      { destruct (Z.eq_dec P 0) as [E|]; [|lia]. rewrite E in Hs. vm_compute in Hs. discriminate. }
      set (s := excessBits P) in *.
      assert (Hlog : 2 ^ (s + 52) <= P).
      { assert (s + 52 = Z.log2 P) as -> by (unfold s, excessBits in *; lia).
        apply Z.log2_spec. exact HPpos. }
      replace (s + 52) with ((s - 1) + 53) in Hlog by lia.
      rewrite Z.pow_add_r in Hlog by lia.
      change (2 ^ 53) with 9007199254740992 in Hlog.
      assert (Hhalf : 0 < 2 ^ (s - 1)) by (apply Z.pow_pos_nonneg; lia).
      exists (roundNearestEven P s * 2 ^ s), (2 ^ (s - 1)).
      split; [reflexivity|]. split; [now apply roundNearestEven_close|].
      unfold P in Hlog. lia. }
  destruct Hclose as (X & h & -> & Habs & Hh).
  unfold P in Habs.
  pose proof (Z.div_mod (7 * n) 10 ltac:(lia)) as Hdm.
  pose proof (Z.mod_pos_bound (7 * n) 10 ltac:(lia)) as Hf.
  pose proof (Z.div_mod n 10 ltac:(lia)) as Hdn.
  pose proof (Z.mod_pos_bound n 10 ltac:(lia)) as Hb.
  set (j := 7 * n / 10) in *. set (f := (7 * n) mod 10) in *.
  set (a := n / 10) in *. set (b := n mod 10) in *.
  split; [split|].
  - apply Z.div_le_lower_bound; lia.
  - assert (X / 9007199254740992 < j + 1); [|lia].
    apply Z.div_lt_upper_bound; lia.
  - intros Hne.
    assert (Hfpos : 1 <= f) by lia.
    assert (j <= X / 9007199254740992) by (apply Z.div_le_lower_bound; lia).
    assert (X / 9007199254740992 < j + 1) by (apply Z.div_lt_upper_bound; lia).
    lia.
Qed.

End SevenTenths.

(** X28.  [Math.floor(length * 0.7)] is the exact floor of seven tenths of
    the pool size for every size that is not a multiple of ten; for a
    multiple of ten it is that number or one less (90 gives 62), because 0.7
    as a binary64 number lies below seven tenths.  Array lengths are below
    2^32, well inside the range covered. *)
Theorem activeCount_is_seven_tenths_or_one_less (poolSize : nat) :
  Z.of_nat poolSize < 562949953421312 ->
  7 * Z.of_nat poolSize / 10 - 1 <= Z.of_nat (activeCount poolSize) <= 7 * Z.of_nat poolSize / 10
  /\ (Z.of_nat poolSize mod 10 <> 0 ->
      Z.of_nat (activeCount poolSize) = 7 * Z.of_nat poolSize / 10).
Proof.
  intros Hn. unfold activeCount.
  destruct (SevenTenths.floorMul_seven_tenths (Z.of_nat poolSize) ltac:(lia)) as [[Hlo Hhi] Heq].
  assert (Hnonneg : 0 <= Double.floorMul (Z.of_nat poolSize) (Z.pos ACTIVE_WALLET_PERCENTAGE_bits)).
  { destruct (Z.eq_dec (Z.of_nat poolSize mod 10) 0) as [E|E].
    - pose proof (Z.div_mod (Z.of_nat poolSize) 10 ltac:(lia)) as Hd.
      destruct (Z.eq_dec (Z.of_nat poolSize) 0) as [E0|E0].
      + rewrite E0. vm_compute. discriminate.
      + assert (10 <= Z.of_nat poolSize) by lia.
        assert (7 <= 7 * Z.of_nat poolSize / 10) by (apply Z.div_le_lower_bound; lia). lia.
    - rewrite (Heq E). apply Z.div_pos; lia. }
  rewrite Z2Nat.id by exact Hnonneg. split; [split|]; assumption.
Qed.

Lemma activeCount_is_seven_tenths_or_one_less_witness :
  (7 * Z.of_nat 25 / 10 - 1 <= Z.of_nat (activeCount 25) <= 7 * Z.of_nat 25 / 10)
  /\ (Z.of_nat 25 mod 10 <> 0 -> Z.of_nat (activeCount 25) = 7 * Z.of_nat 25 / 10).
Proof.
  apply (activeCount_is_seven_tenths_or_one_less 25). vm_compute. reflexivity.
Defined.

Lemma filter_none {A} (f : A -> bool) (l : list A) :
  (forall x, f x = false) -> List.filter f l = [].
Proof. intros Hf. induction l as [|x l IH]; simpl; [reflexivity|]. now rewrite Hf. Qed.

Lemma eligibleWallets_without_active e this :
  activeWallets this = ∅ -> eligibleWallets e this = [].
Proof.
  intros Hempty. unfold eligibleWallets. apply filter_none. intros i. unfold isEligible.
  destruct (tempWallets this !! i) as [wallet|]; [|reflexivity].
  rewrite Hempty. reflexivity.
Qed.

Lemma activeCount_small (n : nat) : (n <= 1)%nat -> activeCount n = 0%nat.
Proof. intros Hn. destruct n as [|[|n]]; [reflexivity | reflexivity | lia]. Qed.

Lemma afterRecompute_small e this :
  (length (tempWallets this) <= 1)%nat -> activeWallets this = ∅ ->
  activeWallets (afterRecompute e this) = ∅.
Proof.
  intros Hlen Hempty. unfold afterRecompute. destruct (Qlt_bool _ _); [|exact Hempty].
  unfold updateActiveWallets. simpl. now rewrite (activeCount_small _ Hlen).
Qed.

Section IdleFacts.
Context `{Ethers} `{Json}.

Lemma handlerOf_activeWallets s this : activeWallets (handlerOf s this) = activeWallets this.
Proof. destruct s; reflexivity. Qed.

Lemma passOf_idle s e fs this :
  (length (tempWallets this) <= 1)%nat -> activeWallets this = ∅ ->
  tradedIndices (eventsOf (passOf s e fs this)) = []
  /\ tempWallets (botAfter (passOf s e fs this)) = tempWallets this
  /\ activeWallets (botAfter (passOf s e fs this)) = ∅.
Proof.
  intros Hlen Hempty.
  pose proof (afterRecompute_small e this Hlen Hempty) as Hact.
  pose proof (eligibleWallets_without_active e _ Hact) as Hnone.
  pose proof (passOf_summary s e fs this) as Hs. cbv zeta in Hs.
  assert (Hint : forall requested b,
             activeWallets (interrupt (handlerOf s) requested b) = activeWallets b
             /\ tempWallets (interrupt (handlerOf s) requested b) = tempWallets b).
  { intros requested b. unfold interrupt.
    destruct requested; [split; [apply handlerOf_activeWallets | apply handlerOf_tempWallets]
                        | split; reflexivity]. }
  split.
  - destruct (gateOf s this (chainGas e)) as [[|]|]; destruct Hs as (_ & -> & _); auto.
  - clear Hs. rewrite passOf_cycle, cycle_cases. cbv zeta. rewrite Hnone. cbn [tradeAll fst snd].
    destruct (gateOf s (afterRecompute e this) (chainGas e)) as [[|]|];
      [destruct (writeOk e)| |];
      unfold botAfter; cbn [fst snd];
      destruct (Hint (stopWhileSleeping e) (afterRecompute e this)) as [-> ->];
      rewrite afterRecompute_tempWallets; auto.
Qed.

Lemma loopOf_idle s envs : forall fs this,
  (length (tempWallets this) <= 1)%nat -> activeWallets this = ∅ ->
  tradedIndices (eventsOf (loopOf s envs fs this)) = [].
Proof.
  induction envs as [|e rest IH]; intros fs this Hlen Hempty.
  - destruct s; simpl; [|destruct (running this)]; reflexivity.
  - assert (Hstep : loopOf s (e :: rest) fs this
                    = (let '(fs1, this1, events) := passOf s e fs this in
                       let '(fs2, this2, events') := loopOf s rest fs1 this1 in
                       (fs2, this2, events ++ events'))
                    \/ loopOf s (e :: rest) fs this = (fs, this, [TradingStopped])).
    { destruct s; simpl; [now left|]. destruct (running this); [now left | now right]. }
    destruct Hstep as [-> | ->]; [|reflexivity].
    destruct (passOf_idle s e fs this Hlen Hempty) as (Ht & Hw & Ha).
    destruct (passOf s e fs this) as [[fs1 this1] events].
    unfold botAfter, eventsOf in Ht, Hw, Ha. simpl in Ht, Hw, Ha.
    specialize (IH fs1 this1 ltac:(now rewrite Hw) Ha).
    destruct (loopOf s rest fs1 this1) as [[fs2 this2] events'].
    unfold eventsOf in *. simpl in *. now rewrite tradedIndices_app, Ht, IH.
Qed.

End IdleFacts.

(** X29.  A bot whose pool holds a single wallet never trades: the active
    set [initializeTempWallets] computes for it is empty
    ([Math.floor(1 * 0.7)] is 0), every later recomputation empties it
    again, and the eligibility filter only lets active wallets through. *)
Theorem single_wallet_bot_never_trades `{Ethers} `{Json}
  (s : Script) (env : InitEnv) (stored : gmap string FileText) (fresh : Bot)
  (stored' : gmap string FileText) (this : Bot)
  (envs : list CycleEnv) (fs : gmap string FileText) (flag : bool) :
  initializeTempWallets env stored fresh = Some (stored', this) ->
  (length (tempWallets this) <= 1)%nat ->
  tradedIndices (eventsOf (loopOf s envs fs (setRunning this flag))) = [].
Proof.
  intros Hinit Hlen. apply loopOf_idle; [exact Hlen|]. simpl.
  apply initializeTempWallets_keeps in Hinit as (_ & _ & _ & ->).
  now rewrite (activeCount_small _ Hlen).
Qed.

Lemma single_wallet_bot_never_trades_witness :
  let this := updateActiveWallets (fun ws => ws)
                (setTempWallets (newBot Sample.config "avax" "0xMain" 1)
                   (@generateWallets Sample.ethers (Sample.init 1) 1)) in
  tradedIndices (eventsOf (@loopOf Sample.ethers Sample.json mysever_js
                             [Sample.pass 40000000000 []; Sample.pass 40000000000 []]
                             Sample.noFiles (setRunning this true))) = [].
Proof.
  apply (@single_wallet_bot_never_trades Sample.ethers Sample.json mysever_js
           (Sample.init 1) Sample.noFiles
           (newBot Sample.config "avax" "0xMain" 1)
           (<["temp_wallets_avax.json"%string :=
                @generateWallets Sample.ethers (Sample.init 1) 1]> Sample.noFiles)).
  - reflexivity.
  - vm_compute. lia.
Defined.
